(** * Employee API with JWT authentication

    A shallow embedding of [schemas.py], [db.py] and [apicall.py], and of
    what the specification says of [auth.py].

    - A Python [str] is a [string]; its characters are the code points
      below 256.  On those, the regular-expression class [\d] is exactly
      the ten ASCII digits.
    - A Python [int] is a [Z]; the store keeps it as a 32-bit int or a
      64-bit long, and the bounds are written out where a value crosses
      into the store.
    - A Python [dict] holding a MongoDB document is a [gmap string value].
    - The average of the salary report is an IEEE 754 double: it is kept
      as the fraction of its exact value, and the rounded average as its
      integer value.
    - The handlers are [async def] functions that run one after the other
      on the process-wide store: they are written in a state-and-exception
      monad over the database.  Limits of resources (the size of a
      document or of a reply, memory, time) are not part of the model. *)

From Stdlib Require Import ZArith Lia Ascii.
From stdpp Require Import gmap strings list sorting.

Open Scope Z_scope.

(** ** Values that the handlers read from and write to documents *)

Inductive value :=
| VNone
| VInt (z : Z)
| VStr (s : string)
| VList (l : list string).

#[global] Instance value_eq_dec : EqDecision value.
Proof. solve_decision. Defined.

(** Every stored document carries an [_id] (an ObjectId, twelve bytes,
    kept here as a number); the other keys are in [fields]. *)
Record document := { _id : N; fields : gmap string value }.

#[global] Instance document_eq_dec : EqDecision document.
Proof. solve_decision. Defined.

(** ** Exceptions *)

Inductive exn :=
| HTTPException (status_code : Z) (detail : string)
| ValueError (msg : string)
| KeyError (key : string)
| TypeError
| OverflowError
| WriteError
| DuplicateKeyError.

Inductive result (A : Type) :=
| Ok (a : A)
| Raise (e : exn).

Arguments Ok {A} a.
Arguments Raise {A} e.

Definition rbind {A B} (r : result A) (k : A -> result B) : result B :=
  match r with
  | Ok a => k a
  | Raise e => Raise e
  end.

(** ** schemas.py *)

Module schemas.

(** [\d] *)
Definition is_digit (c : ascii) : bool :=
  (48 <=? Z.of_N (N_of_ascii c)) && (Z.of_N (N_of_ascii c) <=? 57).

(** [\d{n}]: consumes exactly [n] digits and returns what follows. *)
Fixpoint digits (n : nat) (s : string) : option string :=
  match n with
  | O => Some s
  | S n' =>
      match s with
      | String c rest => if is_digit c then digits n' rest else None
      | EmptyString => None
      end
  end.

(** A literal character of the pattern. *)
Definition literal (c : ascii) (s : string) : option string :=
  match s with
  | String c' rest => if Ascii.eqb c c' then Some rest else None
  | EmptyString => None
  end.

Definition newline : string := String (ascii_of_N 10) EmptyString.

(** [$] without [re.MULTILINE]: the end of the string, or just before
    a newline that ends the string. *)
Definition at_end (s : string) : bool :=
  String.eqb s EmptyString || String.eqb s newline.

(** [DATE_RE.match(v)] for [DATE_RE = re.compile(r"^\d{4}-\d{2}-\d{2}$")],
    as a truth value. *)
Definition DATE_RE_match (v : string) : bool :=
  match
    digits 4 v ≫= fun r1 => literal "-" r1 ≫= fun r2 => digits 2 r2 ≫=
    fun r3 => literal "-" r3 ≫= fun r4 => digits 2 r4
  with
  | Some rest => at_end rest
  | None => false
  end.

Record EmployeeCreate := {
  employee_id : string;
  name : string;
  department : string;
  salary : Z;
  joining_date : string;
  skills : list string
}.

Definition date_error : exn := ValueError "joining_date must be YYYY-MM-DD".

(** [EmployeeCreate.check_date] *)
Definition check_date (v : string) : result string :=
  if negb (DATE_RE_match v) then Raise date_error else Ok v.

(** Building an [EmployeeCreate] from a request body whose fields have
    the declared types runs the validator of [joining_date]. *)
Definition parse_EmployeeCreate (body : EmployeeCreate) : result EmployeeCreate :=
  rbind (check_date (joining_date body)) (fun v =>
  Ok {| employee_id := employee_id body; name := name body;
        department := department body; salary := salary body;
        joining_date := v; skills := skills body |}).

(** A field of [EmployeeUpdate] is unset ([None]), or set, possibly to
    [None] ([Some None]): [dict(exclude_unset=True)] keeps the fields
    that were set, whatever their value. *)
Record EmployeeUpdate := {
  u_name : option (option string);
  u_department : option (option string);
  u_salary : option (option Z);
  u_joining_date : option (option string);
  u_skills : option (option (list string))
}.

(** [EmployeeUpdate.check_date]: [if v and not DATE_RE.match(v)]. *)
Definition check_date_update (v : option string) : result (option string) :=
  match v with
  | Some s =>
      if negb (String.eqb s EmptyString) && negb (DATE_RE_match s)
      then Raise date_error else Ok v
  | None => Ok None
  end.

Definition parse_EmployeeUpdate (body : EmployeeUpdate) : result EmployeeUpdate :=
  match u_joining_date body with
  | Some v =>
      rbind (check_date_update v) (fun v' =>
      Ok {| u_name := u_name body; u_department := u_department body;
            u_salary := u_salary body; u_joining_date := Some v';
            u_skills := u_skills body |})
  | None => Ok body
  end.

End schemas.

(** ** db.py: the store *)

Module db.

(** *** BSON types and the [$jsonSchema] validators *)

(** The driver writes a Python [int] as a 32-bit ["int"] when it fits
    and as a 64-bit ["long"] otherwise; an [int] that needs more than
    eight bytes cannot be written at all. *)
Inductive bsonType := bt_null | bt_int | bt_long | bt_string | bt_array.

#[global] Instance bsonType_eq_dec : EqDecision bsonType.
Proof. solve_decision. Defined.

Definition fits_int32 (z : Z) : bool := (- 2 ^ 31 <=? z) && (z <? 2 ^ 31).
Definition fits_int64 (z : Z) : bool := (- 2 ^ 63 <=? z) && (z <? 2 ^ 63).

Definition type_of (v : value) : bsonType :=
  match v with
  | VNone => bt_null
  | VInt z => if fits_int32 z then bt_int else bt_long
  | VStr _ => bt_string
  | VList _ => bt_array
  end.

Definition encodable (v : value) : bool :=
  match v with
  | VInt z => fits_int64 z
  | _ => true
  end.

(** One entry of ["properties"]. *)
Record property := {
  p_bsonType : bsonType;
  p_pattern : option (string -> bool);
  p_items : option bsonType
}.

Record jsonSchema := {
  required : list string;
  properties : list (string * property)
}.

Definition of_type (t : bsonType) : property :=
  {| p_bsonType := t; p_pattern := None; p_items := None |}.

(** The pattern of the schema is the text of [schemas.DATE_RE]; the
    store's regular expressions agree with Python's on it. *)
Definition employee_schema : jsonSchema :=
  {| required := ["employee_id"; "name"; "department"; "salary"; "joining_date"];
     properties :=
       [ ("employee_id", of_type bt_string);
         ("name", of_type bt_string);
         ("department", of_type bt_string);
         ("salary", of_type bt_int);
         ("joining_date",
           {| p_bsonType := bt_string;
              p_pattern := Some schemas.DATE_RE_match;
              p_items := None |});
         ("skills",
           {| p_bsonType := bt_array;
              p_pattern := None;
              p_items := Some bt_string |}) ] |}.

Definition property_ok (p : property) (v : value) : bool :=
  bool_decide (type_of v = p_bsonType p)
  && match p_pattern p, v with
     | Some re, VStr s => re s
     | _, _ => true
     end
  && match p_items p, v with
     | Some t, VList l => forallb (fun s => bool_decide (type_of (VStr s) = t)) l
     | _, _ => true
     end.

(** A document passes the validator when every required key is present
    and every listed property that is present has its type.  Other keys
    are allowed. *)
Definition validates (sch : jsonSchema) (d : gmap string value) : bool :=
  forallb (fun k => bool_decide (is_Some (d !! k))) (required sch)
  && forallb (fun kp => match d !! kp.1 with
                        | Some v => property_ok kp.2 v
                        | None => true
                        end) (properties sch).

(** *** The database and the monad of the handlers *)

(** A user document, as [user_schema] and [register_user] give it. *)
Record user_document := {
  username : string;
  email : string;
  full_name : string;
  hashed_password : string;
  disabled : bool
}.

(** [employees_collection] and [users_collection] in their natural
    (insertion) order, and the source of fresh ObjectIds of the driver. *)
Record database := {
  employees_collection : list document;
  users_collection : list user_document;
  next_ObjectId : N
}.

Definition M (A : Type) : Type := database -> result A * database.

Definition ret {A} (a : A) : M A := fun st => (Ok a, st).

Definition raise {A} (e : exn) : M A := fun st => (Raise e, st).

Definition bind {A B} (m : M A) (k : A -> M B) : M B :=
  fun st =>
    match m st with
    | (Ok a, st') => k a st'
    | (Raise e, st') => (Raise e, st')
    end.

End db.

Notation "'let*' x ':=' m 'in' k" := (db.bind m (fun x => k))
  (at level 10, x name, m at level 100, k at level 200).

(** ** The collection methods that the handlers call

    What the driver and the store do for the calls made by [apicall.py],
    on the employees collection. *)

Module collection.
Import db.

(** *** Ordering of strings and of sort keys *)

(** Strings compare by code point, character by character. *)
Fixpoint str_le (a b : string) : bool :=
  match a, b with
  | EmptyString, _ => true
  | String _ _, EmptyString => false
  | String x a', String y b' =>
      (N_of_ascii x <? N_of_ascii y)%N
      || ((N_of_ascii x =? N_of_ascii y)%N && str_le a' b')
  end.

(** What a field contributes to a sort: an empty array sorts below a
    null or missing field, which sorts below numbers, which sort below
    strings. *)
Inductive sort_key :=
| k_undefined
| k_null
| k_number (z : Z)
| k_string (s : string).

Definition key_le (a b : sort_key) : bool :=
  match a, b with
  | k_undefined, _ => true
  | _, k_undefined => false
  | k_null, _ => true
  | _, k_null => false
  | k_number x, k_number y => x <=? y
  | k_number _, k_string _ => true
  | k_string _, k_number _ => false
  | k_string s, k_string t => str_le s t
  end.

Definition key_max (a b : sort_key) : sort_key :=
  if key_le a b then b else a.

(** In a descending sort an array counts as its largest element. *)
Definition descending_key (v : option value) : sort_key :=
  match v with
  | None | Some VNone => k_null
  | Some (VInt z) => k_number z
  | Some (VStr s) => k_string s
  | Some (VList l) => foldr (fun s k => key_max (k_string s) k) k_undefined l
  end.

(** [d1] may come before [d2] in [sort(key, -1)]. *)
Definition before_desc (key : string) (d1 d2 : document) : Prop :=
  key_le (descending_key (fields d2 !! key)) (descending_key (fields d1 !! key)) = true.

#[global] Instance before_desc_dec key d1 d2 : Decision (before_desc key d1 d2).
Proof. unfold before_desc. apply _. Defined.

Definition sort_desc (key : string) (l : list document) : list document :=
  merge_sort (before_desc key) l.

(** *** Filters *)

(** The three shapes of filter in [apicall.py]: [{}], [{k: s}] with a
    string [s], and [{"_id": oid}]. *)
Inductive query :=
| q_all
| q_field (k : string) (s : string)
| q_id (oid : N).

(** A field matches a string when it is that string, or an array that
    has it as an element. *)
Definition field_matches (v : option value) (s : string) : bool :=
  match v with
  | Some (VStr t) => String.eqb t s
  | Some (VList l) => existsb (String.eqb s) l
  | _ => false
  end.

Definition matches (q : query) (d : document) : bool :=
  match q with
  | q_all => true
  | q_field k s => field_matches (fields d !! k) s
  | q_id oid => (_id d =? oid)%N
  end.

(** *** find_one, insert_one, update_one, delete_one *)

Definition find_one (q : query) : M (option document) :=
  fun st => (Ok (head (List.filter (matches q) (employees_collection st))), st).

Definition set_employees (l : list document) (st : database) : database :=
  {| employees_collection := l;
     users_collection := users_collection st;
     next_ObjectId := next_ObjectId st |}.

(** The driver draws a fresh ObjectId for a document without [_id]. *)
Definition new_ObjectId : M N :=
  fun st =>
    (Ok (next_ObjectId st),
     {| employees_collection := employees_collection st;
        users_collection := users_collection st;
        next_ObjectId := N.succ (next_ObjectId st) |}).

Definition all_encodable (d : gmap string value) : bool :=
  bool_decide (map_Forall (fun _ v => encodable v = true) d).

(** The unique indexes of [startup_event] and of [_id]. *)
Definition duplicate_key (oid : N) (d : gmap string value) (l : list document) : bool :=
  existsb (fun d' =>
    (_id d' =? oid)%N
    || match d !! "employee_id" with
       | Some (VStr s) => field_matches (fields d' !! "employee_id") s
       | _ => false
       end) l.

(** [insert_one(data)] returns [inserted_id]. *)
Definition insert_one (data : gmap string value) : M N :=
  let* oid := new_ObjectId in
  if negb (all_encodable data) then raise OverflowError
  else if negb (validates employee_schema data) then raise WriteError
  else fun st =>
    if duplicate_key oid data (employees_collection st)
    then (Raise DuplicateKeyError, st)
    else (Ok oid,
          set_employees
            (employees_collection st ++ [{| _id := oid; fields := data |}]) st).

(** [$set]: the keys of [update_data] take their new values, the other
    keys of the document stay. *)
Definition apply_set (update_data : gmap string value) (d : document) : document :=
  {| _id := _id d; fields := update_data ∪ fields d |}.

(** Index of the first document that matches. *)
Fixpoint first_match (q : query) (l : list document) : option nat :=
  match l with
  | [] => None
  | d :: l' => if matches q d then Some O else S <$> first_match q l'
  end.

(** [update_one(filter, {"$set": update_data})] returns [matched_count].
    A document that the update leaves as it is, is not written again;
    a changed document is checked by the validator. *)
Definition update_one (q : query) (update_data : gmap string value) : M Z :=
  if negb (all_encodable update_data) then raise OverflowError
  else fun st =>
    let l := employees_collection st in
    match first_match q l with
    | None => (Ok 0, st)
    | Some i =>
        match l !! i with
        | None => (Ok 0, st)
        | Some d =>
            let d' := apply_set update_data d in
            if bool_decide (d' = d) then (Ok 1, st)
            else if negb (validates employee_schema (fields d'))
                 then (Raise WriteError, st)
                 else (Ok 1, set_employees (<[i := d']> l) st)
        end
    end.

(** [delete_one(filter)] returns [deleted_count]. *)
Definition delete_one (q : query) : M Z :=
  fun st =>
    let l := employees_collection st in
    match first_match q l with
    | None => (Ok 0, st)
    | Some i => (Ok 1, set_employees (delete i l) st)
    end.

(** *** find(...).sort(key, -1).skip(skip).limit(limit) *)

(** [limit(0)] sets no limit.  A negative limit asks for one batch of
    at most that many documents, and a batch has 101 documents unless
    the caller sets [batch_size]. *)
Definition apply_limit (limit : Z) (l : list document) : list document :=
  if limit =? 0 then l
  else if 0 <? limit then take (Z.to_nat limit) l
  else take (Z.to_nat (Z.min (- limit) 101)) l.

(** [skip] refuses a negative number when it is called; the numbers of
    the command are written as BSON integers when the cursor is read. *)
Definition find_sort_skip_limit
    (q : query) (key : string) (skip limit : Z) : M (list document) :=
  if skip <? 0 then raise (ValueError "skip must be >= 0")
  else if negb (fits_int64 skip && fits_int64 (Z.abs limit)) then raise OverflowError
  else fun st =>
    (Ok (apply_limit limit
           (drop (Z.to_nat skip)
              (sort_desc key (List.filter (matches q) (employees_collection st))))),
     st).

(** *** aggregate(pipeline) *)

(** The operators of a [$match] stage on one field. *)
Inductive condition :=
| c_exists (b : bool)
| c_type (t : bsonType).

(** [$type] on an array also looks at its elements. *)
Definition holds (c : condition) (v : option value) : bool :=
  match c with
  | c_exists b => bool_decide (bool_decide (is_Some v) = b)
  | c_type t =>
      match v with
      | None => false
      | Some (VList l) =>
          bool_decide (bt_array = t)
          || existsb (fun s => bool_decide (type_of (VStr s) = t)) l
      | Some x => bool_decide (type_of x = t)
      end
  end.

Definition stage_match (conds : list (string * list condition))
    (l : list document) : list document :=
  List.filter (fun d =>
    forallb (fun kc => forallb (fun c => holds c (fields d !! kc.1)) kc.2) conds) l.

(** ["$k"]: a missing field reads as null. *)
Definition field_path (k : string) (d : document) : value :=
  default VNone (fields d !! k).

(** [{"$round": [x, 0]}] rounds to the nearest integer, and a value
    halfway between two integers to the even one.  The value is the
    fraction [sum / count] with a positive [count]. *)
Definition round_half_even (sum count : Z) : Z :=
  let q := sum / count in
  let r := sum mod count in
  if 2 * r <? count then q
  else if count <? 2 * r then q + 1
  else if Z.even q then q else q + 1.

(** *** Doubles

    The store computes an average in IEEE 754 binary64: 53 significant
    bits, round to nearest, ties to even.  A finite double is kept as
    the fraction (numerator, denominator) of its exact value, the
    denominator a power of two.  Infinities are not modelled: an
    average of 32-bit salaries never leaves the range of the doubles. *)

(** The binade of |p/q| for [p <> 0] and [0 < q]: the integer [l] with
    2^l <= |p/q| < 2^(l+1). *)
Definition ilog2 (p q : Z) : Z :=
  if q <=? Z.abs p then Z.log2 (Z.abs p / q)
  else - Z.log2_up ((q + Z.abs p - 1) / Z.abs p).

(** The double nearest to the integer [z]; its value is an integer. *)
Definition double_of_int (z : Z) : Z :=
  let k := Z.max 0 (Z.log2 (Z.abs z) - 52) in
  round_half_even z (2 ^ k) * 2 ^ k.

(** The double nearest to [p / q] for [0 < q]: the quotient is rounded
    at the 53rd significant bit, or at 2^-1074 where the doubles are
    subnormal. *)
Definition double_div (p q : Z) : Z * Z :=
  if p =? 0 then (0, 1)
  else
    let e := Z.max (ilog2 p q - 52) (- 1074) in
    if 0 <=? e then (round_half_even p (q * 2 ^ e) * 2 ^ e, 1)
    else (round_half_even (p * 2 ^ (- e)) q, 2 ^ (- e)).

(** [$avg] over a group: the numbers are summed and counted, other
    values are ignored; [None] (null) when there is no number.  The
    sum of the integers is exact, and the mean is the double quotient
    of the sum as a double by the count as a double. *)
Definition numbers_of (k : string) (l : list document) : list Z :=
  omap (fun d => match fields d !! k with Some (VInt z) => Some z | _ => None end) l.

Definition avg (zs : list Z) : option (Z * Z) :=
  match zs with
  | [] => None
  | _ => Some (double_div (double_of_int (foldr Z.add 0 zs))
                 (double_of_int (Z.of_nat (length zs))))
  end.

(** [{"$group": {"_id": "$key", out: {"$avg": "$k"}}}]: one group per
    value of the key. *)
Definition stage_group_avg (key k : string) (l : list document)
    : list (value * option (Z * Z)) :=
  (fun g => (g, avg (numbers_of k
                      (List.filter (fun d => bool_decide (field_path key d = g)) l))))
    <$> remove_dups (field_path key <$> l).

(** [{"$round": ["$avg_salary", 0]}] on the double that [$avg] gave;
    the rounded double is kept as its integer value. *)
Definition round0 (x : option (Z * Z)) : option Z :=
  match x with
  | Some (sum, count) => Some (round_half_even sum count)
  | None => None
  end.

End collection.

(** ** auth.py *)

Module auth.
Import db.

Section auth.

(** The signing key, the signature scheme of the tokens and the text
    of the 401 answer are fixed where the process starts. *)
Variable SECRET_KEY : string.
Variable sign : string -> string * Z -> string.
Variable credentials_detail : string.

(** Modelled from the spec: the token of auth.py, a signed bearer
    credential that carries its subject and its absolute expiry.
    Times are in seconds. *)
Record Token := { sub : string; exp : Z; signature : string }.

(** Modelled from the spec: [create_access_token] of auth.py, the
    spec's [issue(subject, ttl)]; the token carries the subject and
    the expiry now + ttl, signed. *)
Definition create_access_token (subject : string) (expires_delta now : Z) : Token :=
  {| sub := subject;
     exp := now + expires_delta;
     signature := sign SECRET_KEY (subject, now + expires_delta) |}.

(** Modelled from the spec: the spec's [verify(token)] of auth.py; it
    checks the signature and the expiry, and gives the subject or
    nothing, without saying why. *)
Definition verify (token : Token) (now : Z) : option string :=
  if negb (String.eqb (signature token) (sign SECRET_KEY (sub token, exp token)))
  then None
  else if exp token <? now then None
  else Some (sub token).

Definition Unauthorized : exn := HTTPException 401 credentials_detail.

Definition findByUsername (u : string) : M (option user_document) :=
  fun st =>
    (Ok (head (List.filter (fun d => String.eqb (username d) u) (users_collection st))),
     st).

(** Modelled from the spec: [get_current_active_user] of auth.py, the
    auth middleware as the spec describes the original: verify the
    bearer token, resolve the subject to a user, and fail with
    Unauthorized (401) when the token is missing or invalid or the
    user is not found.  The original does not look at the [disabled]
    flag after the lookup (sections 4.4 and 9 of the spec). *)
Definition get_current_active_user (bearer : option Token) (now : Z)
    : M user_document :=
  match bearer with
  | None => raise Unauthorized
  | Some token =>
      match verify token now with
      | None => raise Unauthorized
      | Some subject =>
          let* found := findByUsername subject in
          match found with
          | None => raise Unauthorized
          | Some user => ret user
          end
      end
  end.

(** [Depends(get_current_active_user)]: the dependency runs first,
    and the handler only when it returns a user. *)
Definition Depends {A} (bearer : option Token) (now : Z)
    (handler : user_document -> M A) : M A :=
  let* current_user := get_current_active_user bearer now in
  handler current_user.

End auth.

End auth.

(** ** apicall.py *)

Module apicall.
Import db collection.

(** *** Helpers *)

Definition hex_digit (n : N) : ascii :=
  ascii_of_N (if (n <? 10)%N then 48 + n else 87 + n)%N.

Fixpoint hex (k : nat) (n : N) : string :=
  match k with
  | O => EmptyString
  | S k' => hex k' (n / 16)%N +:+ String (hex_digit (n mod 16)%N) EmptyString
  end.

(** [str(doc["_id"])]: the 24 hexadecimal digits of the ObjectId. *)
Definition str_ObjectId (oid : N) : string := hex 24 oid.

(** [doc[k]] *)
Definition getitem (doc : document) (k : string) : result value :=
  match fields doc !! k with
  | Some v => Ok v
  | None => Raise (KeyError k)
  end.

Definition employee_helper (doc : document) : result (gmap string value) :=
  rbind (getitem doc "employee_id") (fun v_employee_id =>
  rbind (getitem doc "name") (fun v_name =>
  rbind (getitem doc "department") (fun v_department =>
  rbind (getitem doc "salary") (fun v_salary =>
  rbind (getitem doc "joining_date") (fun v_joining_date =>
  Ok (<["id" := VStr (str_ObjectId (_id doc))]>
      (<["employee_id" := v_employee_id]>
      (<["name" := v_name]>
      (<["department" := v_department]>
      (<["salary" := v_salary]>
      (<["joining_date" := v_joining_date]>
      (<["skills" := default (VList []) (fields doc !! "skills")]> ∅)))))))))))).

(** [[employee_helper(doc) async for doc in cursor]] *)
Fixpoint employee_helper_all (l : list document) : result (list (gmap string value)) :=
  match l with
  | [] => Ok []
  | d :: l' =>
      rbind (employee_helper d) (fun x =>
      rbind (employee_helper_all l') (fun xs => Ok (x :: xs)))
  end.

Definition lift {A} (r : result A) : M A := fun st => (r, st).

(** [jsonable_encoder(emp)] *)
Definition jsonable_encoder (emp : schemas.EmployeeCreate) : gmap string value :=
  <["employee_id" := VStr (schemas.employee_id emp)]>
  (<["name" := VStr (schemas.name emp)]>
  (<["department" := VStr (schemas.department emp)]>
  (<["salary" := VInt (schemas.salary emp)]>
  (<["joining_date" := VStr (schemas.joining_date emp)]>
  (<["skills" := VList (schemas.skills emp)]> ∅))))).

(** *** Auth endpoint *)

Section login.
(** What [apicall.py] imports from auth.py besides the functions
    modelled above: the life time of a token, in minutes, and the
    password check. *)
Variable SECRET_KEY : string.
Variable sign : string -> string * Z -> string.
Variable ACCESS_TOKEN_EXPIRE_MINUTES : Z.
Variable verify_password : string -> string -> bool.

(** [timedelta(minutes=m)] in seconds. *)
Definition minutes (m : Z) : Z := 60 * m.

(** POST /auth/login, with the time of the call. *)
Definition login_for_access_token (login_username login_password : string)
    (now : Z) : M (auth.Token * string) :=
  let* user := auth.findByUsername login_username in
  match user with
  | Some u =>
      if negb (verify_password login_password (hashed_password u))
      then raise (HTTPException 401 "Incorrect username or password")
      else
        let access_token :=
          auth.create_access_token SECRET_KEY sign (username u)
            (minutes ACCESS_TOKEN_EXPIRE_MINUTES) now in
        ret (access_token, "bearer")
  | None => raise (HTTPException 401 "Incorrect username or password")
  end.
End login.


(** *** Employee endpoints: the bodies of the handlers, which run once
    [get_current_active_user] has returned *)

(** POST /employees *)
Definition create_employee (emp : schemas.EmployeeCreate) : M (gmap string value) :=
  let data := jsonable_encoder emp in
  let* existing := find_one (q_field "employee_id" (schemas.employee_id emp)) in
  match existing with
  | Some _ => raise (HTTPException 400 "employee_id already exists")
  | None =>
      let* inserted_id := insert_one data in
      let* new_doc := find_one (q_id inserted_id) in
      match new_doc with
      | Some doc => lift (employee_helper doc)
      | None => raise TypeError
      end
  end.

(** POST /employees from the request body: the body is validated, and
    the handler runs on a valid one. *)
Definition post_employees (body : schemas.EmployeeCreate) : M (gmap string value) :=
  let* emp := lift (schemas.parse_EmployeeCreate body) in
  create_employee emp.

(** [x if department else y]: [None] and the empty string are false. *)
Definition truthy (department : option string) : bool :=
  match department with
  | Some s => negb (String.eqb s EmptyString)
  | None => false
  end.

(** GET /employees *)
Definition list_employees (department : option string) (page size : Z)
    : M (list (gmap string value)) :=
  let query :=
    if truthy department then q_field "department" (default EmptyString department)
    else q_all in
  let skip := (page - 1) * size in
  let* docs := find_sort_skip_limit query "joining_date" skip size in
  lift (employee_helper_all docs).

(** The pipeline of GET /employees/avg-salary. *)
Definition pipeline (l : list document) : list (gmap string value) :=
  (fun g =>
     <["department" := g.1]>
     (<["avg_salary" := match round0 g.2 with
                        | Some z => VInt z
                        | None => VNone
                        end]> ∅))
  <$> stage_group_avg "department" "salary"
        (stage_match [ ("salary", [c_exists true; c_type bt_int]);
                       ("department", [c_exists true]) ] l).

Definition aggregate : M (list (gmap string value)) :=
  fun st => (Ok (pipeline (employees_collection st)), st).

(** The rows that the loop appends to [results]. *)
Fixpoint results_of (l : list (gmap string value)) : result (list (gmap string value)) :=
  match l with
  | [] => Ok []
  | doc :: l' =>
      match doc !! "department", doc !! "avg_salary" with
      | Some dep, Some a =>
          rbind (results_of l') (fun rs =>
          Ok ((<["department" := dep]> (<["avg_salary" := a]> ∅)) :: rs))
      | None, _ => Raise (KeyError "department")
      | _, None => Raise (KeyError "avg_salary")
      end
  end.

(** GET /employees/avg-salary; the value is the list under ["data"]. *)
Definition avg_salary_by_department : M (list (gmap string value)) :=
  let* docs := aggregate in
  lift (results_of docs).

(** GET /employees/search *)
Definition search_by_skill (skill : string) : M (list (gmap string value)) :=
  let* docs := find_sort_skip_limit (q_field "skills" skill) "joining_date" 0 0 in
  lift (employee_helper_all docs).

(** GET /employees/{employee_id} *)
Definition get_employee (employee_id : string) : M (gmap string value) :=
  let* doc := find_one (q_field "employee_id" employee_id) in
  match doc with
  | Some d => lift (employee_helper d)
  | None => raise (HTTPException 404 "Employee not found")
  end.

Definition put {A} (k : string) (f : A -> value) (x : option (option A))
    (m : gmap string value) : gmap string value :=
  match x with
  | Some (Some a) => <[k := f a]> m
  | Some None => <[k := VNone]> m
  | None => m
  end.

(** [emp.dict(exclude_unset=True)] *)
Definition dict_exclude_unset (emp : schemas.EmployeeUpdate) : gmap string value :=
  put "name" VStr (schemas.u_name emp)
  (put "department" VStr (schemas.u_department emp)
  (put "salary" VInt (schemas.u_salary emp)
  (put "joining_date" VStr (schemas.u_joining_date emp)
  (put "skills" VList (schemas.u_skills emp) ∅)))).

(** PUT /employees/{employee_id} *)
Definition update_employee (employee_id : string) (emp : schemas.EmployeeUpdate)
    : M string :=
  let update_data := dict_exclude_unset emp in
  if bool_decide (update_data = ∅)
  then raise (HTTPException 400 "No fields provided for update")
  else
    let* matched_count := update_one (q_field "employee_id" employee_id) update_data in
    if matched_count =? 0 then raise (HTTPException 404 "Employee not found")
    else ret "Employee updated".

(** PUT /employees/{employee_id} from the request body: the body is
    validated, and the handler runs on a valid one. *)
Definition put_employees (employee_id : string) (body : schemas.EmployeeUpdate)
    : M string :=
  let* emp := lift (schemas.parse_EmployeeUpdate body) in
  update_employee employee_id emp.

(** DELETE /employees/{employee_id} *)
Definition delete_employee (employee_id : string) : M string :=
  let* deleted_count := delete_one (q_field "employee_id" employee_id) in
  if deleted_count =? 0 then raise (HTTPException 404 "Employee not found")
  else ret "Employee deleted".

End apicall.

(** ** Stores that the handlers build *)

Module invariant.
Import db collection.

(** The invariant of the employees collection: every document passes
    the validator of [db.py], the ObjectIds in use are below the next
    fresh one, and no two documents share an [employee_id] (the unique
    index of [startup_event]). *)
Definition store_ok (st : database) : Prop :=
  Forall (fun d => validates employee_schema (fields d) = true)
         (employees_collection st)
  /\ Forall (fun d => (_id d < next_ObjectId st)%N) (employees_collection st)
  /\ NoDup ((fun d => fields d !! "employee_id") <$> employees_collection st).

Definition empty_database : database :=
  {| employees_collection := []; users_collection := []; next_ObjectId := 0 |}.

(** The requests that write to the employees collection, and the
    database after one of them, whether it succeeds or fails. *)
Inductive write_request :=
| POST_employees (body : schemas.EmployeeCreate)
| PUT_employees (employee_id : string) (body : schemas.EmployeeUpdate)
| DELETE_employees (employee_id : string).

Definition after (st : database) (r : write_request) : database :=
  match r with
  | POST_employees body => (apicall.post_employees body st).2
  | PUT_employees employee_id body => (apicall.update_employee employee_id body st).2
  | DELETE_employees employee_id => (apicall.delete_employee employee_id st).2
  end.

(** A record with this [employee_id] is stored. *)
Definition has_employee_id (eid : string) (d : document) : Prop :=
  fields d !! "employee_id" = Some (VStr eid).

(** [d1] joined no earlier than [d2]: the order of [joining_date]
    strings, latest first. *)
Definition joined_no_earlier (d1 d2 : document) : Prop :=
  exists s1 s2,
    fields d1 !! "joining_date" = Some (VStr s1)
    /\ fields d2 !! "joining_date" = Some (VStr s2)
    /\ str_le s2 s1 = true.

(** What a field of an [EmployeeUpdate] puts into [update_data]:
    nothing when it is unset, its value (null for [None]) when set. *)
Definition supplied {A} (f : A -> value) (x : option (option A)) : option value :=
  match x with
  | Some (Some a) => Some (f a)
  | Some None => Some VNone
  | None => None
  end.

(** The record is in the department asked for; every record is when
    no department is asked for. *)
Definition in_department (department : option string) (d : document) : Prop :=
  match department with
  | Some dep => fields d !! "department" = Some (VStr dep)
  | None => True
  end.

#[global] Instance in_department_dec department d : Decision (in_department department d).
Proof. destruct department; cbn; apply _. Defined.

(** The skills list of the record contains the skill. *)
Definition has_skill (skill : string) (d : document) : Prop :=
  match fields d !! "skills" with
  | Some (VList l) => skill ∈ l
  | _ => False
  end.

#[global] Instance has_skill_dec skill d : Decision (has_skill skill d).
Proof. unfold has_skill. destruct (fields d !! "skills") as [[| | |l]|]; apply _. Defined.

(** What a record adds to the report for department [g]: its salary,
    when the salary is present and a 32-bit int and the department is
    present and is [g]. *)
Definition aggregated_salary (g : value) (d : document) : option Z :=
  match fields d !! "salary", fields d !! "department" with
  | Some (VInt z), Some g' =>
      if fits_int32 z && bool_decide (g' = g) then Some z else None
  | _, _ => None
  end.

Definition salaries_of (g : value) (l : list document) : list Z :=
  omap (aggregated_salary g) l.

(** [a] is an integer nearest to the mean of the numbers [zs]: the
    distance from [a] to the mean is at most one half. *)
Definition nearest_to_mean (a : Z) (zs : list Z) : Prop :=
  zs <> []
  /\ Z.abs (2 * (Z.of_nat (length zs) * a - foldr Z.add 0 zs))
     <= Z.of_nat (length zs).

(** The exact mean of the numbers [zs], rounded to the nearest
    integer, a half to the even one. *)
Definition rounded_mean (zs : list Z) : Z :=
  round_half_even (foldr Z.add 0 zs) (Z.of_nat (length zs)).

(** The average that the report shows for the salaries [zs]: their
    mean as the store computes it, rounded. *)
Definition reported_mean (zs : list Z) : Z := default 0 (round0 (avg zs)).

(** One row of the report. *)
Definition report_row (g : value) (a : Z) : gmap string value :=
  <["department" := g]> (<["avg_salary" := VInt a]> ∅).

(** [o] is the record [d] as the API returns it: the ObjectId in
    hexadecimal under [id], the five required fields with the stored
    values, the skills ([[]] for a record without skills), and no
    other key. *)
Definition shows (d : document) (o : gmap string value) : Prop :=
  o !! "id" = Some (VStr (apicall.str_ObjectId (_id d)))
  /\ o !! "employee_id" = fields d !! "employee_id"
  /\ o !! "name" = fields d !! "name"
  /\ o !! "department" = fields d !! "department"
  /\ o !! "salary" = fields d !! "salary"
  /\ o !! "joining_date" = fields d !! "joining_date"
  /\ o !! "skills" = Some (default (VList []) (fields d !! "skills"))
  /\ dom o = {[ "id"; "employee_id"; "name"; "department"; "salary";
                "joining_date"; "skills" ]}.

(** The partial body supplies no field. *)
Definition no_fields (emp : schemas.EmployeeUpdate) : Prop :=
  schemas.u_name emp = None
  /\ schemas.u_department emp = None
  /\ schemas.u_salary emp = None
  /\ schemas.u_joining_date emp = None
  /\ schemas.u_skills emp = None.

(** The strings that [DATE_RE] describes: four digits, two digits and
    two digits with "-" between them, and after them nothing or one
    newline. *)
Definition date_shape (v : string) : Prop :=
  exists y1 y2 y3 y4 m1 m2 d1 d2 tail,
    v = String y1 (String y2 (String y3 (String y4 (String "-"
         (String m1 (String m2 (String "-" (String d1 (String d2 tail)))))))))
    /\ Forall (fun c => schemas.is_digit c = true) [y1; y2; y3; y4; m1; m2; d1; d2]
    /\ (tail = EmptyString \/ tail = schemas.newline).

(** The partial body sets a field to a value that the validator of the
    store refuses under its key: null, a salary that is not a 32-bit
    int, or a [joining_date] that the pattern does not match. *)
Definition refused_field (emp : schemas.EmployeeUpdate) : Prop :=
  schemas.u_name emp = Some None
  \/ schemas.u_department emp = Some None
  \/ schemas.u_salary emp = Some None
  \/ (exists z, schemas.u_salary emp = Some (Some z) /\ fits_int32 z = false)
  \/ schemas.u_joining_date emp = Some None
  \/ (exists s, schemas.u_joining_date emp = Some (Some s)
                /\ schemas.DATE_RE_match s = false)
  \/ schemas.u_skills emp = Some None.

(** The keys that [employee_helper] reads with [doc[k]]. *)
Definition helper_keys : list string :=
  ["employee_id"; "name"; "department"; "salary"; "joining_date"].

(** The record takes no part in the salary report. *)
Definition unreported (d : document) : Prop :=
  forall g, aggregated_salary g d = None.

End invariant.

(** ** Sample data *)

Module sample.
Import db invariant.

Definition employee (id n dep : string) (sal : Z) (jd : string)
    (sk : list string) : schemas.EmployeeCreate :=
  {| schemas.employee_id := id; schemas.name := n; schemas.department := dep;
     schemas.salary := sal; schemas.joining_date := jd; schemas.skills := sk |}.

Definition ann := employee "E1" "Ann" "Eng" 100 "2024-03-01" ["rust"; "go"].
Definition bob := employee "E2" "Bob" "Eng" 200 "2023-07-15" [].
Definition cy := employee "E3" "Cy" "Sales" 50 "2025-01-10" ["rust"].
Definition dee := employee "E4" "Dee" "Ops" 70 "2024-11-30" [].

(** A month that no calendar has. *)
Definition thirteenth_month := employee "E5" "Eve" "Ops" 70 "2024-13-01" [].

(** A month written with one digit. *)
Definition short_month := employee "E6" "Fay" "Ops" 70 "2024-1-01" [].

(** A salary one above the largest 32-bit int. *)
Definition long_salary := employee "E7" "Gus" "Ops" (2 ^ 31) "2024-05-20" [].

Definition stored (oid : N) (emp : schemas.EmployeeCreate) : document :=
  {| _id := oid; fields := apicall.jsonable_encoder emp |}.

Definition three_employees : database :=
  {| employees_collection := [stored 0 ann; stored 1 bob; stored 2 cy];
     users_collection := [];
     next_ObjectId := 3 |}.

(** What the API shows of a record stored under [oid]. *)
Definition shown (oid : N) (emp : schemas.EmployeeCreate) : gmap string value :=
  <["id" := VStr (apicall.str_ObjectId oid)]> (apicall.jsonable_encoder emp).

(** The partial body [{"salary": z}]. *)
Definition only_salary (z : Z) : schemas.EmployeeUpdate :=
  {| schemas.u_name := None; schemas.u_department := None;
     schemas.u_salary := Some (Some z); schemas.u_joining_date := None;
     schemas.u_skills := None |}.

(** The partial body [{}]. *)
Definition empty_body : schemas.EmployeeUpdate :=
  {| schemas.u_name := None; schemas.u_department := None;
     schemas.u_salary := None; schemas.u_joining_date := None;
     schemas.u_skills := None |}.

(** [n] employees of the department Eng with the salary [sal], under
    the ObjectIds and the employee numbers from [i] on. *)
Fixpoint numbered (n : nat) (i : N) (sal : Z) : list document :=
  match n with
  | O => []
  | S n' =>
      stored i (employee (apicall.hex 8 i) "N" "Eng" sal "2024-01-01" [])
      :: numbered n' (N.succ i) sal
  end.

(** A department of 4194305 employees: 2097153 of them earn
    1073741825 and 2097152 earn 1073741826. *)
Definition large_department : database :=
  {| employees_collection :=
       numbered (Z.to_nat 2097153) 0 1073741825
       ++ numbered (Z.to_nat 2097152) 2097153 1073741826;
     users_collection := [];
     next_ObjectId := 4194305 |}.

(** The partial bodies [{"name": null}] and [{"joining_date": ""}]. *)
Definition null_name : schemas.EmployeeUpdate :=
  {| schemas.u_name := Some None; schemas.u_department := None;
     schemas.u_salary := None; schemas.u_joining_date := None;
     schemas.u_skills := None |}.

Definition empty_date : schemas.EmployeeUpdate :=
  {| schemas.u_name := None; schemas.u_department := None;
     schemas.u_salary := None; schemas.u_joining_date := Some (Some EmptyString);
     schemas.u_skills := None |}.

(** A record without a department, as another client of the store may
    have left it before the validator was set. *)
Definition no_department : document :=
  {| _id := 7; fields := <["employee_id" := VStr "E9"]> (<["salary" := VInt 10]> ∅) |}.

(** A password check to run the login on. *)
Definition toy_verify_password (plain hashed : string) : bool :=
  String.eqb ("h" +:+ plain) hashed.

(** A signature scheme to run the token functions on. *)
Definition toy_sign (key : string) (claims : string * Z) : string :=
  key +:+ ":" +:+ claims.1.

Definition alice : user_document :=
  {| username := "alice"; email := "alice@example.org"; full_name := "Alice";
     hashed_password := "h1"; disabled := false |}.

(** A user whose account is disabled. *)
Definition mallory : user_document :=
  {| username := "mallory"; email := "mallory@example.org"; full_name := "Mallory";
     hashed_password := "h2"; disabled := true |}.

Definition two_users : database :=
  {| employees_collection := [stored 0 ann];
     users_collection := [alice; mallory];
     next_ObjectId := 1 |}.

End sample.

(** * Properties *)

(** ** The validator of [db.py] *)

Section validator_facts.
Import db collection invariant.

Lemma forallb_const_true {A} (l : list A) : forallb (fun _ => true) l = true.
Proof. induction l; [reflexivity | exact IHl]. Qed.

Lemma type_of_string v :
  bool_decide (type_of v = bt_string) = true -> exists s, v = VStr s.
Proof.
  destruct v as [|z|s|l]; cbn; try discriminate; eauto.
  destruct (fits_int32 z); discriminate.
Qed.

Lemma type_of_int v :
  bool_decide (type_of v = bt_int) = true ->
  exists z, v = VInt z /\ fits_int32 z = true.
Proof.
  destruct v as [|z|s|l]; cbn; try discriminate.
  destruct (fits_int32 z) eqn:Hz; [eauto | discriminate].
Qed.

Lemma type_of_array v :
  bool_decide (type_of v = bt_array) = true -> exists l, v = VList l.
Proof.
  destruct v as [|z|s|l]; cbn; try discriminate; eauto.
  destruct (fits_int32 z); discriminate.
Qed.

Lemma validates_employee_schema (d : gmap string value) :
  validates employee_schema d = true <->
  exists eid n dep z jd,
    d !! "employee_id" = Some (VStr eid)
    /\ d !! "name" = Some (VStr n)
    /\ d !! "department" = Some (VStr dep)
    /\ d !! "salary" = Some (VInt z) /\ fits_int32 z = true
    /\ d !! "joining_date" = Some (VStr jd) /\ schemas.DATE_RE_match jd = true
    /\ (d !! "skills" = None \/ exists l, d !! "skills" = Some (VList l)).
Proof.
  unfold validates, employee_schema, property_ok, of_type; cbn.
  split.
  - intros H. apply andb_prop in H as [Hreq H].
    apply andb_prop in Hreq as [[v1 E1]%bool_decide_eq_true Hreq].
    apply andb_prop in Hreq as [[v2 E2]%bool_decide_eq_true Hreq].
    apply andb_prop in Hreq as [[v3 E3]%bool_decide_eq_true Hreq].
    apply andb_prop in Hreq as [[v4 E4]%bool_decide_eq_true Hreq].
    apply andb_prop in Hreq as [[v5 E5]%bool_decide_eq_true _].
    rewrite E1, E2, E3, E4, E5 in H. rewrite !andb_true_r in H.
    apply andb_prop in H as [[s1 ->]%type_of_string H].
    apply andb_prop in H as [[s2 ->]%type_of_string H].
    apply andb_prop in H as [[s3 ->]%type_of_string H].
    apply andb_prop in H as [(z & -> & Hz)%type_of_int H].
    apply andb_prop in H as [H5 H].
    apply andb_prop in H5 as [[s5 ->]%type_of_string Hjd].
    exists s1, s2, s3, z, s5. repeat (split; [reflexivity || assumption|]).
    destruct (d !! "skills") as [v|]; [right | by left].
    rewrite !andb_true_r in H.
    apply andb_prop in H as [[l ->]%type_of_array _]. eauto.
  - intros (eid & n & dep & z & jd & -> & -> & -> & -> & Hz & -> & Hjd & Hs).
    cbn. rewrite Hz, Hjd. cbn.
    destruct Hs as [-> | [l ->]]; [reflexivity|].
    cbn. rewrite forallb_const_true. reflexivity.
Qed.
End validator_facts.

(** ** The descending sort *)

Section order.
Import db collection invariant apicall.

Lemma str_le_total a b : str_le a b = true \/ str_le b a = true.
Proof.
  revert b. induction a as [|x a IH]; intros [|y b]; cbn; auto.
  destruct (IH b) as [-> | ->];
    destruct (N.ltb_spec (N_of_ascii x) (N_of_ascii y));
    destruct (N.ltb_spec (N_of_ascii y) (N_of_ascii x));
    destruct (N.eqb_spec (N_of_ascii x) (N_of_ascii y));
    destruct (N.eqb_spec (N_of_ascii y) (N_of_ascii x));
    cbn; auto; lia.
Qed.

Lemma str_le_trans a b c :
  str_le a b = true -> str_le b c = true -> str_le a c = true.
Proof.
  revert b c. induction a as [|x a IH]; intros [|y b] [|z c]; cbn; auto; try discriminate.
  intros H1 H2. apply orb_true_iff.
  apply orb_true_iff in H1 as [H1%N.ltb_lt | [H1%N.eqb_eq H1']%andb_true_iff];
    apply orb_true_iff in H2 as [H2%N.ltb_lt | [H2%N.eqb_eq H2']%andb_true_iff].
  - left. apply N.ltb_lt. lia.
  - left. apply N.ltb_lt. lia.
  - left. apply N.ltb_lt. lia.
  - right. apply andb_true_iff. split; [apply N.eqb_eq; lia | eauto].
Qed.

Lemma key_le_total a b : key_le a b = true \/ key_le b a = true.
Proof.
  destruct a, b; cbn; auto; [lia | apply str_le_total].
Qed.

Lemma key_le_trans a b c :
  key_le a b = true -> key_le b c = true -> key_le a c = true.
Proof.
  destruct a, b, c; cbn; auto; try discriminate; [lia | apply str_le_trans].
Qed.

#[global] Instance before_desc_total key : Total (before_desc key).
Proof. intros d1 d2. unfold before_desc. apply key_le_total. Qed.

#[global] Instance before_desc_trans key : Transitive (before_desc key).
Proof. intros d1 d2 d3 H1 H2. unfold before_desc in *. eapply key_le_trans; eauto. Qed.

Lemma sort_desc_sorted key l : StronglySorted (before_desc key) (sort_desc key l).
Proof. apply StronglySorted_merge_sort; apply _. Qed.

Lemma sort_desc_perm key l : sort_desc key l ≡ₚ l.
Proof. apply merge_sort_Permutation. Qed.
End order.

(** ** POST /employees *)

Section create.
Import db collection invariant apicall.

Lemma head_filter_None {A} (f : A -> bool) (l : list A) :
  (forall x, x ∈ l -> f x = false) -> head (List.filter f l) = None.
Proof.
  induction l as [|a l IH]; intros H; [reflexivity|].
  cbn. rewrite (H a) by left. apply IH. intros x Hx. apply H. by right.
Qed.

Lemma head_filter_Some {A} (f : A -> bool) (l : list A) x :
  x ∈ l -> f x = true -> is_Some (head (List.filter f l)).
Proof.
  induction l as [|a l IH]; intros Hx Hf; [by apply not_elem_of_nil in Hx|].
  cbn. destruct (f a) eqn:Ha; [by eexists|].
  apply elem_of_cons in Hx as [-> | Hx]; [congruence | by apply IH].
Qed.

Lemma field_matches_valid (d : gmap string value) (eid : string) :
  validates employee_schema d = true ->
  field_matches (d !! "employee_id") eid = true <-> d !! "employee_id" = Some (VStr eid).
Proof.
  intros (e & ? & ? & ? & ? & -> & _)%validates_employee_schema. cbn.
  rewrite String.eqb_eq. split; [by intros -> | by intros [= ->]].
Qed.

Lemma has_employee_id_matches eid d :
  has_employee_id eid d -> matches (q_field "employee_id" eid) d = true.
Proof. unfold has_employee_id; cbn. intros ->. cbn. apply String.eqb_refl. Qed.

Lemma jsonable_encoder_lookups emp :
  jsonable_encoder emp !! "employee_id" = Some (VStr (schemas.employee_id emp))
  /\ jsonable_encoder emp !! "name" = Some (VStr (schemas.name emp))
  /\ jsonable_encoder emp !! "department" = Some (VStr (schemas.department emp))
  /\ jsonable_encoder emp !! "salary" = Some (VInt (schemas.salary emp))
  /\ jsonable_encoder emp !! "joining_date" = Some (VStr (schemas.joining_date emp))
  /\ jsonable_encoder emp !! "skills" = Some (VList (schemas.skills emp)).
Proof. repeat split; reflexivity. Qed.

Lemma validates_jsonable_encoder emp :
  validates employee_schema (jsonable_encoder emp) = true <->
  fits_int32 (schemas.salary emp) = true
  /\ schemas.DATE_RE_match (schemas.joining_date emp) = true.
Proof.
  rewrite validates_employee_schema.
  destruct (jsonable_encoder_lookups emp) as (E1 & E2 & E3 & E4 & E5 & E6).
  rewrite E1, E2, E3, E4, E5, E6. split.
  - intros (? & ? & ? & z & jd & _ & _ & _ & [= <-] & Hz & [= <-] & Hjd & _). done.
  - intros [Hz Hjd]. do 5 eexists. repeat (split; [reflexivity || eassumption|]).
    right. by eexists.
Qed.

Lemma all_encodable_jsonable_encoder emp :
  fits_int32 (schemas.salary emp) = true -> all_encodable (jsonable_encoder emp) = true.
Proof.
  intros Hz. apply bool_decide_eq_true. unfold jsonable_encoder.
  repeat (apply map_Forall_insert_2; [try reflexivity|]); [|apply map_Forall_empty].
  cbn. unfold fits_int32, fits_int64 in *. lia.
Qed.

Lemma filter_all_false {A} (f : A -> bool) (l : list A) :
  (forall x, x ∈ l -> f x = false) -> List.filter f l = [].
Proof.
  induction l as [|a l IH]; intros H; [reflexivity|].
  cbn. rewrite (H a) by left. apply IH. intros x Hx. apply H. by right.
Qed.

Lemma existsb_all_false {A} (f : A -> bool) (l : list A) :
  (forall x, x ∈ l -> f x = false) -> existsb f l = false.
Proof.
  induction l as [|a l IH]; intros H; [reflexivity|].
  cbn. rewrite (H a) by left. apply IH. intros x Hx. apply H. by right.
Qed.

Lemma employee_helper_jsonable_encoder oid emp :
  employee_helper {| _id := oid; fields := jsonable_encoder emp |}
  = Ok (<["id" := VStr (str_ObjectId oid)]> (jsonable_encoder emp)).
Proof. reflexivity. Qed.

(** C1 (as amended).  When a stored record already has the
    [employee_id] of the new one, [create_employee] fails with the
    conflict answer (HTTP 400, "employee_id already exists") and leaves
    the store as it is.  When no stored record has it, and the record
    passes the validator of the store (a validated [joining_date] and a
    salary that is a 32-bit int), the record is appended under a fresh
    ObjectId and the stored record is returned with that id. *)
Theorem create_employee_conflict_or_insert (emp : schemas.EmployeeCreate) (st : database) :
  ((exists d, d ∈ employees_collection st
              /\ has_employee_id (schemas.employee_id emp) d) ->
     create_employee emp st
     = (Raise (HTTPException 400 "employee_id already exists"), st))
  /\
  (store_ok st ->
   fits_int32 (schemas.salary emp) = true ->
   schemas.DATE_RE_match (schemas.joining_date emp) = true ->
   (forall d, d ∈ employees_collection st ->
              ~ has_employee_id (schemas.employee_id emp) d) ->
   create_employee emp st
   = (Ok (<["id" := VStr (str_ObjectId (next_ObjectId st))]> (jsonable_encoder emp)),
      {| employees_collection :=
           employees_collection st
           ++ [{| _id := next_ObjectId st; fields := jsonable_encoder emp |}];
         users_collection := users_collection st;
         next_ObjectId := N.succ (next_ObjectId st) |})).
Proof.
  split.
  - intros (d & Hd & Hid).
    unfold create_employee, bind, find_one.
    destruct (head_filter_Some _ _ _ Hd (has_employee_id_matches _ _ Hid)) as [x ->].
    reflexivity.
  - intros (Hvalid & Hfresh & _) Hz Hjd Hnew.
    assert (Hno : forall x, x ∈ employees_collection st ->
              matches (q_field "employee_id" (schemas.employee_id emp)) x = false).
    { intros x Hx. apply not_true_is_false. cbn.
      rewrite field_matches_valid by (by eapply Forall_forall in Hvalid).
      by apply Hnew. }
    unfold create_employee, bind, find_one.
    rewrite (head_filter_None _ _ Hno).
    unfold insert_one, bind, new_ObjectId.
    rewrite (all_encodable_jsonable_encoder _ Hz).
    rewrite (proj2 (validates_jsonable_encoder emp) (conj Hz Hjd)).
    cbn [negb raise employees_collection].
    unfold duplicate_key.
    rewrite existsb_all_false; cycle 1.
    { intros x Hx. apply orb_false_intro.
      - apply N.eqb_neq. eapply Forall_forall in Hfresh; [|exact Hx]. lia.
      - apply (Hno x Hx). }
    cbn [set_employees employees_collection users_collection next_ObjectId].
    rewrite List.filter_app, filter_all_false; cycle 1.
    { intros x Hx. apply N.eqb_neq. eapply Forall_forall in Hfresh; [|exact Hx].
      cbn. lia. }
    cbn. rewrite N.eqb_refl. reflexivity.
Qed.
End create.

(** ** The date pattern *)

Section dates.
Import db collection invariant apicall.
Import schemas.

Lemma literal_Some c s r : literal c s = Some r <-> s = String c r.
Proof.
  destruct s as [|c' s]; cbn; [split; discriminate|].
  destruct (Ascii.eqb_spec c c') as [->|Hne]; split; intros [= ]; subst; congruence.
Qed.

Lemma digits_S n s r :
  digits (S n) s = Some r <->
  exists c s', s = String c s' /\ is_digit c = true /\ digits n s' = Some r.
Proof.
  cbn. destruct s as [|c s]; [split; [discriminate | intros (? & ? & [=] & _)]|].
  destruct (is_digit c) eqn:Hc; split.
  - intros H. eauto.
  - intros (c' & s' & [= <- <-] & _ & H). exact H.
  - discriminate.
  - intros (c' & s' & [= <- <-] & Hc' & _). congruence.
Qed.

(** The strings that [DATE_RE] matches: four digits, a hyphen, two
    digits, a hyphen, two digits, and then nothing or one newline. *)
Lemma DATE_RE_match_shape (v : string) :
  DATE_RE_match v = true <->
  exists y1 y2 y3 y4 m1 m2 d1 d2 tail,
    v = String y1 (String y2 (String y3 (String y4 (String "-"
         (String m1 (String m2 (String "-" (String d1 (String d2 tail)))))))))
    /\ Forall (fun c => is_digit c = true) [y1; y2; y3; y4; m1; m2; d1; d2]
    /\ (tail = EmptyString \/ tail = newline).
Proof.
  unfold DATE_RE_match. split.
  - destruct (digits 4 v) as [r1|] eqn:E1; [|discriminate]. cbn [mbind option_bind].
    destruct (literal "-" r1) as [r2|] eqn:E2; [|discriminate]. cbn [mbind option_bind].
    destruct (digits 2 r2) as [r3|] eqn:E3; [|discriminate]. cbn [mbind option_bind].
    destruct (literal "-" r3) as [r4|] eqn:E4; [|discriminate]. cbn [mbind option_bind].
    destruct (digits 2 r4) as [r5|] eqn:E5; [|discriminate].
    intros Hend.
    apply digits_S in E1 as (y1 & ? & -> & ? & E1).
    apply digits_S in E1 as (y2 & ? & -> & ? & E1).
    apply digits_S in E1 as (y3 & ? & -> & ? & E1).
    apply digits_S in E1 as (y4 & ? & -> & ? & [= ->]).
    apply literal_Some in E2 as ->.
    apply digits_S in E3 as (m1 & ? & -> & ? & E3).
    apply digits_S in E3 as (m2 & ? & -> & ? & [= ->]).
    apply literal_Some in E4 as ->.
    apply digits_S in E5 as (d1 & ? & -> & ? & E5).
    apply digits_S in E5 as (d2 & ? & -> & ? & [= ->]).
    exists y1, y2, y3, y4, m1, m2, d1, d2, r5. split; [reflexivity|]. split.
    + repeat constructor; assumption.
    + unfold at_end in Hend. apply orb_true_iff in Hend as [Hend%String.eqb_eq | Hend%String.eqb_eq]; auto.
  - intros (y1 & y2 & y3 & y4 & m1 & m2 & d1 & d2 & tail & -> & Hd & Htail).
    repeat match goal with H : Forall _ (_ :: _) |- _ => apply Forall_cons in H as [? H] end.
    repeat (cbn; match goal with H : is_digit _ = true |- _ => rewrite H; clear H end).
    cbn. destruct Htail as [-> | ->]; reflexivity.
Qed.

Lemma check_date_Ok v : DATE_RE_match v = true -> check_date v = Ok v.
Proof. unfold check_date. by intros ->. Qed.

(** C2 (as amended).  A create input whose [joining_date] does not
    match [^\d{4}-\d{2}-\d{2}$] is rejected by the validator, with the
    error "joining_date must be YYYY-MM-DD", before anything reaches
    the store; an input whose [joining_date] matches goes on to the
    handler.  The pattern does not look at the calendar: "2024-13-01"
    matches it. *)
Theorem post_employees_checks_date_pattern :
  (forall body st,
      DATE_RE_match (joining_date body) = false ->
      post_employees body st = (Raise (ValueError "joining_date must be YYYY-MM-DD"), st))
  /\ (forall body st,
      DATE_RE_match (joining_date body) = true ->
      post_employees body st = create_employee body st)
  /\ DATE_RE_match "2024-13-01" = true.
Proof.
  split; [|split].
  - intros body st H. unfold post_employees, bind, lift, parse_EmployeeCreate, check_date.
    rewrite H. reflexivity.
  - intros body st H. unfold post_employees, bind, lift, parse_EmployeeCreate, check_date.
    rewrite H. cbn. by destruct body.
  - reflexivity.
Qed.
End dates.

(** The invariant on a closed store, by computation. *)
Ltac store_ok_by_computation :=
  repeat split; cbn;
  [ repeat constructor ..
  | apply (bool_decide_unpack _); vm_compute; exact I ].

Section create_examples.
Import db collection invariant apicall sample.

Lemma store_ok_empty : store_ok empty_database.
Proof. repeat split; constructor. Qed.

Lemma store_ok_three_employees : store_ok three_employees.
Proof. store_ok_by_computation. Qed.

(** Against C1 as first stated: an [employee_id] that is not stored,
    a validated record, and nothing is inserted, because the salary is
    a 64-bit long where the validator of the store wants an int. *)
Lemma create_employee_long_salary_refused :
  (forall d, d ∈ employees_collection empty_database ->
             ~ has_employee_id (schemas.employee_id long_salary) d)
  /\ schemas.parse_EmployeeCreate long_salary = Ok long_salary
  /\ create_employee long_salary empty_database
     = (Raise WriteError,
        {| employees_collection := []; users_collection := []; next_ObjectId := 1 |}).
Proof.
  split; [|split].
  - intros d Hd. by apply not_elem_of_nil in Hd.
  - reflexivity.
  - reflexivity.
Qed.

(** On the sample store: a second record for E1 is refused, and the
    record of Dee, whose id is new, is stored under the next ObjectId. *)
Lemma create_employee_conflict_or_insert_witness :
  ((exists d, d ∈ employees_collection three_employees
              /\ has_employee_id (schemas.employee_id ann) d)
   /\ create_employee ann three_employees
      = (Raise (HTTPException 400 "employee_id already exists"), three_employees))
  /\ (store_ok three_employees
      /\ fits_int32 (schemas.salary dee) = true
      /\ schemas.DATE_RE_match (schemas.joining_date dee) = true
      /\ (forall d, d ∈ employees_collection three_employees ->
                    ~ has_employee_id (schemas.employee_id dee) d)
      /\ create_employee dee three_employees
         = (Ok (<["id" := VStr (str_ObjectId 3)]> (jsonable_encoder dee)),
            {| employees_collection :=
                 employees_collection three_employees ++ [stored 3 dee];
               users_collection := [];
               next_ObjectId := 4 |})).
Proof.
  assert (Hann : exists d, d ∈ employees_collection three_employees
                           /\ has_employee_id (schemas.employee_id ann) d).
  { exists (stored 0 ann). split; [left | reflexivity]. }
  assert (Hdee : forall d, d ∈ employees_collection three_employees ->
                           ~ has_employee_id (schemas.employee_id dee) d).
  { intros d Hd. cbn in Hd.
    repeat (apply elem_of_cons in Hd as [-> | Hd]; [by vm_compute|]).
    by apply not_elem_of_nil in Hd. }
  assert (Hok : store_ok three_employees) by store_ok_by_computation.
  destruct (create_employee_conflict_or_insert ann three_employees) as [H1 _].
  destruct (create_employee_conflict_or_insert dee three_employees) as [_ H2].
  split; [split; [exact Hann | exact (H1 Hann)]|].
  split; [exact Hok|]. split; [reflexivity|]. split; [reflexivity|].
  split; [exact Hdee|]. exact (H2 Hok eq_refl eq_refl Hdee).
Defined.

(** Against C2 as first stated: the input with [joining_date]
    "2024-13-01" is accepted and its record is stored. *)
Lemma post_employees_thirteenth_month_stored :
  post_employees thirteenth_month empty_database
  = (Ok (<["id" := VStr (str_ObjectId 0)]> (jsonable_encoder thirteenth_month)),
     {| employees_collection := [stored 0 thirteenth_month];
        users_collection := [];
        next_ObjectId := 1 |}).
Proof. reflexivity. Qed.
End create_examples.

(** ** PUT /employees/{employee_id} *)

Section update.
Import db collection invariant apicall sample.

Lemma first_match_None q l :
  first_match q l = None <-> forall d, d ∈ l -> matches q d = false.
Proof.
  induction l as [|a l IH]; cbn.
  - split; [intros _ d Hd; by apply not_elem_of_nil in Hd | done].
  - destruct (matches q a) eqn:Ha.
    + split; [discriminate|]. intros H. specialize (H a (list_elem_of_here _ _)). congruence.
    + rewrite fmap_None, IH. split.
      * intros H d [-> | Hd]%elem_of_cons; auto.
      * intros H d Hd. apply H. by right.
Qed.

Lemma first_match_Some q l i :
  first_match q l = Some i <->
  (exists d, l !! i = Some d /\ matches q d = true)
  /\ (forall j d, (j < i)%nat -> l !! j = Some d -> matches q d = false).
Proof.
  revert i. induction l as [|a l IH]; intros i; cbn.
  - split; [discriminate | intros [(d & Hd & _) _]; discriminate].
  - destruct (matches q a) eqn:Ha.
    + split.
      * intros [= <-]. split; [by exists a | intros j d Hj; lia].
      * intros [(d & Hd & Hm) Hlt]. destruct i as [|i]; [done|].
        specialize (Hlt O a ltac:(lia) eq_refl). congruence.
    + rewrite fmap_Some. split.
      * intros (i' & Hi' & ->). apply IH in Hi' as [Hex Hlt]. split; [exact Hex|].
        intros [|j] d Hj; cbn; [by intros [= <-] | intros Hd; eapply Hlt; [|exact Hd]; lia].
      * intros [(d & Hd & Hm) Hlt]. destruct i as [|i]; [cbn in Hd; congruence|].
        exists i. split; [|done]. apply IH. split; [by exists d|].
        intros j d' Hj Hd'. apply (Hlt (S j) d'); [lia | done].
Qed.

Lemma set_employees_same st : set_employees (employees_collection st) st = st.
Proof. by destruct st. Qed.

(** The outcomes of [update_one]. *)
Lemma update_one_cases q ud st :
  (all_encodable ud = false /\ update_one q ud st = (Raise OverflowError, st))
  \/ (all_encodable ud = true
      /\ (forall d, d ∈ employees_collection st -> matches q d = false)
      /\ update_one q ud st = (Ok 0, st))
  \/ (all_encodable ud = true
      /\ exists i d,
           first_match q (employees_collection st) = Some i
           /\ employees_collection st !! i = Some d
           /\ matches q d = true
           /\ ((apply_set ud d <> d
                /\ validates employee_schema (fields (apply_set ud d)) = false
                /\ update_one q ud st = (Raise WriteError, st))
               \/ ((apply_set ud d = d
                    \/ validates employee_schema (fields (apply_set ud d)) = true)
                   /\ update_one q ud st
                      = (Ok 1, set_employees
                                 (<[i := apply_set ud d]> (employees_collection st)) st)))).
Proof.
  unfold update_one. destruct (all_encodable ud) eqn:Henc; cbn [negb]; [right | by left].
  destruct (first_match q (employees_collection st)) as [i|] eqn:Hfm.
  - right. split; [done|].
    pose proof Hfm as [(d & Hd & Hm) _]%first_match_Some.
    exists i, d. repeat (split; [done|]). rewrite Hd.
    destruct (bool_decide (apply_set ud d = d)) eqn:Hsame.
    + apply bool_decide_eq_true in Hsame. right. split; [by left|].
      rewrite Hsame, list_insert_id, set_employees_same by done. done.
    + apply bool_decide_eq_false in Hsame.
      destruct (validates employee_schema (fields (apply_set ud d))) eqn:Hv; cbn [negb].
      * right. split; [by right | done].
      * left. done.
  - left. split; [done|]. split; [by apply first_match_None | done].
Qed.

Lemma put_lookup {A} k (f : A -> value) x m k' :
  put k f x m !! k' =
  if decide (k = k')
  then match x with
       | Some (Some a) => Some (f a)
       | Some None => Some VNone
       | None => m !! k'
       end
  else m !! k'.
Proof.
  unfold put. destruct x as [[a|]|]; case_decide; subst;
    rewrite ?lookup_insert_eq, ?lookup_insert_ne by done; done.
Qed.

Lemma dict_exclude_unset_lookup emp k :
  dict_exclude_unset emp !! k =
  if decide (k = "name") then supplied VStr (schemas.u_name emp)
  else if decide (k = "department") then supplied VStr (schemas.u_department emp)
  else if decide (k = "salary") then supplied VInt (schemas.u_salary emp)
  else if decide (k = "joining_date") then supplied VStr (schemas.u_joining_date emp)
  else if decide (k = "skills") then supplied VList (schemas.u_skills emp)
  else None.
Proof.
  unfold dict_exclude_unset. rewrite !put_lookup, lookup_empty.
  repeat case_decide; subst; try congruence;
    repeat match goal with
           | |- context [match ?x with _ => _ end] => destruct x as [[?|]|]
           end; reflexivity.
Qed.

Lemma valid_set_salary (m : gmap string value) z :
  fits_int32 z = true ->
  validates employee_schema m = true ->
  validates employee_schema (<["salary" := VInt z]> m) = true.
Proof.
  intros Hz. rewrite !validates_employee_schema.
  intros (eid & n & dep & z0 & jd & ? & ? & ? & ? & ? & ? & ? & Hs).
  exists eid, n, dep, z, jd.
  rewrite lookup_insert_eq, !lookup_insert_ne by done. done.
Qed.

Lemma matches_employee_id_valid eid d :
  validates employee_schema (fields d) = true ->
  matches (q_field "employee_id" eid) d = true <-> has_employee_id eid d.
Proof. intros Hv. cbn. by apply field_matches_valid. Qed.

(** An update neither adds nor removes a record. *)
Lemma update_employee_length employee_id emp st :
  length (employees_collection (update_employee employee_id emp st).2)
  = length (employees_collection st).
Proof.
  unfold update_employee. case_bool_decide; [reflexivity|]. unfold bind.
  destruct (update_one_cases (q_field "employee_id" employee_id)
              (dict_exclude_unset emp) st)
    as [[_ ->] | [(_ & _ & ->) | (_ & i & d0 & _ & _ & _ & [(_ & _ & ->) | [_ ->]])]];
    cbn; try reflexivity.
  apply length_insert.
Qed.

(** C3.  An update adds and removes no record, leaves every stored
    record in its place, with its [_id], and leaves every field that
    the partial body does not supply as it was (so none of them
    becomes null).  On a store that
    satisfies the invariant, an update of a stored employee that
    supplies only [salary = 5000] succeeds; afterwards the salary of
    that record is 5000, its name, department, skills and joining_date
    are what they were, and the other records are untouched. *)
Theorem update_employee_frame
    (employee_id : string) (emp : schemas.EmployeeUpdate) (st : database) :
  length (employees_collection (update_employee employee_id emp st).2)
  = length (employees_collection st)
  /\
  (forall i d,
      employees_collection st !! i = Some d ->
      exists d',
        employees_collection (update_employee employee_id emp st).2 !! i = Some d'
        /\ _id d' = _id d
        /\ forall k,
             (k = "name" -> schemas.u_name emp = None) ->
             (k = "department" -> schemas.u_department emp = None) ->
             (k = "salary" -> schemas.u_salary emp = None) ->
             (k = "joining_date" -> schemas.u_joining_date emp = None) ->
             (k = "skills" -> schemas.u_skills emp = None) ->
             fields d' !! k = fields d !! k)
  /\
  (store_ok st ->
   schemas.u_name emp = None ->
   schemas.u_department emp = None ->
   schemas.u_salary emp = Some (Some 5000) ->
   schemas.u_joining_date emp = None ->
   schemas.u_skills emp = None ->
   forall i d,
     employees_collection st !! i = Some d ->
     has_employee_id employee_id d ->
     exists st' d',
       update_employee employee_id emp st = (Ok "Employee updated", st')
       /\ employees_collection st' = <[i := d']> (employees_collection st)
       /\ _id d' = _id d
       /\ fields d' !! "salary" = Some (VInt 5000)
       /\ fields d' !! "name" = fields d !! "name"
       /\ fields d' !! "department" = fields d !! "department"
       /\ fields d' !! "skills" = fields d !! "skills"
       /\ fields d' !! "joining_date" = fields d !! "joining_date").
Proof.
  split; [apply update_employee_length|]. split.
  - intros j d Hj. unfold update_employee.
    case_bool_decide as Hempty; [by exists d|].
    unfold bind.
    destruct (update_one_cases (q_field "employee_id" employee_id)
                (dict_exclude_unset emp) st)
      as [[_ ->] | [(_ & _ & ->) | (_ & i & d0 & _ & Hi & _ & [(_ & _ & ->) | [_ ->]])]];
      cbn; try by exists d.
    destruct (decide (i = j)) as [-> | Hne].
    + assert (d0 = d) as -> by congruence.
      exists (apply_set (dict_exclude_unset emp) d).
      rewrite list_lookup_insert_eq by (by eapply lookup_lt_Some).
      split; [done|]. split; [done|].
      intros k H1 H2 H3 H4 H5. cbn. apply lookup_union_r.
      rewrite dict_exclude_unset_lookup. repeat case_decide; auto.
      * by rewrite H1.
      * by rewrite H2.
      * by rewrite H3.
      * by rewrite H4.
      * by rewrite H5.
    + exists d. by rewrite list_lookup_insert_ne.
  - intros (Hvalid & _ & Hnodup) E1 E2 E3 E4 E5 i d Hi Hd.
    assert (Hud : dict_exclude_unset emp = <["salary" := VInt 5000]> ∅).
    { unfold dict_exclude_unset. rewrite E1, E2, E3, E4, E5. reflexivity. }
    unfold update_employee. rewrite Hud.
    case_bool_decide as Hempty; [by apply insert_non_empty in Hempty|].
    assert (Hdv : validates employee_schema (fields d) = true).
    { eapply Forall_forall in Hvalid; [exact Hvalid|]. by eapply list_elem_of_lookup_2. }
    assert (Hset : apply_set (<["salary" := VInt 5000]> ∅) d
                   = {| _id := _id d; fields := <["salary" := VInt 5000]> (fields d) |}).
    { unfold apply_set. f_equal. by rewrite <- insert_union_l, (left_id ∅ (∪)). }
    assert (Henc' : all_encodable (<["salary" := VInt 5000]> ∅) = true).
    { apply bool_decide_eq_true.
      apply map_Forall_insert_2; [reflexivity | apply map_Forall_empty]. }
    pose proof (proj2 (matches_employee_id_valid _ _ Hdv) Hd) as Hmd.
    unfold bind.
    destruct (update_one_cases (q_field "employee_id" employee_id)
                (<["salary" := VInt 5000]> ∅) st)
      as [[Henc _] | [(_ & Hnone & _) | (_ & i' & d0 & Hfm & Hi' & Hm & Hcase)]].
    + congruence.
    + rewrite (Hnone d) in Hmd; [discriminate|]. by eapply list_elem_of_lookup_2.
    + assert (i' = i) as ->.
      { assert (Hd0v : validates employee_schema (fields d0) = true).
        { eapply Forall_forall in Hvalid; [exact Hvalid|]. by eapply list_elem_of_lookup_2. }
        apply (matches_employee_id_valid _ _ Hd0v) in Hm.
        eapply NoDup_lookup; [exact Hnodup | |].
        - rewrite list_lookup_fmap, Hi'. cbn. rewrite Hm. reflexivity.
        - rewrite list_lookup_fmap, Hi. cbn. rewrite Hd. reflexivity. }
      assert (d0 = d) as -> by congruence.
      rewrite Hset in Hcase.
      destruct Hcase as [(_ & Hbad & _) | [_ ->]].
      * cbn in Hbad. rewrite valid_set_salary in Hbad by done. discriminate.
      * exists (set_employees
                  (<[i := {| _id := _id d;
                             fields := <["salary" := VInt 5000]> (fields d) |}]>
                     (employees_collection st)) st),
               {| _id := _id d; fields := <["salary" := VInt 5000]> (fields d) |}.
        split; [reflexivity|]. split; [reflexivity|]. split; [reflexivity|].
        split; [apply lookup_insert_eq|].
        repeat split; apply lookup_insert_ne; discriminate.
Qed.
End update.

Section update_failures.
Import db collection invariant apicall sample.

Lemma supplied_None {A} (f : A -> value) x : supplied f x = None <-> x = None.
Proof. destruct x as [[a|]|]; cbn; split; congruence. Qed.

Lemma dict_exclude_unset_empty emp :
  dict_exclude_unset emp = ∅ <-> no_fields emp.
Proof.
  split.
  - intros H.
    assert (Hk : forall k, dict_exclude_unset emp !! k = None)
      by (intros k; rewrite H; apply lookup_empty).
    pose proof (Hk "name") as H1. pose proof (Hk "department") as H2.
    pose proof (Hk "salary") as H3. pose proof (Hk "joining_date") as H4.
    pose proof (Hk "skills") as H5.
    rewrite dict_exclude_unset_lookup in H1, H2, H3, H4, H5.
    change (supplied VStr (schemas.u_name emp) = None) in H1.
    change (supplied VStr (schemas.u_department emp) = None) in H2.
    change (supplied VInt (schemas.u_salary emp) = None) in H3.
    change (supplied VStr (schemas.u_joining_date emp) = None) in H4.
    change (supplied VList (schemas.u_skills emp) = None) in H5.
    apply supplied_None in H1, H2, H3, H4, H5. by repeat split.
  - intros (E1 & E2 & E3 & E4 & E5). unfold dict_exclude_unset.
    rewrite E1, E2, E3, E4, E5. reflexivity.
Qed.

Lemma all_encodable_dict_exclude_unset emp :
  (forall z, schemas.u_salary emp = Some (Some z) -> fits_int64 z = true) ->
  all_encodable (dict_exclude_unset emp) = true.
Proof.
  intros Hz. apply bool_decide_eq_true. intros k v.
  rewrite dict_exclude_unset_lookup.
  repeat case_decide; try discriminate;
    match goal with
    | |- supplied _ ?x = _ -> _ => destruct x as [[a|]|] eqn:E
    end; cbn; intros [= <-]; try reflexivity.
  cbn. by apply Hz.
Qed.

(** A failed update changes nothing. *)
Lemma update_employee_failure_unchanged employee_id emp st e :
  (update_employee employee_id emp st).1 = Raise e ->
  (update_employee employee_id emp st).2 = st.
Proof.
  unfold update_employee. case_bool_decide; [done|]. unfold bind.
  destruct (update_one_cases (q_field "employee_id" employee_id)
              (dict_exclude_unset emp) st)
    as [[_ ->] | [(_ & _ & ->) | (_ & i & d0 & _ & _ & _ & [(_ & _ & ->) | [_ ->]])]];
    cbn; done.
Qed.

(** C6 (as amended).  An update fails with the bad-request answer
    (HTTP 400, "No fields provided for update") exactly when the
    partial body supplies no field.  When it supplies one, the values
    can be written to the store (a supplied salary fits in eight
    bytes) and no stored record matches the [employee_id], it fails
    with the not-found answer (HTTP 404).  A failed update leaves the
    store as it was. *)
Theorem update_employee_failures
    (employee_id : string) (emp : schemas.EmployeeUpdate) (st : database) :
  ((update_employee employee_id emp st).1
     = Raise (HTTPException 400 "No fields provided for update")
   <-> no_fields emp)
  /\ (forall e,
        (update_employee employee_id emp st).1 = Raise e ->
        (update_employee employee_id emp st).2 = st)
  /\ (~ no_fields emp ->
      (forall z, schemas.u_salary emp = Some (Some z) -> fits_int64 z = true) ->
      (forall d, d ∈ employees_collection st ->
                 matches (q_field "employee_id" employee_id) d = false) ->
      update_employee employee_id emp st
      = (Raise (HTTPException 404 "Employee not found"), st)).
Proof.
  pose proof (update_employee_failure_unchanged employee_id emp st) as Hsame.
  revert Hsame. unfold update_employee.
  case_bool_decide as Hempty; intros Hsame.
  - apply dict_exclude_unset_empty in Hempty. cbn.
    split; [split; [intros _; exact Hempty | reflexivity]|].
    split; [reflexivity | intros Hn; contradiction].
  - assert (Hsome : ~ no_fields emp) by (by rewrite <- dict_exclude_unset_empty).
    unfold bind.
    split; [|split].
    + split; [|done].
      destruct (update_one_cases (q_field "employee_id" employee_id)
                  (dict_exclude_unset emp) st)
        as [[_ ->] | [(_ & _ & ->) | (_ & i & d0 & _ & _ & _ & [(_ & _ & ->) | [_ ->]])]];
        cbn; discriminate.
    + exact Hsame.
    + intros _ Hz Hnone.
      destruct (update_one_cases (q_field "employee_id" employee_id)
                  (dict_exclude_unset emp) st)
        as [[Henc _] | [(_ & _ & ->) | (_ & i & d0 & _ & Hi & Hm & _)]].
      * rewrite all_encodable_dict_exclude_unset in Henc by done. discriminate.
      * reflexivity.
      * rewrite Hnone in Hm; [discriminate | by eapply list_elem_of_lookup_2].
Qed.


(** Against C6 as first stated: a body that supplies a field, no
    stored record with the [employee_id], and the failure is not the
    not-found answer, because the salary needs more than eight bytes. *)
Lemma update_employee_unwritable_salary :
  ~ no_fields (only_salary (2 ^ 63))
  /\ (forall d, d ∈ employees_collection three_employees ->
                matches (q_field "employee_id" "E9") d = false)
  /\ update_employee "E9" (only_salary (2 ^ 63)) three_employees
     = (Raise OverflowError, three_employees).
Proof.
  split; [|split].
  - intros (_ & _ & H & _). discriminate H.
  - intros d Hd. cbn in Hd.
    repeat (apply elem_of_cons in Hd as [-> | Hd]; [reflexivity|]).
    by apply not_elem_of_nil in Hd.
  - reflexivity.
Qed.

(** On the sample store: the empty body is a bad request, and a
    salary for an unknown [employee_id] is not found. *)
Lemma update_employee_failures_witness :
  (no_fields empty_body
   /\ update_employee "E1" empty_body three_employees
      = (Raise (HTTPException 400 "No fields provided for update"), three_employees))
  /\ (~ no_fields (only_salary 5000)
      /\ (forall z, schemas.u_salary (only_salary 5000) = Some (Some z) ->
                    fits_int64 z = true)
      /\ (forall d, d ∈ employees_collection three_employees ->
                    matches (q_field "employee_id" "E9") d = false)
      /\ update_employee "E9" (only_salary 5000) three_employees
         = (Raise (HTTPException 404 "Employee not found"), three_employees)).
Proof.
  assert (H0 : no_fields empty_body) by (by repeat split).
  assert (H1 : ~ no_fields (only_salary 5000))
    by (intros (_ & _ & H & _); discriminate H).
  assert (H2 : forall z, schemas.u_salary (only_salary 5000) = Some (Some z) ->
                         fits_int64 z = true)
    by (intros z [= <-]; reflexivity).
  assert (H3 : forall d, d ∈ employees_collection three_employees ->
                         matches (q_field "employee_id" "E9") d = false).
  { intros d Hd. cbn in Hd.
    repeat (apply elem_of_cons in Hd as [-> | Hd]; [reflexivity|]).
    by apply not_elem_of_nil in Hd. }
  destruct (update_employee_failures "E1" empty_body three_employees)
    as (Hiff & Hsame & _).
  destruct (update_employee_failures "E9" (only_salary 5000) three_employees)
    as (_ & _ & H404).
  split.
  - split; [exact H0|]. apply proj2 in Hiff. specialize (Hiff H0).
    specialize (Hsame _ Hiff).
    rewrite (surjective_pairing (update_employee "E1" empty_body three_employees)).
    by rewrite Hiff, Hsame.
  - split; [exact H1|]. split; [exact H2|]. split; [exact H3|].
    exact (H404 H1 H2 H3).
Defined.
End update_failures.

Section update_examples.
Import db collection invariant apicall sample.

(** The update of the salary of E1 to 5000 on the sample store: Bob's
    record stays as it is, Ann's record gets the salary. *)
Lemma update_employee_frame_witness :
  (employees_collection three_employees !! 1%nat = Some (stored 1 bob)
   /\ exists d',
        employees_collection
          (update_employee "E1" (only_salary 5000) three_employees).2 !! 1%nat
        = Some d'
        /\ _id d' = _id (stored 1 bob)
        /\ forall k,
             (k = "name" -> schemas.u_name (only_salary 5000) = None) ->
             (k = "department" -> schemas.u_department (only_salary 5000) = None) ->
             (k = "salary" -> schemas.u_salary (only_salary 5000) = None) ->
             (k = "joining_date" -> schemas.u_joining_date (only_salary 5000) = None) ->
             (k = "skills" -> schemas.u_skills (only_salary 5000) = None) ->
             fields d' !! k = fields (stored 1 bob) !! k)
  /\ (store_ok three_employees
      /\ employees_collection three_employees !! 0%nat = Some (stored 0 ann)
      /\ has_employee_id "E1" (stored 0 ann)
      /\ exists st' d',
           update_employee "E1" (only_salary 5000) three_employees
           = (Ok "Employee updated", st')
           /\ employees_collection st'
              = <[0%nat := d']> (employees_collection three_employees)
           /\ _id d' = _id (stored 0 ann)
           /\ fields d' !! "salary" = Some (VInt 5000)
           /\ fields d' !! "name" = fields (stored 0 ann) !! "name"
           /\ fields d' !! "department" = fields (stored 0 ann) !! "department"
           /\ fields d' !! "skills" = fields (stored 0 ann) !! "skills"
           /\ fields d' !! "joining_date" = fields (stored 0 ann) !! "joining_date").
Proof.
  destruct (update_employee_frame "E1" (only_salary 5000) three_employees)
    as (_ & H1 & H2).
  split.
  - split; [reflexivity | exact (H1 1%nat (stored 1 bob) eq_refl)].
  - assert (Hok : store_ok three_employees) by store_ok_by_computation.
    split; [exact Hok|]. split; [reflexivity|]. split; [reflexivity|].
    exact (H2 Hok eq_refl eq_refl eq_refl eq_refl eq_refl
             0%nat (stored 0 ann) eq_refl eq_refl).
Defined.
End update_examples.

Section date_examples.
Import db collection invariant apicall sample.

(** A month of one digit is rejected; a date of the right shape goes
    on to the handler. *)
Lemma post_employees_checks_date_pattern_witness :
  (schemas.DATE_RE_match (schemas.joining_date short_month) = false
   /\ post_employees short_month three_employees
      = (Raise (ValueError "joining_date must be YYYY-MM-DD"), three_employees))
  /\ (schemas.DATE_RE_match (schemas.joining_date dee) = true
      /\ post_employees dee three_employees = create_employee dee three_employees).
Proof.
  destruct post_employees_checks_date_pattern as (Hbad & Hgood & _).
  split.
  - split; [reflexivity | exact (Hbad short_month three_employees eq_refl)].
  - split; [reflexivity | exact (Hgood dee three_employees eq_refl)].
Defined.
End date_examples.

(** ** GET /employees and GET /employees/search *)

Section queries.
Import db collection invariant apicall sample.

Local Abbreviation valid d := (validates employee_schema (fields d) = true).

Lemma employee_helper_valid d :
  valid d -> exists o, employee_helper d = Ok o.
Proof.
  intros (eid & n & dep & z & jd & E1 & E2 & E3 & E4 & _ & E5 & _)%validates_employee_schema.
  unfold employee_helper, getitem. rewrite E1, E2, E3, E4, E5. cbn. eauto.
Qed.

(** What the helper shows of a document. *)
Lemma employee_helper_Ok d o :
  employee_helper d = Ok o ->
  o !! "id" = Some (VStr (str_ObjectId (_id d)))
  /\ o !! "employee_id" = fields d !! "employee_id"
  /\ o !! "name" = fields d !! "name"
  /\ o !! "department" = fields d !! "department"
  /\ o !! "salary" = fields d !! "salary"
  /\ o !! "joining_date" = fields d !! "joining_date"
  /\ o !! "skills" = Some (default (VList []) (fields d !! "skills")).
Proof.
  unfold employee_helper, getitem.
  destruct (fields d !! "employee_id") as [v1|]; [|discriminate].
  destruct (fields d !! "name") as [v2|]; [|discriminate].
  destruct (fields d !! "department") as [v3|]; [|discriminate].
  destruct (fields d !! "salary") as [v4|]; [|discriminate].
  destruct (fields d !! "joining_date") as [v5|]; [|discriminate].
  cbn. intros [= <-]. repeat split; reflexivity.
Qed.

Lemma employee_helper_all_valid l :
  Forall (fun d => valid d) l ->
  exists out, employee_helper_all l = Ok out
              /\ Forall2 (fun d o => employee_helper d = Ok o) l out.
Proof.
  induction 1 as [|d l Hd _ (out & Hout & IH)]; cbn.
  - exists []. by split.
  - destruct (employee_helper_valid d Hd) as [o Ho]. rewrite Ho, Hout. cbn.
    exists (o :: out). split; [done | by constructor].
Qed.

(** What [employee_helper] returns is the record as the API shows it. *)
Lemma employee_helper_shows d o : employee_helper d = Ok o -> shows d o.
Proof.
  intros Ho.
  pose proof (employee_helper_Ok d o Ho) as (H1 & H2 & H3 & H4 & H5 & H6 & H7).
  repeat (split; [assumption|]).
  revert Ho. unfold employee_helper, getitem.
  destruct (fields d !! "employee_id") as [v1|]; [|discriminate].
  destruct (fields d !! "name") as [v2|]; [|discriminate].
  destruct (fields d !! "department") as [v3|]; [|discriminate].
  destruct (fields d !! "salary") as [v4|]; [|discriminate].
  destruct (fields d !! "joining_date") as [v5|]; [|discriminate].
  cbn. intros [= <-]. rewrite !dom_insert_L, dom_empty_L. set_solver.
Qed.

Lemma Forall2_shows l out :
  Forall2 (fun d o => employee_helper d = Ok o) l out -> Forall2 shows l out.
Proof. intros H. eapply Forall2_impl; [exact H|]. apply employee_helper_shows. Qed.

Lemma filter_in_department_None (l : list document) :
  filter (in_department None) l = l.
Proof.
  induction l as [|d l IH]; [reflexivity|].
  rewrite filter_cons_True by exact I. by rewrite IH.
Qed.

Lemma filter_bool_Prop {A} (f : A -> bool) (P : A -> Prop)
    `{!forall x, Decision (P x)} (l : list A) :
  Forall (fun x => f x = true <-> P x) l -> List.filter f l = filter P l.
Proof.
  induction 1 as [|x l Hx _ IH]; [reflexivity|].
  cbn [List.filter]. rewrite filter_cons, IH.
  destruct (f x); case_decide as HP; try done.
  - exfalso. apply HP, Hx. reflexivity.
  - apply Hx in HP. discriminate.
Qed.

Lemma existsb_eqb_elem_of (s : string) l : existsb (String.eqb s) l = true <-> s ∈ l.
Proof.
  induction l as [|x l IH]; cbn.
  - split; [discriminate | by intros ?%not_elem_of_nil].
  - rewrite orb_true_iff, IH, elem_of_cons, String.eqb_eq. done.
Qed.

Lemma matches_department_valid dep d :
  valid d ->
  matches (q_field "department" dep) d = true <-> in_department (Some dep) d.
Proof.
  intros (eid & n & dep' & z & jd & _ & _ & E3 & _)%validates_employee_schema.
  cbn. rewrite E3. cbn. rewrite String.eqb_eq. split; congruence.
Qed.

Lemma matches_skill_valid skill d :
  valid d -> matches (q_field "skills" skill) d = true <-> has_skill skill d.
Proof.
  intros (? & ? & ? & ? & ? & _ & _ & _ & _ & _ & _ & _ & Hs)%validates_employee_schema.
  unfold has_skill. cbn.
  destruct Hs as [-> | [sk ->]]; cbn; [split; [discriminate | done]|].
  apply existsb_eqb_elem_of.
Qed.

Lemma filter_department_valid dep l :
  Forall (fun d => valid d) l ->
  List.filter (matches (q_field "department" dep)) l
  = filter (in_department (Some dep)) l.
Proof.
  intros H. apply filter_bool_Prop. eapply Forall_impl; [exact H|].
  intros d Hd. by apply matches_department_valid.
Qed.

Lemma filter_all l : List.filter (matches q_all) l = filter (in_department None) l.
Proof. apply filter_bool_Prop, Forall_forall. intros d _. cbn. done. Qed.

Lemma filter_skill_valid skill l :
  Forall (fun d => valid d) l ->
  List.filter (matches (q_field "skills" skill)) l = filter (has_skill skill) l.
Proof.
  intros H. apply filter_bool_Prop. eapply Forall_impl; [exact H|].
  intros d Hd. by apply matches_skill_valid.
Qed.

Lemma before_desc_joined d1 d2 :
  valid d1 -> valid d2 ->
  before_desc "joining_date" d1 d2 -> joined_no_earlier d1 d2.
Proof.
  intros (? & ? & ? & ? & jd1 & _ & _ & _ & _ & _ & E1 & _)%validates_employee_schema
         (? & ? & ? & ? & jd2 & _ & _ & _ & _ & _ & E2 & _)%validates_employee_schema.
  unfold before_desc, joined_no_earlier. rewrite E1, E2. cbn. eauto.
Qed.

Lemma sorted_joined l :
  Forall (fun d => valid d) l ->
  StronglySorted (before_desc "joining_date") l ->
  StronglySorted joined_no_earlier l.
Proof.
  induction 2 as [|d l Hs IH Hall]; [constructor|].
  apply Forall_cons in H as [Hd Hl].
  constructor; [by apply IH|].
  rewrite Forall_forall in Hall, Hl |- *.
  intros d' Hd'. apply before_desc_joined; auto.
Qed.

(** The matching records of a valid store, latest first. *)
Lemma sort_desc_spec (P : document -> Prop) `{!forall d, Decision (P d)} l :
  Forall (fun d => valid d) l ->
  sort_desc "joining_date" (filter P l) ≡ₚ filter P l
  /\ StronglySorted joined_no_earlier (sort_desc "joining_date" (filter P l))
  /\ Forall (fun d => valid d) (sort_desc "joining_date" (filter P l)).
Proof.
  intros Hl.
  assert (Hv : Forall (fun d => valid d) (sort_desc "joining_date" (filter P l))).
  { rewrite sort_desc_perm. apply Forall_forall.
    intros d [_ Hd]%list_elem_of_filter. by eapply Forall_forall in Hl. }
  split; [apply sort_desc_perm|]. split; [|exact Hv].
  apply sorted_joined; [exact Hv | apply sort_desc_sorted].
Qed.

Lemma fits_int64_iff z : fits_int64 z = true <-> - 2 ^ 63 <= z < 2 ^ 63.
Proof. unfold fits_int64. rewrite andb_true_iff, Z.leb_le, Z.ltb_lt. done. Qed.

(** One page of the list: the matching records, latest first, without
    the first (page-1)*size of them, and at most [size] of what is left. *)
Lemma list_employees_sorted_page
    (department : option string) (page size : Z) (st : database) :
  store_ok st ->
  department <> Some EmptyString ->
  1 <= page -> 1 <= size ->
  (page - 1) * size < 2 ^ 63 -> size < 2 ^ 63 ->
  exists sorted out,
    sorted ≡ₚ filter (in_department department) (employees_collection st)
    /\ StronglySorted joined_no_earlier sorted
    /\ list_employees department page size st = (Ok out, st)
    /\ Forall2 (fun d o => employee_helper d = Ok o)
         (take (Z.to_nat size) (drop (Z.to_nat ((page - 1) * size)) sorted))
         out.
Proof.
  intros (Hvalid & _ & _) Hdep Hpage Hsize Hskip Hlimit.
  destruct (sort_desc_spec (in_department department) _ Hvalid)
    as (Hperm & Hsorted & Hv).
  set (sorted := sort_desc "joining_date"
                   (filter (in_department department) (employees_collection st))) in *.
  set (page_docs := take (Z.to_nat size) (drop (Z.to_nat ((page - 1) * size)) sorted)).
  assert (Hpv : Forall (fun d => valid d) page_docs).
  { apply Forall_take, Forall_drop, Hv. }
  destruct (employee_helper_all_valid _ Hpv) as (out & Hout & Hall).
  exists sorted, out. split; [exact Hperm|]. split; [exact Hsorted|].
  split; [|exact Hall].
  unfold list_employees, find_sort_skip_limit, bind, raise, lift.
  assert (Hq : List.filter
                 (matches (if truthy department
                           then q_field "department" (default EmptyString department)
                           else q_all)) (employees_collection st)
               = filter (in_department department) (employees_collection st)).
  { destruct department as [dep|]; cbn; [|apply filter_all].
    destruct (String.eqb_spec dep EmptyString) as [-> | _]; [done|].
    cbn. by apply filter_department_valid. }
  assert (Hs : ((page - 1) * size <? 0) = false) by (apply Z.ltb_ge; nia).
  assert (Hf : (fits_int64 ((page - 1) * size) && fits_int64 (Z.abs size)) = true).
  { apply andb_true_iff. rewrite !fits_int64_iff, Z.abs_eq by lia.
    split; split; try lia; nia. }
  rewrite Hs, Hf. cbn [negb]. cbn beta. rewrite Hq.
  unfold apply_limit.
  assert ((size =? 0) = false) as -> by (apply Z.eqb_neq; lia).
  assert ((0 <? size) = true) as -> by (apply Z.ltb_lt; lia).
  fold sorted. fold page_docs. by rewrite Hout.
Qed.

(** C4 (as amended).  On a store that satisfies the invariant, for a
    department filter that is absent or a non-empty string, a page
    number of at least 1 and a size of at least 1, with (page-1)*size
    and size below 2^63: [list_employees] returns the records of the
    department (all records without a filter) in the order of
    [joining_date], latest first, skipping the first (page-1)*size of
    them and returning at most [size]; every item returned carries the
    ObjectId and the fields of its record.  So the call with
    department "Eng", page 2 and size 10 returns the items 11 to 20 of
    that order. *)
Theorem list_employees_page :
  (forall (department : option string) (page size : Z) (st : database),
      store_ok st ->
      department <> Some EmptyString ->
      1 <= page -> 1 <= size ->
      (page - 1) * size < 2 ^ 63 -> size < 2 ^ 63 ->
      exists sorted out,
        sorted ≡ₚ filter (in_department department) (employees_collection st)
        /\ StronglySorted joined_no_earlier sorted
        /\ list_employees department page size st = (Ok out, st)
        /\ Forall2 shows
             (take (Z.to_nat size) (drop (Z.to_nat ((page - 1) * size)) sorted))
             out)
  /\ (forall st : database,
        store_ok st ->
        exists sorted out,
          sorted ≡ₚ filter (in_department (Some "Eng")) (employees_collection st)
          /\ StronglySorted joined_no_earlier sorted
          /\ list_employees (Some "Eng") 2 10 st = (Ok out, st)
          /\ Forall2 shows (take 10 (drop 10 sorted)) out).
Proof.
  split.
  - intros department page size st Hok Hdep Hpage Hsize Hskip Hlimit.
    destruct (list_employees_sorted_page department page size st
                Hok Hdep Hpage Hsize Hskip Hlimit)
      as (sorted & out & Hperm & Hsorted & Hlist & Hall).
    exists sorted, out. repeat (split; [assumption|]). by apply Forall2_shows.
  - intros st Hok.
    destruct (list_employees_sorted_page (Some "Eng") 2 10 st Hok)
      as (sorted & out & Hperm & Hsorted & Hlist & Hall); [discriminate | lia ..|].
    exists sorted, out. repeat (split; [assumption|]). by apply Forall2_shows.
Qed.

(** C9.  On a store that satisfies the invariant, [search_by_skill]
    returns the stored records whose skills list contains the skill,
    each of them once and no other record, in the order of
    [joining_date], latest first; every item returned carries the
    ObjectId and the fields of its record. *)
Theorem search_by_skill_exact (skill : string) (st : database) :
  store_ok st ->
  exists sorted out,
    sorted ≡ₚ filter (has_skill skill) (employees_collection st)
    /\ StronglySorted joined_no_earlier sorted
    /\ search_by_skill skill st = (Ok out, st)
    /\ Forall2 shows sorted out.
Proof.
  intros (Hvalid & _ & _).
  destruct (sort_desc_spec (has_skill skill) _ Hvalid) as (Hperm & Hsorted & Hv).
  set (sorted := sort_desc "joining_date"
                   (filter (has_skill skill) (employees_collection st))) in *.
  destruct (employee_helper_all_valid _ Hv) as (out & Hout & Hall).
  exists sorted, out. split; [exact Hperm|]. split; [exact Hsorted|].
  split; [|by apply Forall2_shows].
  unfold search_by_skill, find_sort_skip_limit, bind, raise, lift.
  change (0 <? 0) with false.
  change (fits_int64 0 && fits_int64 (Z.abs 0)) with true.
  cbn [negb]. cbn beta. rewrite (filter_skill_valid _ _ Hvalid).
  unfold apply_limit. change (0 =? 0) with true.
  change (Z.to_nat 0) with O. rewrite drop_0.
  fold sorted. by rewrite Hout.
Qed.

(** C10.  The department filter [""] is dropped: the call is the call
    without a department filter, for every page, size and store; and on
    a store that satisfies the invariant, for a page number of at least
    1 and a size of at least 1 (with (page-1)*size and size below
    2^63), it returns a page of all the stored records, of every
    department, latest [joining_date] first, not only the records
    whose department is the empty string. *)
Theorem list_employees_empty_department :
  (forall (page size : Z) (st : database),
      list_employees (Some EmptyString) page size st
      = list_employees None page size st)
  /\ (forall (page size : Z) (st : database),
        store_ok st ->
        1 <= page -> 1 <= size ->
        (page - 1) * size < 2 ^ 63 -> size < 2 ^ 63 ->
        exists sorted out,
          sorted ≡ₚ employees_collection st
          /\ StronglySorted joined_no_earlier sorted
          /\ list_employees (Some EmptyString) page size st = (Ok out, st)
          /\ Forall2 shows
               (take (Z.to_nat size) (drop (Z.to_nat ((page - 1) * size)) sorted))
               out).
Proof.
  split; [reflexivity|].
  intros page size st Hok Hpage Hsize Hskip Hlimit.
  destruct (list_employees_sorted_page None page size st Hok)
    as (sorted & out & Hperm & Hsorted & Hlist & Hall); [discriminate | lia ..|].
  rewrite filter_in_department_None in Hperm.
  exists sorted, out. repeat (split; [assumption|]). by apply Forall2_shows.
Qed.
End queries.

Section query_examples.
Import db collection invariant apicall sample.

(** Against C4 as first stated: with the department filter [""] the
    list holds the records of Eng and Sales, though no stored record
    has the department [""]. *)
Lemma list_employees_empty_department_unfiltered :
  filter (in_department (Some EmptyString)) (employees_collection three_employees) = []
  /\ list_employees (Some EmptyString) 1 50 three_employees
     = (Ok [shown 2 cy; shown 0 ann; shown 1 bob], three_employees).
Proof. split; reflexivity. Qed.

(** [size = 0] sets no limit: the whole list comes back. *)
Lemma list_employees_size_zero :
  list_employees None 1 0 three_employees
  = (Ok [shown 2 cy; shown 0 ann; shown 1 bob], three_employees).
Proof. reflexivity. Qed.

(** A skip that needs more than eight bytes cannot be sent. *)
Lemma list_employees_skip_overflow :
  list_employees None 2 (2 ^ 63) three_employees = (Raise OverflowError, three_employees).
Proof. reflexivity. Qed.

(** The second page of size one of the Eng employees. *)
Lemma list_employees_Eng_second :
  list_employees (Some "Eng") 2 1 three_employees = (Ok [shown 1 bob], three_employees).
Proof. reflexivity. Qed.

Lemma search_by_skill_rust :
  search_by_skill "rust" three_employees
  = (Ok [shown 2 cy; shown 0 ann], three_employees).
Proof. reflexivity. Qed.

(** The pages of the Eng employees of the sample store. *)
Lemma list_employees_page_witness :
  (store_ok three_employees
   /\ Some "Eng" <> Some EmptyString
   /\ 1 <= 2 /\ 1 <= 1 /\ (2 - 1) * 1 < 2 ^ 63 /\ 1 < 2 ^ 63
   /\ exists sorted out,
        sorted ≡ₚ filter (in_department (Some "Eng"))
                    (employees_collection three_employees)
        /\ StronglySorted joined_no_earlier sorted
        /\ list_employees (Some "Eng") 2 1 three_employees = (Ok out, three_employees)
        /\ Forall2 shows
             (take (Z.to_nat 1) (drop (Z.to_nat ((2 - 1) * 1)) sorted)) out)
  /\ (exists sorted out,
        sorted ≡ₚ filter (in_department (Some "Eng"))
                    (employees_collection three_employees)
        /\ StronglySorted joined_no_earlier sorted
        /\ list_employees (Some "Eng") 2 10 three_employees = (Ok out, three_employees)
        /\ Forall2 shows (take 10 (drop 10 sorted)) out).
Proof.
  destruct list_employees_page as [Hpage Heng].
  assert (Hok : store_ok three_employees) by store_ok_by_computation.
  split.
  - split; [exact Hok|]. split; [discriminate|].
    split; [lia|]. split; [lia|]. split; [lia|]. split; [lia|].
    apply (Hpage (Some "Eng") 2 1 three_employees Hok); [discriminate | lia ..].
  - exact (Heng three_employees Hok).
Defined.

(** The search for "rust" on the sample store. *)
Lemma search_by_skill_exact_witness :
  store_ok three_employees
  /\ exists sorted out,
       sorted ≡ₚ filter (has_skill "rust") (employees_collection three_employees)
       /\ StronglySorted joined_no_earlier sorted
       /\ search_by_skill "rust" three_employees = (Ok out, three_employees)
       /\ Forall2 shows sorted out.
Proof.
  assert (Hok : store_ok three_employees) by store_ok_by_computation.
  split; [exact Hok|]. exact (search_by_skill_exact "rust" three_employees Hok).
Defined.

(** The first page of ten of the sample store under the department
    filter [""]: records of Eng and of Sales. *)
Lemma list_employees_empty_department_witness :
  list_employees (Some EmptyString) 1 10 three_employees
  = list_employees None 1 10 three_employees
  /\ store_ok three_employees
  /\ 1 <= 1 /\ 1 <= 10 /\ (1 - 1) * 10 < 2 ^ 63 /\ 10 < 2 ^ 63
  /\ exists sorted out,
       sorted ≡ₚ employees_collection three_employees
       /\ StronglySorted joined_no_earlier sorted
       /\ list_employees (Some EmptyString) 1 10 three_employees
          = (Ok out, three_employees)
       /\ Forall2 shows
            (take (Z.to_nat 10) (drop (Z.to_nat ((1 - 1) * 10)) sorted)) out.
Proof.
  destruct list_employees_empty_department as [Hsame Hall].
  assert (Hok : store_ok three_employees) by store_ok_by_computation.
  split; [exact (Hsame 1 10 three_employees)|]. split; [exact Hok|].
  split; [lia|]. split; [lia|]. split; [lia|]. split; [lia|].
  apply (Hall 1 10 three_employees Hok); lia.
Defined.
End query_examples.

(** ** GET /employees/avg-salary *)

Section report.
Import db collection invariant apicall sample.

Lemma round_half_even_nearest sum count :
  0 < count ->
  Z.abs (2 * (count * round_half_even sum count - sum)) <= count.
Proof.
  intros Hc. unfold round_half_even.
  pose proof (Z.div_mod sum count ltac:(lia)) as Hdm.
  pose proof (Z.mod_pos_bound sum count Hc) as Hb.
  destruct (Z.ltb_spec (2 * (sum mod count)) count);
    [|destruct (Z.ltb_spec count (2 * (sum mod count)));
      [|destruct (Z.even (sum / count))]]; nia.
Qed.

(** On a tie the even neighbour is taken. *)
Lemma round_half_even_tie sum count :
  0 < count -> 2 * (sum mod count) = count ->
  Z.even (round_half_even sum count) = true.
Proof.
  intros Hc Ht. unfold round_half_even.
  rewrite (proj2 (Z.ltb_ge _ _)) by lia. rewrite (proj2 (Z.ltb_ge _ _)) by lia.
  destruct (Z.even (sum / count)) eqn:He; [exact He|].
  rewrite Z.even_add, He. reflexivity.
Qed.

Local Abbreviation report_conditions :=
  [ ("salary", [c_exists true; c_type bt_int]); ("department", [c_exists true]) ].

Lemma existsb_const_false {A} (l : list A) : existsb (fun _ => false) l = false.
Proof. induction l; [reflexivity | exact IHl]. Qed.

(** The records that pass the [$match] stage. *)
Lemma stage_match_report_cons d l :
  stage_match report_conditions (d :: l) =
  match fields d !! "salary", fields d !! "department" with
  | Some (VInt z), Some _ =>
      if fits_int32 z then d :: stage_match report_conditions l
      else stage_match report_conditions l
  | _, _ => stage_match report_conditions l
  end.
Proof.
  unfold stage_match. cbn [List.filter forallb fst snd holds].
  destruct (fields d !! "salary") as [[|z|s|sk]|]; cbn;
    destruct (fields d !! "department") as [g|]; cbn;
    try reflexivity.
  all: try (destruct (fits_int32 z); reflexivity).
  all: try (rewrite existsb_const_false; reflexivity).
Qed.

Lemma group_salaries g l :
  numbers_of "salary"
    (List.filter (fun d => bool_decide (field_path "department" d = g))
       (stage_match report_conditions l))
  = salaries_of g l.
Proof.
  induction l as [|d l IH]; [reflexivity|].
  rewrite stage_match_report_cons. unfold salaries_of in *. cbn [omap list_omap].
  unfold aggregated_salary at 1.
  destruct (fields d !! "salary") as [[|z|s|sk]|] eqn:Es; try exact IH;
    destruct (fields d !! "department") as [g'|] eqn:Ed; try exact IH.
  destruct (fits_int32 z); [|exact IH]. cbn [andb List.filter].
  assert (Hfp : field_path "department" d = g')
    by (unfold field_path; by rewrite Ed).
  rewrite Hfp.
  destruct (bool_decide (g' = g)); [|exact IH].
  unfold numbers_of in *. cbn [omap list_omap]. rewrite Es. by rewrite IH.
Qed.

Lemma group_keys g l :
  g ∈ (field_path "department" <$> stage_match report_conditions l)
  <-> salaries_of g l <> [].
Proof.
  induction l as [|d l IH]; [cbn; split; [by intros ?%not_elem_of_nil | done]|].
  rewrite stage_match_report_cons. unfold salaries_of in *. cbn [omap list_omap].
  unfold aggregated_salary at 1.
  destruct (fields d !! "salary") as [[|z|s|sk]|] eqn:Es; try exact IH;
    destruct (fields d !! "department") as [g'|] eqn:Ed; try exact IH.
  destruct (fits_int32 z); [|exact IH]. cbn [andb].
  assert (Hfp : field_path "department" d = g')
    by (unfold field_path; by rewrite Ed).
  rewrite fmap_cons, Hfp, elem_of_cons.
  case_bool_decide as Hg; [split; [done | by left; symmetry]|].
  rewrite <- IH. split; [intros [-> | H]; done | by right].
Qed.

Lemma rounded_mean_nearest zs : zs <> [] -> nearest_to_mean (rounded_mean zs) zs.
Proof.
  intros Hne. split; [exact Hne|]. apply round_half_even_nearest.
  destruct zs; [done | cbn; lia].
Qed.

(** *** The double mean of a small group *)

Lemma round_half_even_unique a b q r :
  0 < b -> a = b * q + r -> 0 <= r < b ->
  round_half_even a b
  = if 2 * r <? b then q else if b <? 2 * r then q + 1
    else if Z.even q then q else q + 1.
Proof.
  intros Hb Ha Hr. unfold round_half_even.
  assert (a / b = q) as -> by (symmetry; eapply Z.div_unique_pos; eauto).
  assert (a mod b = r) as -> by (symmetry; eapply Z.mod_unique_pos; eauto).
  reflexivity.
Qed.

Lemma round_half_even_1 z : round_half_even z 1 = z.
Proof. rewrite (round_half_even_unique z 1 z 0) by lia. reflexivity. Qed.

Lemma double_of_int_exact z : Z.abs z < 2 ^ 53 -> double_of_int z = z.
Proof.
  intros Hz. unfold double_of_int.
  assert (Hl : Z.log2 (Z.abs z) <= 52).
  { destruct (Z.eq_dec (Z.abs z) 0) as [-> | Hne]; [cbn; lia|].
    assert (Z.log2 (Z.abs z) < 53); [|lia]. apply Z.log2_lt_pow2; lia. }
  rewrite Z.max_l by lia. change (2 ^ 0) with 1.
  rewrite round_half_even_1. lia.
Qed.

(** Rounding first to a grid finer than the denominator does not
    change the nearest integer. *)
Lemma round_half_even_twice S n T T' :
  0 < n -> n < T -> T = 2 * T' ->
  round_half_even (round_half_even (S * T) n) T = round_half_even S n.
Proof.
  intros Hn HT HT2.
  pose proof (Z.div_mod S n ltac:(lia)) as HS.
  pose proof (Z.mod_pos_bound S n Hn) as Hr.
  set (k := S / n) in *. set (r := S mod n) in *.
  pose proof (Z.div_mod (r * T) n ltac:(lia)) as HrT.
  pose proof (Z.mod_pos_bound (r * T) n Hn) as Hr2.
  set (q2 := (r * T) / n) in *. set (r2 := (r * T) mod n) in *.
  assert (Hq2 : 0 <= q2 < T) by nia.
  rewrite (round_half_even_unique S n k r Hn HS Hr).
  rewrite (round_half_even_unique (S * T) n (k * T + q2) r2 Hn ltac:(nia) Hr2).
  assert (He : Z.even (k * T + q2) = Z.even q2).
  { rewrite Z.even_add, HT2, Z.mul_assoc, (Z.mul_comm (k * 2)), Z.mul_assoc.
    rewrite Z.even_mul, Z.even_mul. cbn. rewrite orb_true_r. by destruct (Z.even q2). }
  rewrite He.
  destruct (Z.ltb_spec (2 * r) n) as [Hlow | Hnlow].
  - (* below the half: the first rounding stays below T/2 *)
    assert (Hm : exists m', 0 <= m' /\ 2 * m' < T
                 /\ (if 2 * r2 <? n then k * T + q2
                     else if n <? 2 * r2 then k * T + q2 + 1
                     else if Z.even q2 then k * T + q2 else k * T + q2 + 1)
                    = T * k + m').
    { destruct (Z.ltb_spec (2 * r2) n); [exists q2; split; [lia|split; [nia|lia]]|].
      destruct (Z.ltb_spec n (2 * r2)); [exists (q2 + 1); split; [lia|split; [nia|lia]]|].
      destruct (Z.even q2); [exists q2 | exists (q2 + 1)]; (split; [lia|split; [nia|lia]]). }
    destruct Hm as (m' & Hm0 & Hm1 & ->).
    rewrite (round_half_even_unique (T * k + m') T k m') by lia.
    by rewrite (proj2 (Z.ltb_lt _ _)) by lia.
  - destruct (Z.ltb_spec n (2 * r)) as [Hhigh | Hnhigh].
    + (* above the half *)
      assert (Hm : exists m', T < 2 * m' /\ m' <= T
                   /\ (if 2 * r2 <? n then k * T + q2
                       else if n <? 2 * r2 then k * T + q2 + 1
                       else if Z.even q2 then k * T + q2 else k * T + q2 + 1)
                      = T * k + m').
      { assert (H1 : (n + 1) * T <= 2 * (r * T)) by nia.
        assert (H2 : n * T < n * (2 * q2) + 2 * r2 - n) by lia.
        assert (H3 : forall m, n * T < n * (2 * m) -> T < 2 * m)
          by (intros m Hm; apply (Z.mul_lt_mono_pos_l n); lia).
        destruct (Z.ltb_spec (2 * r2) n);
          [exists q2; split; [apply H3; lia|split; [lia|lia]]|].
        destruct (Z.ltb_spec n (2 * r2));
          [exists (q2 + 1); split; [apply H3; lia|split; [lia|lia]]|].
        destruct (Z.even q2); [exists q2 | exists (q2 + 1)];
          (split; [apply H3; lia|split; [lia|lia]]). }
      destruct Hm as (m' & Hm0 & Hm1 & ->).
      destruct (Z.eq_dec m' T) as [-> | Hne].
      * rewrite (round_half_even_unique (T * k + T) T (k + 1) 0) by lia.
        by rewrite (proj2 (Z.ltb_lt _ _)) by lia.
      * rewrite (round_half_even_unique (T * k + m') T k m') by lia.
        rewrite (proj2 (Z.ltb_ge _ _)) by lia.
        by rewrite (proj2 (Z.ltb_lt _ _)) by lia.
    + (* the half itself *)
      assert (Hrn : r * T = T' * n).
      { rewrite HT2. replace (r * (2 * T')) with (T' * (2 * r)) by ring. f_equal. lia. }
      assert (Hq : q2 = T') by (unfold q2; rewrite Hrn; apply Z.div_mul; lia).
      assert (Hr0 : r2 = 0) by (unfold r2; rewrite Hrn; apply Z.mod_mul; lia).
      rewrite Hq, Hr0.
      rewrite (proj2 (Z.ltb_lt (2 * 0) n)) by lia.
      rewrite (round_half_even_unique (k * T + T') T k T') by lia.
      rewrite (proj2 (Z.ltb_ge _ _)) by lia.
      rewrite (proj2 (Z.ltb_ge _ _)) by lia. reflexivity.
Qed.

Lemma ilog2_le S n :
  0 < n -> S <> 0 -> Z.abs S <= 2 ^ 31 * n -> ilog2 S n <= 31.
Proof.
  intros Hn HS Hb. unfold ilog2.
  destruct (Z.leb_spec n (Z.abs S)).
  - assert (Z.abs S / n <= 2 ^ 31) by (apply Z.div_le_upper_bound; lia).
    change 31 with (Z.log2 (2 ^ 31)). by apply Z.log2_le_mono.
  - pose proof (Z.log2_up_nonneg ((n + Z.abs S - 1) / Z.abs S)). lia.
Qed.

Lemma double_div_small S n :
  0 < n -> n < 2 ^ 21 -> Z.abs S <= 2 ^ 31 * n ->
  round0 (Some (double_div S n)) = Some (round_half_even S n).
Proof.
  intros Hn Hsmall Hb. unfold double_div, round0.
  destruct (Z.eqb_spec S 0) as [-> | HS].
  { rewrite round_half_even_1, (round_half_even_unique 0 n 0 0) by lia.
    by rewrite (proj2 (Z.ltb_lt _ _)) by lia. }
  pose proof (ilog2_le S n Hn HS Hb) as Hl.
  set (e := Z.max (ilog2 S n - 52) (- 1074)).
  assert (He : e <= -21) by lia.
  rewrite (proj2 (Z.leb_gt 0 e)) by lia. f_equal.
  apply (round_half_even_twice S n (2 ^ (- e)) (2 ^ (- e - 1))); [lia| |].
  - assert (2 ^ 21 <= 2 ^ (- e)) by (apply Z.pow_le_mono_r; lia). lia.
  - rewrite <- Z.pow_succ_r by lia. f_equal. lia.
Qed.

Lemma sum_bound (zs : list Z) :
  Forall (fun z => - 2 ^ 31 <= z < 2 ^ 31) zs ->
  Z.abs (foldr Z.add 0 zs) <= 2 ^ 31 * Z.of_nat (length zs).
Proof.
  induction 1 as [|z zs Hz _ IH]; [cbn; lia|].
  cbn [foldr length]. lia.
Qed.

(** The mean of fewer than 2^21 32-bit integers, computed in doubles
    and rounded, is their exact mean rounded. *)
Lemma reported_mean_small (zs : list Z) :
  zs <> [] ->
  Z.of_nat (length zs) < 2 ^ 21 ->
  Forall (fun z => - 2 ^ 31 <= z < 2 ^ 31) zs ->
  reported_mean zs = rounded_mean zs.
Proof.
  intros Hne Hn Hz. pose proof (sum_bound zs Hz) as Hb.
  assert (Hpos : 0 < Z.of_nat (length zs)) by (destruct zs; [done | cbn; lia]).
  unfold reported_mean, rounded_mean, avg. destruct zs as [|z zs']; [done|].
  rewrite !double_of_int_exact by lia.
  by rewrite double_div_small.
Qed.

Lemma salaries_of_int32 g l :
  Forall (fun z => - 2 ^ 31 <= z < 2 ^ 31) (salaries_of g l).
Proof.
  induction l as [|d l IH]; [constructor|].
  unfold salaries_of in *. cbn [omap list_omap]. unfold aggregated_salary at 1.
  destruct (fields d !! "salary") as [[|z|s|sk]|]; try exact IH.
  destruct (fields d !! "department") as [g'|]; try exact IH.
  destruct (fits_int32 z) eqn:Hz; cbn [andb]; [|exact IH].
  destruct (bool_decide (g' = g)); [|exact IH].
  constructor; [|exact IH]. unfold fits_int32 in Hz. lia.
Qed.

Lemma salaries_of_length g l : (length (salaries_of g l) <= length l)%nat.
Proof.
  induction l as [|d l IH]; [reflexivity|].
  unfold salaries_of in *. cbn [omap list_omap length].
  destruct (aggregated_salary g d); cbn [length]; lia.
Qed.

Lemma pipeline_rows l :
  pipeline l
  = (fun g => report_row g (reported_mean (salaries_of g l)))
      <$> remove_dups (field_path "department" <$> stage_match report_conditions l).
Proof.
  unfold pipeline, stage_group_avg.
  rewrite <- list_fmap_compose. apply Forall_fmap_ext, Forall_forall.
  intros g Hg%elem_of_remove_dups%group_keys. cbn.
  rewrite group_salaries. unfold reported_mean, report_row.
  destruct (salaries_of g l) as [|z zs]; [done|].
  unfold avg. by destruct (double_div _ _) as [num den].
Qed.

Lemma results_of_rows (f : value -> Z) (keys : list value) :
  results_of ((fun g => report_row g (f g)) <$> keys)
  = Ok ((fun g => report_row g (f g)) <$> keys).
Proof.
  induction keys as [|g keys IH]; [reflexivity|].
  cbn [fmap list_fmap results_of]. unfold report_row at 1 2.
  rewrite lookup_insert_eq, lookup_insert_ne, lookup_insert_eq by done.
  fold (report_row g (f g)).
  change (list_fmap _ _ ?h keys) with (h <$> keys). rewrite IH. reflexivity.
Qed.

Lemma report_row_department g a : report_row g a !! "department" = Some g.
Proof. apply lookup_insert_eq. Qed.

Lemma avg_salary_by_department_report (st : database) :
  exists rows,
    avg_salary_by_department st = (Ok rows, st)
    /\ NoDup ((fun row => row !! "department") <$> rows)
    /\ (forall g,
          (exists row, row ∈ rows /\ row !! "department" = Some g)
          <-> salaries_of g (employees_collection st) <> [])
    /\ (forall row,
          row ∈ rows ->
          exists g,
            row = report_row g (reported_mean (salaries_of g (employees_collection st)))
            /\ salaries_of g (employees_collection st) <> []).
Proof.
  set (l := employees_collection st).
  set (keys := remove_dups (field_path "department" <$> stage_match report_conditions l)).
  exists ((fun g => report_row g (reported_mean (salaries_of g l))) <$> keys).
  split; [|split; [|split]].
  - unfold avg_salary_by_department, aggregate, bind, lift. fold l.
    rewrite pipeline_rows. fold keys. by rewrite results_of_rows.
  - rewrite <- list_fmap_compose.
    rewrite (proj1 (Forall_fmap_ext _ Some keys)).
    + apply NoDup_fmap_2; [apply _ | apply NoDup_remove_dups].
    + apply Forall_forall. intros g _. apply report_row_department.
  - intros g. rewrite <- group_keys, <- elem_of_remove_dups. fold keys. split.
    + intros (row & (g' & -> & Hg')%list_elem_of_fmap & Hrow).
      rewrite report_row_department in Hrow. by injection Hrow as ->.
    + intros Hg. eexists. split; [apply list_elem_of_fmap; eauto|].
      apply report_row_department.
  - intros row (g & -> & Hg)%list_elem_of_fmap. exists g.
    split; [reflexivity|]. by apply group_keys, elem_of_remove_dups.
Qed.

(** C5 (as amended).  The report has one row per department value of
    the records whose salary is present and of the BSON type int and
    whose department is present, and no other row; a row has the two
    fields [department] and [avg_salary]; its [avg_salary] is the mean
    of the salaries of those records of its department as the store
    computes it, in double precision, rounded to an integer; for a
    department of fewer than 2^21 such records that is an integer
    nearest to the mean.  Over Eng 100, Eng 200 and Sales 50 the rows
    are Eng 150 and Sales 50. *)
Theorem avg_salary_by_department_rows :
  (forall st : database,
      exists rows,
        avg_salary_by_department st = (Ok rows, st)
        /\ NoDup ((fun row => row !! "department") <$> rows)
        /\ (forall g,
              (exists row, row ∈ rows /\ row !! "department" = Some g)
              <-> salaries_of g (employees_collection st) <> [])
        /\ (forall row,
              row ∈ rows ->
              exists g a,
                row = report_row g a
                /\ dom row = {[ "department"; "avg_salary" ]}
                /\ a = reported_mean (salaries_of g (employees_collection st))
                /\ (Z.of_nat (length (salaries_of g (employees_collection st)))
                    < 2 ^ 21 ->
                    nearest_to_mean a (salaries_of g (employees_collection st)))))
  /\ avg_salary_by_department three_employees
     = (Ok [report_row (VStr "Eng") 150; report_row (VStr "Sales") 50],
        three_employees).
Proof.
  split; [|reflexivity].
  intros st. destruct (avg_salary_by_department_report st) as (rows & H1 & H2 & H3 & H4).
  exists rows. repeat (split; [assumption|]).
  intros row Hrow. destruct (H4 row Hrow) as (g & -> & Hne).
  exists g, (reported_mean (salaries_of g (employees_collection st))).
  split; [reflexivity|]. split; [|split; [reflexivity|]].
  - unfold report_row. rewrite !dom_insert_L, dom_empty_L. set_solver.
  - intros Hsmall. rewrite reported_mean_small; [|exact Hne|exact Hsmall|].
    + by apply rounded_mean_nearest.
    + apply salaries_of_int32.
Qed.
End report.

Section report_examples_large.
Import db collection invariant apicall sample.

Local Abbreviation report_conditions :=
  [ ("salary", [c_exists true; c_type bt_int]); ("department", [c_exists true]) ].

Lemma numbered_salaries n i sal :
  fits_int32 sal = true ->
  salaries_of (VStr "Eng") (numbered n i sal) = replicate n sal.
Proof.
  intros Hz. revert i. induction n as [|n IH]; intros i; [reflexivity|].
  cbn [numbered replicate]. unfold salaries_of in *. cbn [omap list_omap].
  rewrite IH. unfold aggregated_salary, stored. cbn [fields].
  destruct (jsonable_encoder_lookups
              (employee (hex 8 i) "N" "Eng" sal "2024-01-01" []))
    as (_ & _ & E3 & E4 & _).
  rewrite E3, E4. cbn [employee schemas.salary schemas.department].
  rewrite Hz. rewrite bool_decide_eq_true_2 by reflexivity. reflexivity.
Qed.

Lemma numbered_departments n i sal :
  fits_int32 sal = true ->
  field_path "department" <$> stage_match report_conditions (numbered n i sal)
  = replicate n (VStr "Eng").
Proof.
  intros Hz. revert i. induction n as [|n IH]; intros i; [reflexivity|].
  cbn [numbered replicate]. rewrite stage_match_report_cons.
  unfold stored at 1 2. cbn [fields].
  destruct (jsonable_encoder_lookups
              (employee (hex 8 i) "N" "Eng" sal "2024-01-01" []))
    as (_ & _ & E3 & E4 & _).
  rewrite E3, E4. cbn [employee schemas.salary schemas.department].
  rewrite Hz, fmap_cons, IH. reflexivity.
Qed.

Lemma stage_match_app conds l1 l2 :
  stage_match conds (l1 ++ l2) = stage_match conds l1 ++ stage_match conds l2.
Proof. apply List.filter_app. Qed.

Lemma salaries_of_app g l1 l2 :
  salaries_of g (l1 ++ l2) = salaries_of g l1 ++ salaries_of g l2.
Proof. apply omap_app. Qed.

Lemma remove_dups_replicate {A} `{EqDecision A} (n : nat) (x : A) :
  remove_dups (replicate (S n) x) = [x].
Proof.
  induction n as [|n IH]; [reflexivity|].
  change (replicate (S (S n)) x) with (x :: replicate (S n) x).
  cbn [remove_dups].
  destruct (decide_rel elem_of x (replicate (S n) x)) as [_ | Hn]; [exact IH|].
  destruct Hn. left.
Qed.

Lemma sum_replicate n z : foldr Z.add 0 (replicate n z) = Z.of_nat n * z.
Proof. induction n as [|n IH]; [reflexivity|]. cbn [replicate foldr]. lia. Qed.

Lemma sum_app (l1 l2 : list Z) :
  foldr Z.add 0 (l1 ++ l2) = foldr Z.add 0 l1 + foldr Z.add 0 l2.
Proof. induction l1 as [|z l1 IH]; [reflexivity|]. cbn [app foldr]. lia. Qed.

(** The mean of [n1] times [z1] and [n2] times [z2], as the store
    computes it. *)
Lemma reported_mean_replicate n1 n2 z1 z2 :
  (0 < n1 + n2)%nat ->
  reported_mean (replicate n1 z1 ++ replicate n2 z2)
  = default 0
      (round0 (Some (double_div
                       (double_of_int (Z.of_nat n1 * z1 + Z.of_nat n2 * z2))
                       (double_of_int (Z.of_nat n1 + Z.of_nat n2))))).
Proof.
  intros Hpos. unfold reported_mean, avg.
  rewrite sum_app, !sum_replicate, length_app, !length_replicate, Nat2Z.inj_add.
  destruct (replicate n1 z1 ++ replicate n2 z2) eqn:Hl; [|reflexivity].
  apply (f_equal length) in Hl.
  rewrite length_app, !length_replicate in Hl. cbn in Hl. lia.
Qed.

(** The report of a store whose records are two runs of numbered Eng
    employees. *)
Lemma numbered_report n1 n2 i1 i2 z1 z2 users next :
  fits_int32 z1 = true -> fits_int32 z2 = true -> (0 < n1 + n2)%nat ->
  avg_salary_by_department
    {| employees_collection := numbered n1 i1 z1 ++ numbered n2 i2 z2;
       users_collection := users; next_ObjectId := next |}
  = (Ok [report_row (VStr "Eng")
           (reported_mean (replicate n1 z1 ++ replicate n2 z2))],
     {| employees_collection := numbered n1 i1 z1 ++ numbered n2 i2 z2;
        users_collection := users; next_ObjectId := next |}).
Proof.
  intros Hz1 Hz2 Hpos.
  unfold avg_salary_by_department, aggregate, bind, lift.
  cbn [employees_collection]. rewrite pipeline_rows.
  assert (Hkeys : remove_dups
                    (field_path "department"
                       <$> stage_match report_conditions
                             (numbered n1 i1 z1 ++ numbered n2 i2 z2))
                  = [VStr "Eng"]).
  { rewrite stage_match_app, fmap_app.
    rewrite (numbered_departments n1 i1 z1 Hz1), (numbered_departments n2 i2 z2 Hz2).
    rewrite <- replicate_add.
    destruct (n1 + n2)%nat as [|k] eqn:Hk; [lia|]. apply remove_dups_replicate. }
  rewrite Hkeys. cbn [fmap list_fmap].
  rewrite salaries_of_app.
  rewrite (numbered_salaries n1 i1 z1 Hz1), (numbered_salaries n2 i2 z2 Hz2).
  reflexivity.
Qed.

(** A department of 4194305 employees whose mean salary lies just
    below 1073741825.5: the double quotient is 1073741825.5, which is
    rounded to the even 1073741826, and that is not an integer nearest
    to the mean. *)
Lemma avg_salary_large_department_not_nearest :
  avg_salary_by_department large_department
  = (Ok [report_row (VStr "Eng") 1073741826], large_department)
  /\ ~ nearest_to_mean 1073741826
         (salaries_of (VStr "Eng") (employees_collection large_department)).
Proof.
  assert (Hmean : reported_mean
                    (replicate (Z.to_nat 2097153) 1073741825
                     ++ replicate (Z.to_nat 2097152) 1073741826)
                  = 1073741826).
  { rewrite reported_mean_replicate by lia. rewrite !Z2Nat.id by lia.
    vm_compute. reflexivity. }
  split.
  - unfold large_department.
    rewrite numbered_report by (reflexivity || lia). by rewrite Hmean.
  - unfold large_department. cbn [employees_collection].
    rewrite salaries_of_app, !numbered_salaries by reflexivity.
    intros [_ H]. revert H.
    rewrite sum_app, !sum_replicate, length_app, !length_replicate, Nat2Z.inj_add.
    rewrite !Z2Nat.id by lia. lia.
Qed.

(** The rows of the sample store: each average is nearest to the mean
    of its department. *)
Lemma avg_salary_by_department_rows_witness :
  exists rows,
    avg_salary_by_department three_employees = (Ok rows, three_employees)
    /\ forall row,
         row ∈ rows ->
         exists g a,
           row = report_row g a
           /\ nearest_to_mean a (salaries_of g (employees_collection three_employees)).
Proof.
  destruct avg_salary_by_department_rows as [Hrows _].
  destruct (Hrows three_employees) as (rows & Hrun & _ & _ & Hrow).
  exists rows. split; [exact Hrun|].
  intros row Hin. destruct (Hrow row Hin) as (g & a & Heq & _ & _ & Hnear).
  exists g, a. split; [exact Heq|]. apply Hnear.
  pose proof (salaries_of_length g (employees_collection three_employees)) as Hlen.
  change (length (employees_collection three_employees)) with 3%nat in Hlen. lia.
Defined.
End report_examples_large.

(** ** Tokens and the dependency of the protected handlers *)

Section auth_facts.
Import db collection invariant apicall sample.

Variable SECRET_KEY : string.
Variable sign : string -> string * Z -> string.
Variable credentials_detail : string.

Lemma verify_issued subject expires_delta now0 now :
  auth.verify SECRET_KEY sign
    (auth.create_access_token SECRET_KEY sign subject expires_delta now0) now
  = if now0 + expires_delta <? now then None else Some subject.
Proof.
  unfold auth.verify, auth.create_access_token. cbn.
  rewrite String.eqb_refl. reflexivity.
Qed.


(** C8.  A token issued for a subject with a life time [ttl] at the
    time [now0] does not verify at any time after [now0 + ttl], and a
    request that bears it then is answered with Unauthorized; at any
    time before [now0 + ttl] the unmodified token verifies and gives
    the subject. *)
Theorem token_expiry (subject : string) (ttl now0 now : Z) :
  let token := auth.create_access_token SECRET_KEY sign subject ttl now0 in
  (now0 + ttl < now ->
   auth.verify SECRET_KEY sign token now = None
   /\ forall st,
        auth.get_current_active_user SECRET_KEY sign credentials_detail
          (Some token) now st
        = (Raise (HTTPException 401 credentials_detail), st))
  /\ (now < now0 + ttl ->
      auth.verify SECRET_KEY sign token now = Some subject).
Proof.
  cbn zeta. split.
  - intros Hlate.
    assert (Hv : auth.verify SECRET_KEY sign
                   (auth.create_access_token SECRET_KEY sign subject ttl now0) now
                 = None).
    { rewrite verify_issued. by rewrite (proj2 (Z.ltb_lt _ _)). }
    split; [exact Hv|]. intros st.
    unfold auth.get_current_active_user. rewrite Hv. reflexivity.
  - intros Hearly. rewrite verify_issued. by rewrite (proj2 (Z.ltb_ge _ _)) by lia.
Qed.

(** The token that a successful login returns carries the username of
    the stored user and verifies until its life time is over. *)
Lemma login_token_verifies
    (ACCESS_TOKEN_EXPIRE_MINUTES : Z) (verify_password : string -> string -> bool)
    (login_username login_password : string) (now later : Z)
    (st st' : database) (token : auth.Token) (token_type : string) :
  login_for_access_token SECRET_KEY sign ACCESS_TOKEN_EXPIRE_MINUTES verify_password
    login_username login_password now st
  = (Ok (token, token_type), st') ->
  later <= now + 60 * ACCESS_TOKEN_EXPIRE_MINUTES ->
  st' = st
  /\ exists user,
       auth.findByUsername login_username st = (Ok (Some user), st)
       /\ verify_password login_password (hashed_password user) = true
       /\ auth.verify SECRET_KEY sign token later = Some (username user).
Proof.
  unfold login_for_access_token, bind, raise, ret, minutes.
  destruct (auth.findByUsername login_username st) as [[[user|]|e] st1] eqn:Hfind;
    try discriminate.
  assert (st1 = st) as -> by (unfold auth.findByUsername in Hfind; congruence).
  destruct (verify_password login_password (hashed_password user)) eqn:Hpw;
    cbn [negb]; [|discriminate].
  intros [= <- _ <-] Hlater. split; [reflexivity|].
  exists user. split; [reflexivity|]. split; [exact Hpw|].
  rewrite verify_issued. by rewrite (proj2 (Z.ltb_ge _ _)) by lia.
Qed.

(** A changed token (another subject or expiry under the old
    signature) is refused unless the signature happens to fit. *)
Lemma verify_bad_signature token now :
  auth.signature token <> sign SECRET_KEY (auth.sub token, auth.exp token) ->
  auth.verify SECRET_KEY sign token now = None.
Proof.
  intros H. unfold auth.verify.
  by rewrite (proj2 (String.eqb_neq _ _) H).
Qed.
End auth_facts.

Section auth_examples.
Import db collection invariant apicall sample.



(** A token of 1800 seconds issued at 1000: refused at 3000, accepted
    at 1500. *)
Lemma token_expiry_witness :
  let token := auth.create_access_token "k" toy_sign "alice" 1800 1000 in
  (1000 + 1800 < 3000
   /\ auth.verify "k" toy_sign token 3000 = None
   /\ auth.get_current_active_user "k" toy_sign "Could not validate credentials"
        (Some token) 3000 two_users
      = (Raise (HTTPException 401 "Could not validate credentials"), two_users))
  /\ (1500 < 1000 + 1800
      /\ auth.verify "k" toy_sign token 1500 = Some "alice").
Proof.
  cbn zeta.
  destruct (token_expiry "k" toy_sign "Could not validate credentials"
              "alice" 1800 1000 3000) as [Hlate _].
  destruct (token_expiry "k" toy_sign "Could not validate credentials"
              "alice" 1800 1000 1500) as [_ Hearly].
  split.
  - assert (H : 1000 + 1800 < 3000) by lia.
    split; [exact H|]. destruct (Hlate H) as [Hv Hreq].
    split; [exact Hv | exact (Hreq two_users)].
  - assert (H : 1500 < 1000 + 1800) by lia.
    split; [exact H | exact (Hearly H)].
Defined.

(** The handler behind the dependency runs for a user who is not
    disabled. *)
Lemma active_user_admitted :
  auth.Depends "k" toy_sign "Could not validate credentials"
    (Some (auth.create_access_token "k" toy_sign "alice" 1800 1000)) 1500
    (fun _ => get_employee "E1") two_users
  = (Ok (shown 0 ann), two_users).
Proof. reflexivity. Qed.
End auth_examples.

(** ** The invariant is kept by the handlers that write *)

Section invariant_facts.
Import db collection invariant apicall sample.

Lemma store_ok_next st :
  store_ok st ->
  store_ok {| employees_collection := employees_collection st;
              users_collection := users_collection st;
              next_ObjectId := N.succ (next_ObjectId st) |}.
Proof.
  intros (Hv & Hf & Hn). repeat split; cbn; try done.
  eapply Forall_impl; [exact Hf|]. cbn. intros d Hd. lia.
Qed.

Lemma insert_one_store_ok data st r st' :
  store_ok st -> insert_one data st = (r, st') -> store_ok st'.
Proof.
  intros Hok. unfold insert_one, bind, new_ObjectId, raise.
  pose proof (store_ok_next st Hok) as Hok1.
  destruct (all_encodable data); cbn [negb]; [|by intros [= <- <-]].
  destruct (validates employee_schema data) eqn:Hvd; cbn [negb]; [|by intros [= <- <-]].
  cbn [employees_collection].
  destruct (duplicate_key (next_ObjectId st) data (employees_collection st)) eqn:Hdup;
    intros [= <- <-]; [exact Hok1|].
  destruct Hok as (Hv & Hf & Hn).
  repeat split; cbn.
  - apply Forall_app. split; [exact Hv | by repeat constructor].
  - apply Forall_app. split; [|repeat constructor; cbn; lia].
    eapply Forall_impl; [exact Hf|]. cbn. intros d Hd. lia.
  - rewrite fmap_app. apply NoDup_app. split; [exact Hn|]. split; [|apply NoDup_singleton].
    intros k (d & -> & Hd)%list_elem_of_fmap Hk. cbn in Hk.
    apply list_elem_of_singleton in Hk.
    apply validates_employee_schema in Hvd as (eid & ? & ? & ? & ? & Heid & _).
    unfold duplicate_key in Hdup. rewrite Heid in Hdup.
    assert (Hex : existsb (fun d' => (_id d' =? next_ObjectId st)%N
                      || field_matches (fields d' !! "employee_id") eid)
                    (employees_collection st) = true); [|congruence].
    apply existsb_exists. exists d. split; [by apply list_elem_of_In|].
    apply orb_true_iff. right. rewrite Hk, Heid. cbn. apply String.eqb_refl.
Qed.

Lemma create_employee_store_ok emp st r st' :
  store_ok st -> create_employee emp st = (r, st') -> store_ok st'.
Proof.
  intros Hok. unfold create_employee, bind, find_one, raise, lift.
  destruct (head _); [by intros [= <- <-]|].
  destruct (insert_one (jsonable_encoder emp) st) as [[oid|e] st1] eqn:Hins;
    [|intros [= <- <-]; by eapply insert_one_store_ok].
  apply (insert_one_store_ok _ _ _ _ Hok) in Hins.
  destruct (head _); by intros [= <- <-].
Qed.

Lemma update_one_store_ok q ud st r st' :
  ud !! "employee_id" = None ->
  store_ok st -> update_one q ud st = (r, st') -> store_ok st'.
Proof.
  intros Hud Hok.
  destruct (update_one_cases q ud st)
    as [[_ ->] | [(_ & _ & ->) | (_ & i & d & _ & Hi & _ & [(_ & _ & ->) | [Hnew ->]])]];
    try by intros [= <- <-].
  intros [= <- <-]. destruct Hok as (Hv & Hf & Hn).
  assert (Hkey : fields (apply_set ud d) !! "employee_id" = fields d !! "employee_id")
    by (cbn; by apply lookup_union_r).
  repeat split; cbn.
  - apply Forall_insert; [exact Hv|].
    destruct Hnew as [-> | Hnew]; [|exact Hnew].
    eapply Forall_forall in Hv; [exact Hv|]. by eapply list_elem_of_lookup_2.
  - apply Forall_insert; [exact Hf|]. cbn.
    eapply Forall_forall in Hf; [exact Hf|]. by eapply list_elem_of_lookup_2.
  - rewrite list_fmap_insert, Hkey, list_insert_id; [exact Hn|].
    by rewrite list_lookup_fmap, Hi.
Qed.

Lemma update_employee_store_ok employee_id emp st r st' :
  store_ok st -> update_employee employee_id emp st = (r, st') -> store_ok st'.
Proof.
  intros Hok. unfold update_employee, bind, raise, ret.
  case_bool_decide; [by intros [= <- <-]|].
  destruct (update_one _ _ st) as [[n|e] st1] eqn:Hup.
  - apply update_one_store_ok in Hup; [|by rewrite dict_exclude_unset_lookup|exact Hok].
    destruct (n =? 0); by intros [= <- <-].
  - apply update_one_store_ok in Hup; [|by rewrite dict_exclude_unset_lookup|exact Hok].
    by intros [= <- <-].
Qed.

Lemma delete_employee_store_ok employee_id st r st' :
  store_ok st -> delete_employee employee_id st = (r, st') -> store_ok st'.
Proof.
  intros Hok. unfold delete_employee, bind, delete_one, raise, ret.
  destruct (first_match _ _) as [i|]; cbn [Z.eqb]; intros [= <- <-]; [|exact Hok].
  destruct Hok as (Hv & Hf & Hn). repeat split; cbn.
  - by apply Forall_delete.
  - by apply Forall_delete.
  - rewrite list_fmap_delete. eapply sublist_NoDup; [exact Hn | apply sublist_delete].
Qed.

Lemma post_employees_store_ok body st r st' :
  store_ok st -> post_employees body st = (r, st') -> store_ok st'.
Proof.
  intros Hok. unfold post_employees, bind, lift.
  destruct (schemas.parse_EmployeeCreate body) as [emp|e]; [|by intros [= <- <-]].
  by apply create_employee_store_ok.
Qed.

Lemma after_store_ok st r : store_ok st -> store_ok (after st r).
Proof.
  intros Hok. destruct r as [body | employee_id body | employee_id]; cbn.
  - eapply post_employees_store_ok; [exact Hok | apply surjective_pairing].
  - eapply update_employee_store_ok; [exact Hok | apply surjective_pairing].
  - eapply delete_employee_store_ok; [exact Hok | apply surjective_pairing].
Qed.

(** Every store that the API builds from the empty database satisfies
    the invariant. *)
Lemma store_ok_reachable (requests : list write_request) :
  store_ok (foldl after empty_database requests).
Proof.
  assert (H : forall st, store_ok st -> store_ok (foldl after st requests)).
  { induction requests as [|r requests IH]; intros st Hok; [exact Hok|].
    cbn. apply IH. by apply after_store_ok. }
  apply H. repeat split; constructor.
Qed.
End invariant_facts.

(** * Further properties of the handlers *)

(** ** Request validation and the validator of the store *)

Section store_validator.
Import db collection invariant apicall sample.

(** The documents that [employee_schema] accepts are the ones that
    have [employee_id], [name] and [department] as strings, [salary] as
    a 32-bit int, [joining_date] as a string that matches the pattern,
    and [skills], when present, as an array (its items are strings
    here).  A key that the schema does not list is free: setting it
    does not change the verdict. *)
Theorem employee_schema_accepts (d : gmap string value) :
  (validates employee_schema d = true <->
   exists eid n dep z jd,
     d !! "employee_id" = Some (VStr eid)
     /\ d !! "name" = Some (VStr n)
     /\ d !! "department" = Some (VStr dep)
     /\ d !! "salary" = Some (VInt z) /\ - 2 ^ 31 <= z < 2 ^ 31
     /\ d !! "joining_date" = Some (VStr jd) /\ date_shape jd
     /\ (d !! "skills" = None \/ exists l, d !! "skills" = Some (VList l)))
  /\ (forall k v,
        k ∉ ["employee_id"; "name"; "department"; "salary"; "joining_date"; "skills"] ->
        validates employee_schema (<[k := v]> d) = validates employee_schema d).
Proof.
  split.
  - rewrite validates_employee_schema. unfold date_shape.
    split; intros (eid & n & dep & z & jd & E1 & E2 & E3 & E4 & Hz & E5 & Hjd & E6);
      exists eid, n, dep, z, jd; repeat (split; [assumption|]).
    + split; [|split; [exact E5|split; [by apply DATE_RE_match_shape | exact E6]]].
      unfold fits_int32 in Hz. lia.
    + split; [|split; [exact E5|split; [by apply DATE_RE_match_shape | exact E6]]].
      unfold fits_int32. lia.
  - intros k v Hk. apply Bool.eq_true_iff_eq. rewrite !validates_employee_schema.
    rewrite !lookup_insert_ne by set_solver. reflexivity.
Qed.
End store_validator.

Section validation.
Import db collection invariant apicall sample.
Import schemas.

(** [EmployeeCreate.check_date] returns its argument when it has the
    shape of a date, four digits, two digits and two digits with "-"
    between them, possibly followed by one newline, and raises the
    ValueError "joining_date must be YYYY-MM-DD" on every other
    string. *)
Theorem check_date_accepts_shape (v : string) :
  (check_date v = Ok v <-> date_shape v)
  /\ (check_date v = Raise date_error <-> ~ date_shape v).
Proof.
  unfold date_shape. rewrite <- DATE_RE_match_shape. unfold check_date.
  destruct (DATE_RE_match v); cbn; split; split; try done.
Qed.

(** A partial body whose [joining_date] is a non-empty string that the
    pattern does not match is rejected with the ValueError of the
    validator, and the store is not touched.  Every other partial body
    reaches [update_employee] as it is: one without [joining_date], one
    with a null or an empty [joining_date], and one whose
    [joining_date] matches. *)
Theorem put_employees_checks_date
    (employee_id : string) (body : EmployeeUpdate) (st : database) :
  ((exists s, u_joining_date body = Some (Some s)
              /\ s <> EmptyString /\ DATE_RE_match s = false)
   /\ put_employees employee_id body st = (Raise date_error, st))
  \/ ((u_joining_date body = None
       \/ u_joining_date body = Some None
       \/ u_joining_date body = Some (Some EmptyString)
       \/ exists s, u_joining_date body = Some (Some s) /\ DATE_RE_match s = true)
      /\ put_employees employee_id body st = update_employee employee_id body st).
Proof.
  unfold put_employees, bind, lift, parse_EmployeeUpdate.
  destruct body as [n dep sal jd sk]; cbn [u_joining_date].
  destruct jd as [[s|]|]; cbn [check_date_update rbind];
    [|right; split; [auto | reflexivity] ..].
  destruct (String.eqb_spec s EmptyString) as [-> | Hs]; cbn [negb andb].
  - right. split; [auto | reflexivity].
  - destruct (DATE_RE_match s) eqn:Hm; cbn [negb rbind].
    + right. split; [|reflexivity]. right. right. right. eauto.
    + left. split; [eauto | reflexivity].
Qed.

(** A body that the request validation accepts is returned as it is,
    and the validator of the store accepts its document exactly when
    the salary is a 32-bit int: the request validation takes any
    integer. *)
Theorem parse_EmployeeCreate_store_gap (body emp : EmployeeCreate) :
  parse_EmployeeCreate body = Ok emp ->
  emp = body
  /\ date_shape (joining_date emp)
  /\ (validates employee_schema (jsonable_encoder emp) = true
      <-> - 2 ^ 31 <= salary emp < 2 ^ 31).
Proof.
  unfold parse_EmployeeCreate, check_date.
  destruct (DATE_RE_match (joining_date body)) eqn:Hm; cbn; [|discriminate].
  intros [= <-]. split; [by destruct body|]. cbn [joining_date salary].
  split; [by apply DATE_RE_match_shape|].
  rewrite validates_jsonable_encoder. cbn [joining_date salary].
  unfold fits_int32. rewrite andb_true_iff, Z.leb_le, Z.ltb_lt. tauto.
Qed.

Lemma parse_EmployeeCreate_store_gap_witness :
  parse_EmployeeCreate long_salary = Ok long_salary
  /\ long_salary = long_salary
  /\ date_shape (joining_date long_salary)
  /\ (validates employee_schema (jsonable_encoder long_salary) = true
      <-> - 2 ^ 31 <= salary long_salary < 2 ^ 31).
Proof.
  split; [reflexivity|].
  apply (parse_EmployeeCreate_store_gap long_salary long_salary). reflexivity.
Defined.
End validation.

(** ** What the API shows of a document *)

Section rendering.
Import db collection invariant apicall sample.

(** [employee_helper] returns a dict exactly when the document has the
    five keys that it reads with [doc[k]]; the dict has the seven keys
    of [EmployeeOut], and its [skills] is the empty list when the
    document has none.  When a key is missing the call raises the
    KeyError of a missing key of the five. *)
Theorem employee_helper_keys (doc : document) :
  ((exists o, employee_helper doc = Ok o)
   <-> Forall (fun k => is_Some (fields doc !! k)) helper_keys)
  /\ (forall o,
        employee_helper doc = Ok o ->
        dom o = {[ "id"; "employee_id"; "name"; "department"; "salary";
                   "joining_date"; "skills" ]}
        /\ (fields doc !! "skills" = None -> o !! "skills" = Some (VList [])))
  /\ (forall e,
        employee_helper doc = Raise e ->
        exists k, e = KeyError k /\ k ∈ helper_keys /\ fields doc !! k = None).
Proof.
  unfold helper_keys. rewrite !Forall_cons, Forall_nil.
  unfold employee_helper, getitem.
  destruct (fields doc !! "employee_id") as [v1|] eqn:E1; cbn [rbind];
    [|split; [split; [by intros [? ?] | by intros [[? ?] _]]|];
      split; [discriminate|]; intros e [= <-]; eexists; split; [reflexivity|];
      split; [set_solver | done]].
  destruct (fields doc !! "name") as [v2|] eqn:E2; cbn [rbind];
    [|split; [split; [by intros [? ?] | by intros (_ & [? ?] & _)]|];
      split; [discriminate|]; intros e [= <-]; eexists; split; [reflexivity|];
      split; [set_solver | done]].
  destruct (fields doc !! "department") as [v3|] eqn:E3; cbn [rbind];
    [|split; [split; [by intros [? ?] | by intros (_ & _ & [? ?] & _)]|];
      split; [discriminate|]; intros e [= <-]; eexists; split; [reflexivity|];
      split; [set_solver | done]].
  destruct (fields doc !! "salary") as [v4|] eqn:E4; cbn [rbind];
    [|split; [split; [by intros [? ?] | by intros (_ & _ & _ & [? ?] & _)]|];
      split; [discriminate|]; intros e [= <-]; eexists; split; [reflexivity|];
      split; [set_solver | done]].
  destruct (fields doc !! "joining_date") as [v5|] eqn:E5; cbn [rbind];
    [|split; [split; [by intros [? ?] | by intros (_ & _ & _ & _ & [? ?] & _)]|];
      split; [discriminate|]; intros e [= <-]; eexists; split; [reflexivity|];
      split; [set_solver | done]].
  split; [split; [intros _; by repeat split | intros _; eauto]|].
  split; [|discriminate].
  intros o [= <-]. split.
  - rewrite !dom_insert_L, dom_empty_L. set_solver.
  - intros ->. reflexivity.
Qed.
End rendering.

(** ** Reading and deleting one record *)

Section one_record.
Import db collection invariant apicall sample.

Local Abbreviation by_employee_id eid := (q_field "employee_id" eid).
Local Abbreviation not_found := (HTTPException 404 "Employee not found").

(** [find_one] returns the first document that matches. *)
Lemma head_filter_first_match q l :
  head (List.filter (matches q) l)
  = match first_match q l with Some i => l !! i | None => None end.
Proof.
  induction l as [|a l IH]; [reflexivity|]. cbn.
  destruct (matches q a); [reflexivity|]. rewrite IH.
  by destruct (first_match q l).
Qed.

(** On a store that satisfies the invariant an [employee_id] names at
    most one record. *)
Lemma unique_employee_id st eid d d' :
  store_ok st ->
  d ∈ employees_collection st -> d' ∈ employees_collection st ->
  has_employee_id eid d -> has_employee_id eid d' -> d = d'.
Proof.
  intros (_ & _ & Hn) [i Hi]%list_elem_of_lookup [j Hj]%list_elem_of_lookup Hd Hd'.
  assert (i = j) as ->; [|congruence].
  eapply NoDup_lookup; [exact Hn | |].
  - rewrite list_lookup_fmap, Hi. reflexivity.
  - rewrite list_lookup_fmap, Hj. cbn. unfold has_employee_id in *. congruence.
Qed.

Lemma no_match_no_employee_id st eid :
  store_ok st ->
  (forall d, d ∈ employees_collection st -> matches (by_employee_id eid) d = false)
  <-> (forall d, d ∈ employees_collection st -> ~ has_employee_id eid d).
Proof.
  intros (Hv & _ & _). rewrite Forall_forall in Hv. split; intros H d Hd.
  - intros Hid%has_employee_id_matches. specialize (H d Hd). congruence.
  - apply not_true_is_false. rewrite matches_employee_id_valid by auto. auto.
Qed.

Lemma get_employee_no_match employee_id st :
  (forall d, d ∈ employees_collection st ->
             matches (by_employee_id employee_id) d = false) ->
  get_employee employee_id st = (Raise not_found, st).
Proof.
  intros Hno. unfold get_employee, bind, find_one.
  by rewrite (head_filter_None _ _ Hno).
Qed.

Lemma delete_employee_no_match employee_id st :
  (forall d, d ∈ employees_collection st ->
             matches (by_employee_id employee_id) d = false) ->
  delete_employee employee_id st = (Raise not_found, st).
Proof.
  intros Hno. unfold delete_employee, bind, delete_one.
  by rewrite (proj2 (first_match_None _ _) Hno).
Qed.

(** What a successful delete has done. *)
Lemma delete_employee_Ok employee_id st msg st' :
  delete_employee employee_id st = (Ok msg, st') ->
  exists i d,
    employees_collection st !! i = Some d
    /\ matches (by_employee_id employee_id) d = true
    /\ st' = set_employees (delete i (employees_collection st)) st.
Proof.
  unfold delete_employee, bind, delete_one.
  destruct (first_match (by_employee_id employee_id) (employees_collection st))
    as [i|] eqn:Hfm; cbn [Z.eqb]; [|discriminate].
  apply first_match_Some in Hfm as [(d & Hi & Hm) _].
  intros [= _ <-]. by exists i, d.
Qed.

(** Beside a record with an [employee_id], no record has it. *)
Lemma others_differ st eid l1 d l2 :
  store_ok st ->
  employees_collection st = l1 ++ d :: l2 ->
  has_employee_id eid d ->
  forall d', d' ∈ l1 ++ l2 -> ~ has_employee_id eid d'.
Proof.
  intros (_ & _ & Hn) Hl Hid. rewrite Hl, fmap_app, fmap_cons in Hn.
  apply NoDup_app in Hn as (_ & Hl1 & [Hl2 _]%NoDup_cons).
  intros d' [Hd' | Hd']%elem_of_app Hid'.
  - apply (Hl1 (fields d' !! "employee_id")).
    + apply list_elem_of_fmap. eauto.
    + unfold has_employee_id in *. rewrite Hid', <- Hid. left.
  - apply Hl2. apply list_elem_of_fmap. exists d'. split; [|exact Hd'].
    unfold has_employee_id in *. congruence.
Qed.

(** On a store that satisfies the invariant, [get_employee] fails with
    the not-found answer (HTTP 404) when no stored record has the
    [employee_id], and otherwise returns what [employee_helper] shows
    of the one record that has it.  The store stays as it is. *)
Theorem get_employee_found_or_404 (employee_id : string) (st : database) :
  store_ok st ->
  ((forall d, d ∈ employees_collection st -> ~ has_employee_id employee_id d)
   /\ get_employee employee_id st = (Raise not_found, st))
  \/ (exists d o,
        d ∈ employees_collection st
        /\ has_employee_id employee_id d
        /\ (forall d', d' ∈ employees_collection st ->
                       has_employee_id employee_id d' -> d' = d)
        /\ employee_helper d = Ok o
        /\ get_employee employee_id st = (Ok o, st)).
Proof.
  intros Hok. pose proof Hok as (Hv & _ & _). rewrite Forall_forall in Hv.
  destruct (first_match (by_employee_id employee_id) (employees_collection st))
    as [i|] eqn:Hfm.
  - right. unfold get_employee, bind, find_one.
    rewrite head_filter_first_match, Hfm.
    apply first_match_Some in Hfm as [(d & Hi & Hm) _]. rewrite Hi.
    assert (Hd : d ∈ employees_collection st) by (by eapply list_elem_of_lookup_2).
    apply matches_employee_id_valid in Hm; [|auto].
    destruct (employee_helper_valid d (Hv d Hd)) as [o Ho].
    exists d, o. split; [exact Hd|]. split; [exact Hm|].
    split; [intros d' Hd' Hid'; by eapply unique_employee_id|].
    split; [exact Ho|]. unfold lift. by rewrite Ho.
  - left. pose proof (proj1 (first_match_None _ _) Hfm) as Hno.
    split; [|by apply get_employee_no_match].
    by apply no_match_no_employee_id.
Qed.

(** On a store that satisfies the invariant, [delete_employee] fails
    with the not-found answer (HTTP 404) and changes nothing when no
    stored record has the [employee_id]; otherwise it removes the
    record that has it, keeps the other records in their order, and no
    record of the new store has the [employee_id]. *)
Theorem delete_employee_removes_record (employee_id : string) (st : database) :
  store_ok st ->
  ((forall d, d ∈ employees_collection st -> ~ has_employee_id employee_id d)
   /\ delete_employee employee_id st = (Raise not_found, st))
  \/ (exists l1 d l2,
        employees_collection st = l1 ++ d :: l2
        /\ has_employee_id employee_id d
        /\ (forall d', d' ∈ l1 ++ l2 -> ~ has_employee_id employee_id d')
        /\ delete_employee employee_id st
           = (Ok "Employee deleted", set_employees (l1 ++ l2) st)).
Proof.
  intros Hok. pose proof Hok as (Hv & _ & _). rewrite Forall_forall in Hv.
  destruct (first_match (by_employee_id employee_id) (employees_collection st))
    as [i|] eqn:Hfm.
  - right. unfold delete_employee, bind, delete_one. rewrite Hfm. cbn [Z.eqb].
    apply first_match_Some in Hfm as [(d & Hi & Hm) _].
    assert (Hd : d ∈ employees_collection st) by (by eapply list_elem_of_lookup_2).
    apply matches_employee_id_valid in Hm; [|auto].
    pose proof (take_drop_middle _ _ _ Hi) as Hsplit. symmetry in Hsplit.
    exists (take i (employees_collection st)), d, (drop (S i) (employees_collection st)).
    split; [exact Hsplit|]. split; [exact Hm|].
    split; [by eapply others_differ | by rewrite delete_take_drop].
  - left. pose proof (proj1 (first_match_None _ _) Hfm) as Hno.
    split; [|by apply delete_employee_no_match].
    by apply no_match_no_employee_id.
Qed.

(** After a successful delete, on a store that satisfies the
    invariant, the record is gone: reading it and deleting it again
    both fail with the not-found answer. *)
Theorem delete_employee_then_gone
    (employee_id msg : string) (st st' : database) :
  store_ok st ->
  delete_employee employee_id st = (Ok msg, st') ->
  get_employee employee_id st' = (Raise not_found, st')
  /\ delete_employee employee_id st' = (Raise not_found, st').
Proof.
  intros Hok Hdel.
  assert (Hok' : store_ok st') by (by eapply delete_employee_store_ok).
  pose proof Hok as (Hv & _ & _). rewrite Forall_forall in Hv.
  apply delete_employee_Ok in Hdel as (i & d & Hi & Hm & ->).
  assert (Hd : d ∈ employees_collection st) by (by eapply list_elem_of_lookup_2).
  apply matches_employee_id_valid in Hm; [|auto].
  pose proof (take_drop_middle _ _ _ Hi) as Hsplit. symmetry in Hsplit.
  pose proof (others_differ st employee_id _ _ _ Hok Hsplit Hm) as Hgone.
  rewrite <- delete_take_drop in Hgone.
  assert (Hno : forall d', d' ∈ employees_collection
                                 (set_employees (delete i (employees_collection st)) st) ->
                           matches (by_employee_id employee_id) d' = false).
  { apply no_match_no_employee_id; [exact Hok' | exact Hgone]. }
  split; [by apply get_employee_no_match | by apply delete_employee_no_match].
Qed.
End one_record.

Section one_record_examples.
Import db collection invariant apicall sample.

Lemma get_employee_found_or_404_witness :
  store_ok three_employees
  /\ (((forall d, d ∈ employees_collection three_employees -> ~ has_employee_id "E2" d)
       /\ get_employee "E2" three_employees
          = (Raise (HTTPException 404 "Employee not found"), three_employees))
      \/ (exists d o,
            d ∈ employees_collection three_employees
            /\ has_employee_id "E2" d
            /\ (forall d', d' ∈ employees_collection three_employees ->
                           has_employee_id "E2" d' -> d' = d)
            /\ employee_helper d = Ok o
            /\ get_employee "E2" three_employees = (Ok o, three_employees))).
Proof.
  assert (Hok : store_ok three_employees) by store_ok_by_computation.
  split; [exact Hok|]. exact (get_employee_found_or_404 "E2" three_employees Hok).
Defined.

Lemma delete_employee_removes_record_witness :
  store_ok three_employees
  /\ (((forall d, d ∈ employees_collection three_employees -> ~ has_employee_id "E2" d)
       /\ delete_employee "E2" three_employees
          = (Raise (HTTPException 404 "Employee not found"), three_employees))
      \/ (exists l1 d l2,
            employees_collection three_employees = l1 ++ d :: l2
            /\ has_employee_id "E2" d
            /\ (forall d', d' ∈ l1 ++ l2 -> ~ has_employee_id "E2" d')
            /\ delete_employee "E2" three_employees
               = (Ok "Employee deleted", set_employees (l1 ++ l2) three_employees))).
Proof.
  assert (Hok : store_ok three_employees) by store_ok_by_computation.
  split; [exact Hok|]. exact (delete_employee_removes_record "E2" three_employees Hok).
Defined.

Lemma delete_employee_then_gone_witness :
  store_ok three_employees
  /\ delete_employee "E2" three_employees
     = (Ok "Employee deleted", set_employees [stored 0 ann; stored 2 cy] three_employees)
  /\ get_employee "E2" (set_employees [stored 0 ann; stored 2 cy] three_employees)
     = (Raise (HTTPException 404 "Employee not found"),
        set_employees [stored 0 ann; stored 2 cy] three_employees)
  /\ delete_employee "E2" (set_employees [stored 0 ann; stored 2 cy] three_employees)
     = (Raise (HTTPException 404 "Employee not found"),
        set_employees [stored 0 ann; stored 2 cy] three_employees).
Proof.
  assert (Hok : store_ok three_employees) by store_ok_by_computation.
  split; [exact Hok|]. split; [reflexivity|].
  exact (delete_employee_then_gone "E2" "Employee deleted" three_employees _
           Hok eq_refl).
Defined.
End one_record_examples.

(** ** What follows a create *)

Section creation.
Import db collection invariant apicall sample.

Local Abbreviation by_employee_id eid := (q_field "employee_id" eid).
Local Abbreviation not_found := (HTTPException 404 "Employee not found").
Local Abbreviation appended st emp :=
  {| employees_collection :=
       employees_collection st
       ++ [{| _id := next_ObjectId st; fields := jsonable_encoder emp |}];
     users_collection := users_collection st;
     next_ObjectId := N.succ (next_ObjectId st) |}.

Lemma existsb_false_elem_of {A} (f : A -> bool) (l : list A) x :
  existsb f l = false -> x ∈ l -> f x = false.
Proof.
  intros H Hx. apply not_true_is_false. intros Hf.
  assert (existsb f l = true); [|congruence].
  apply existsb_exists. exists x. split; [by apply list_elem_of_In | exact Hf].
Qed.

Lemma matches_stored_employee_id oid emp :
  matches (by_employee_id (schemas.employee_id emp))
    {| _id := oid; fields := jsonable_encoder emp |} = true.
Proof. apply has_employee_id_matches. reflexivity. Qed.

Lemma all_encodable_jsonable_encoder_eq emp :
  all_encodable (jsonable_encoder emp) = fits_int64 (schemas.salary emp).
Proof.
  destruct (fits_int64 (schemas.salary emp)) eqn:Hz.
  - apply bool_decide_eq_true. unfold jsonable_encoder.
    repeat (apply map_Forall_insert_2; [try reflexivity|]); [|apply map_Forall_empty].
    exact Hz.
  - apply bool_decide_eq_false. intros H.
    specialize (H "salary" (VInt (schemas.salary emp))
                  (proj1 (proj2 (proj2 (proj2 (jsonable_encoder_lookups emp)))))).
    cbn in H. congruence.
Qed.

(** What a successful create has done. *)
Lemma create_employee_Ok emp st out st' :
  create_employee emp st = (Ok out, st') ->
  (forall d, d ∈ employees_collection st ->
             matches (by_employee_id (schemas.employee_id emp)) d = false)
  /\ st' = appended st emp
  /\ out = <["id" := VStr (str_ObjectId (next_ObjectId st))]> (jsonable_encoder emp).
Proof.
  unfold create_employee, bind, find_one. rewrite head_filter_first_match.
  destruct (first_match _ (employees_collection st)) as [i|] eqn:Hfm.
  { apply first_match_Some in Hfm as [(d & -> & _) _]. discriminate. }
  pose proof (proj1 (first_match_None _ _) Hfm) as Hno. clear Hfm.
  unfold insert_one, bind, new_ObjectId.
  destruct (all_encodable (jsonable_encoder emp)); cbn [negb raise]; [|discriminate].
  destruct (validates employee_schema (jsonable_encoder emp)); cbn [negb raise];
    [|discriminate].
  cbn [employees_collection].
  destruct (duplicate_key _ _ _) eqn:Hdup; [discriminate|].
  cbn [set_employees employees_collection users_collection next_ObjectId].
  rewrite List.filter_app, filter_all_false; cycle 1.
  { intros x Hx. unfold duplicate_key in Hdup.
    apply (existsb_false_elem_of _ _ x) in Hdup; [|exact Hx].
    by apply orb_false_elim in Hdup as [? _]. }
  cbn. rewrite N.eqb_refl. cbn. unfold lift.
  rewrite employee_helper_jsonable_encoder. intros [= <- <-]. done.
Qed.

(** A record that has just been created is the record that
    [get_employee] returns for its [employee_id]. *)
Theorem create_employee_then_get
    (emp : schemas.EmployeeCreate) (out : gmap string value) (st st' : database) :
  create_employee emp st = (Ok out, st') ->
  get_employee (schemas.employee_id emp) st' = (Ok out, st').
Proof.
  intros (Hno & -> & ->)%create_employee_Ok.
  unfold get_employee, bind, find_one. cbn [employees_collection].
  rewrite List.filter_app, (filter_all_false _ _ Hno).
  cbn [List.filter app]. rewrite matches_stored_employee_id. cbn [head].
  unfold lift. by rewrite employee_helper_jsonable_encoder.
Qed.

(** After a successful create every further create with the same
    [employee_id] fails with the conflict answer (HTTP 400) and leaves
    the store as it is, whatever else the new body holds. *)
Theorem create_employee_twice_conflict
    (emp emp' : schemas.EmployeeCreate) (out : gmap string value)
    (st st' : database) :
  create_employee emp st = (Ok out, st') ->
  schemas.employee_id emp' = schemas.employee_id emp ->
  create_employee emp' st'
  = (Raise (HTTPException 400 "employee_id already exists"), st').
Proof.
  intros (_ & -> & _)%create_employee_Ok Heq.
  unfold create_employee, bind, find_one. rewrite Heq.
  destruct (head_filter_Some
              (matches (by_employee_id (schemas.employee_id emp)))
              (employees_collection (appended st emp))
              {| _id := next_ObjectId st; fields := jsonable_encoder emp |})
    as [x ->]; [| apply matches_stored_employee_id | reflexivity].
  cbn [employees_collection]. apply elem_of_app. right. left.
Qed.

(** A delete undoes a create: deleting the [employee_id] of a record
    that has just been created succeeds and gives back the employees
    collection and the users collection as they were before the
    create. *)
Theorem create_employee_then_delete
    (emp : schemas.EmployeeCreate) (out : gmap string value) (st st' : database) :
  create_employee emp st = (Ok out, st') ->
  exists st'',
    delete_employee (schemas.employee_id emp) st' = (Ok "Employee deleted", st'')
    /\ employees_collection st'' = employees_collection st
    /\ users_collection st'' = users_collection st.
Proof.
  intros (Hno & -> & _)%create_employee_Ok.
  unfold delete_employee, bind, delete_one. cbn [employees_collection].
  assert (Hfm : first_match (by_employee_id (schemas.employee_id emp))
                  (employees_collection st
                   ++ [{| _id := next_ObjectId st; fields := jsonable_encoder emp |}])
                = Some (length (employees_collection st))).
  { apply first_match_Some. split.
    - eexists. split; [apply list_lookup_middle; reflexivity|].
      apply matches_stored_employee_id.
    - intros j d Hj Hd. rewrite lookup_app_l in Hd by exact Hj.
      apply Hno. by eapply list_elem_of_lookup_2. }
  rewrite Hfm. cbn [Z.eqb]. eexists. split; [reflexivity|].
  cbn [set_employees employees_collection users_collection].
  split; [|reflexivity].
  rewrite (delete_middle (employees_collection st) []). apply app_nil_r.
Qed.

(** When no stored record has the [employee_id] and the validator of
    the store refuses the record (its salary is not a 32-bit int, or
    its [joining_date] does not match the pattern), [create_employee]
    fails with the error of the store: OverflowError when the salary
    needs more than eight bytes, WriteError otherwise.  No record is
    added. *)
Theorem create_employee_refused_by_store
    (emp : schemas.EmployeeCreate) (st : database) :
  store_ok st ->
  (forall d, d ∈ employees_collection st ->
             ~ has_employee_id (schemas.employee_id emp) d) ->
  fits_int32 (schemas.salary emp) = false
  \/ schemas.DATE_RE_match (schemas.joining_date emp) = false ->
  exists st',
    create_employee emp st
    = (Raise (if fits_int64 (schemas.salary emp) then WriteError else OverflowError),
       st')
    /\ employees_collection st' = employees_collection st
    /\ users_collection st' = users_collection st.
Proof.
  intros Hok Hnew Hbad.
  pose proof (proj2 (no_match_no_employee_id st _ Hok) Hnew) as Hno.
  unfold create_employee, bind, find_one. rewrite (head_filter_None _ _ Hno).
  unfold insert_one, bind, new_ObjectId.
  rewrite all_encodable_jsonable_encoder_eq.
  destruct (fits_int64 (schemas.salary emp)); cbn [negb raise];
    [|eexists; split; [reflexivity | split; reflexivity]].
  destruct (validates employee_schema (jsonable_encoder emp)) eqn:Hv; cbn [negb raise];
    [|eexists; split; [reflexivity | split; reflexivity]].
  apply validates_jsonable_encoder in Hv as [Hz Hjd].
  destruct Hbad; congruence.
Qed.
End creation.

Section creation_examples.
Import db collection invariant apicall sample.

Lemma create_employee_then_get_witness :
  create_employee dee three_employees
  = (Ok (shown 3 dee),
     {| employees_collection := employees_collection three_employees ++ [stored 3 dee];
        users_collection := [];
        next_ObjectId := 4 |})
  /\ get_employee "E4"
       {| employees_collection := employees_collection three_employees ++ [stored 3 dee];
          users_collection := [];
          next_ObjectId := 4 |}
     = (Ok (shown 3 dee),
        {| employees_collection := employees_collection three_employees ++ [stored 3 dee];
           users_collection := [];
           next_ObjectId := 4 |}).
Proof.
  split; [reflexivity|].
  exact (create_employee_then_get dee (shown 3 dee) three_employees _ eq_refl).
Defined.

Lemma create_employee_twice_conflict_witness :
  create_employee dee three_employees
  = (Ok (shown 3 dee),
     {| employees_collection := employees_collection three_employees ++ [stored 3 dee];
        users_collection := [];
        next_ObjectId := 4 |})
  /\ create_employee (employee "E4" "Dan" "Eng" 10 "2020-02-02" [])
       {| employees_collection := employees_collection three_employees ++ [stored 3 dee];
          users_collection := [];
          next_ObjectId := 4 |}
     = (Raise (HTTPException 400 "employee_id already exists"),
        {| employees_collection := employees_collection three_employees ++ [stored 3 dee];
           users_collection := [];
           next_ObjectId := 4 |}).
Proof.
  split; [reflexivity|].
  exact (create_employee_twice_conflict dee (employee "E4" "Dan" "Eng" 10 "2020-02-02" [])
           (shown 3 dee) three_employees _ eq_refl eq_refl).
Defined.

Lemma create_employee_then_delete_witness :
  create_employee dee three_employees
  = (Ok (shown 3 dee),
     {| employees_collection := employees_collection three_employees ++ [stored 3 dee];
        users_collection := [];
        next_ObjectId := 4 |})
  /\ exists st'',
       delete_employee "E4"
         {| employees_collection := employees_collection three_employees ++ [stored 3 dee];
            users_collection := [];
            next_ObjectId := 4 |}
       = (Ok "Employee deleted", st'')
       /\ employees_collection st'' = employees_collection three_employees
       /\ users_collection st'' = users_collection three_employees.
Proof.
  split; [reflexivity|].
  exact (create_employee_then_delete dee (shown 3 dee) three_employees _ eq_refl).
Defined.

Lemma create_employee_refused_by_store_witness :
  store_ok three_employees
  /\ (forall d, d ∈ employees_collection three_employees ->
                ~ has_employee_id (schemas.employee_id long_salary) d)
  /\ (fits_int32 (schemas.salary long_salary) = false
      \/ schemas.DATE_RE_match (schemas.joining_date long_salary) = false)
  /\ exists st',
       create_employee long_salary three_employees
       = (Raise (if fits_int64 (schemas.salary long_salary)
                 then WriteError else OverflowError), st')
       /\ employees_collection st' = employees_collection three_employees
       /\ users_collection st' = users_collection three_employees.
Proof.
  assert (Hok : store_ok three_employees) by store_ok_by_computation.
  assert (Hnew : forall d, d ∈ employees_collection three_employees ->
                           ~ has_employee_id (schemas.employee_id long_salary) d).
  { intros d Hd. cbn in Hd.
    repeat (apply elem_of_cons in Hd as [-> | Hd]; [by vm_compute|]).
    by apply not_elem_of_nil in Hd. }
  split; [exact Hok|]. split; [exact Hnew|]. split; [left; reflexivity|].
  exact (create_employee_refused_by_store long_salary three_employees Hok Hnew
           (or_introl eq_refl)).
Defined.
End creation_examples.

(** ** What follows an update *)

Section updating.
Import db collection invariant apicall sample.

Local Abbreviation by_employee_id eid := (q_field "employee_id" eid).

Lemma first_match_insert q l i d' :
  first_match q l = Some i -> matches q d' = true ->
  first_match q (<[i := d']> l) = Some i.
Proof.
  intros [(d & Hi & _) Hbefore]%first_match_Some Hm. apply first_match_Some. split.
  - exists d'. split; [|exact Hm].
    apply list_lookup_insert_eq. by eapply lookup_lt_Some.
  - intros j x Hj Hx. rewrite list_lookup_insert_ne in Hx by lia. by eapply Hbefore.
Qed.

(** An update does not touch the [employee_id]. *)
Lemma apply_set_employee_id emp d :
  fields (apply_set (dict_exclude_unset emp) d) !! "employee_id"
  = fields d !! "employee_id".
Proof. cbn. apply lookup_union_r. by rewrite dict_exclude_unset_lookup. Qed.

Lemma apply_set_twice ud d : apply_set ud (apply_set ud d) = apply_set ud d.
Proof.
  unfold apply_set. cbn. f_equal.
  by rewrite (assoc_L (∪)), (idemp_L (∪)).
Qed.

(** What a successful update has done. *)
Lemma update_employee_Ok employee_id emp st msg st' :
  update_employee employee_id emp st = (Ok msg, st') ->
  msg = "Employee updated"
  /\ all_encodable (dict_exclude_unset emp) = true
  /\ exists i d,
       first_match (by_employee_id employee_id) (employees_collection st) = Some i
       /\ employees_collection st !! i = Some d
       /\ matches (by_employee_id employee_id) d = true
       /\ st' = set_employees
                  (<[i := apply_set (dict_exclude_unset emp) d]> (employees_collection st))
                  st.
Proof.
  unfold update_employee, bind, raise, ret. case_bool_decide; [discriminate|].
  destruct (update_one_cases (by_employee_id employee_id) (dict_exclude_unset emp) st)
    as [[_ ->] | [(_ & _ & ->) | (Henc & i & d & Hfm & Hi & Hm
                                  & [(_ & _ & ->) | [_ ->]])]];
    cbn; try discriminate.
  intros [= <- <-]. split; [reflexivity|]. split; [exact Henc|].
  exists i, d. done.
Qed.

(** After a successful update, on a store that satisfies the
    invariant, [get_employee] returns the record with every value of
    the partial body in place. *)
Theorem update_employee_then_get
    (employee_id msg : string) (emp : schemas.EmployeeUpdate) (st st' : database) :
  store_ok st ->
  update_employee employee_id emp st = (Ok msg, st') ->
  exists o,
    get_employee employee_id st' = (Ok o, st')
    /\ o !! "employee_id" = Some (VStr employee_id)
    /\ forall k v, dict_exclude_unset emp !! k = Some v -> o !! k = Some v.
Proof.
  intros Hok Hup.
  assert (Hok' : store_ok st') by (by eapply update_employee_store_ok).
  destruct Hok as (Hv & _ & _). rewrite Forall_forall in Hv.
  destruct Hok' as (Hv' & _ & _). rewrite Forall_forall in Hv'.
  apply update_employee_Ok in Hup as (_ & _ & i & d & Hfm & Hi & Hm & ->).
  set (d' := apply_set (dict_exclude_unset emp) d) in *.
  assert (Hlt : (i < length (employees_collection st))%nat)
    by (by eapply lookup_lt_Some).
  assert (Hi' : <[i := d']> (employees_collection st) !! i = Some d')
    by (by apply list_lookup_insert_eq).
  assert (Hd : d ∈ employees_collection st) by (by eapply list_elem_of_lookup_2).
  assert (Hid : has_employee_id employee_id d)
    by (apply matches_employee_id_valid; auto).
  assert (Hid' : has_employee_id employee_id d').
  { unfold has_employee_id, d'. by rewrite apply_set_employee_id. }
  assert (Hvd' : validates employee_schema (fields d') = true).
  { apply Hv'. cbn. by eapply list_elem_of_lookup_2. }
  destruct (employee_helper_valid d' Hvd') as [o Ho].
  exists o. split; [|split].
  - unfold get_employee, bind, find_one. rewrite head_filter_first_match.
    cbn [set_employees employees_collection].
    rewrite (first_match_insert _ _ _ d' Hfm (has_employee_id_matches _ _ Hid')), Hi'.
    unfold lift. by rewrite Ho.
  - apply employee_helper_Ok in Ho as (_ & -> & _). exact Hid'.
  - intros k v Hk.
    assert (Hf : fields d' !! k = Some v) by (by apply lookup_union_Some_l).
    apply employee_helper_Ok in Ho as (_ & _ & H2 & H3 & H4 & H5 & H6).
    rewrite dict_exclude_unset_lookup in Hk.
    repeat case_decide; subst; try congruence.
    by rewrite H6, Hf.
Qed.

(** When a stored record has the [employee_id] and the partial body
    sets a field to a value that the validator of the store refuses (a
    null, a salary that is not a 32-bit int, a [joining_date] that does
    not match the pattern, the empty string among them), the update
    fails with the WriteError of the store, not with an HTTP answer,
    and the store stays as it was. *)
Theorem update_employee_refused_by_store
    (employee_id : string) (emp : schemas.EmployeeUpdate) (st : database) :
  store_ok st ->
  (exists d, d ∈ employees_collection st /\ has_employee_id employee_id d) ->
  refused_field emp ->
  (forall z, schemas.u_salary emp = Some (Some z) -> fits_int64 z = true) ->
  update_employee employee_id emp st = (Raise WriteError, st).
Proof.
  intros (Hv & _ & _) (d0 & Hd0 & Hid0) Hbad Hz. rewrite Forall_forall in Hv.
  assert (Hne : dict_exclude_unset emp <> ∅).
  { intros (E1 & E2 & E3 & E4 & E5)%dict_exclude_unset_empty.
    destruct Hbad as [H | [H | [H | [(? & H & _) | [H | [(? & H & _) | H]]]]]];
      congruence. }
  assert (Hinvalid : forall m, validates employee_schema m = true ->
            validates employee_schema (dict_exclude_unset emp ∪ m) = false).
  { intros m _. apply not_true_is_false.
    intros (eid & n & dep & z & jd & _ & E2 & E3 & E4 & Hz32 & E5 & Hjd & E6)
             %validates_employee_schema.
    assert (Hl : forall k v, dict_exclude_unset emp !! k = Some v ->
                             (dict_exclude_unset emp ∪ m) !! k = Some v)
      by (intros k v; apply lookup_union_Some_l).
    destruct Hbad as [H | [H | [H | [(z' & H & Hz') | [H | [(s & H & Hs) | H]]]]]].
    - specialize (Hl "name" VNone). rewrite dict_exclude_unset_lookup in Hl.
      cbn in Hl. rewrite H in Hl. specialize (Hl eq_refl). congruence.
    - specialize (Hl "department" VNone). rewrite dict_exclude_unset_lookup in Hl.
      cbn in Hl. rewrite H in Hl. specialize (Hl eq_refl). congruence.
    - specialize (Hl "salary" VNone). rewrite dict_exclude_unset_lookup in Hl.
      cbn in Hl. rewrite H in Hl. specialize (Hl eq_refl). congruence.
    - specialize (Hl "salary" (VInt z')). rewrite dict_exclude_unset_lookup in Hl.
      cbn in Hl. rewrite H in Hl. specialize (Hl eq_refl). congruence.
    - specialize (Hl "joining_date" VNone). rewrite dict_exclude_unset_lookup in Hl.
      cbn in Hl. rewrite H in Hl. specialize (Hl eq_refl). congruence.
    - specialize (Hl "joining_date" (VStr s)). rewrite dict_exclude_unset_lookup in Hl.
      cbn in Hl. rewrite H in Hl. specialize (Hl eq_refl). congruence.
    - specialize (Hl "skills" VNone). rewrite dict_exclude_unset_lookup in Hl.
      cbn in Hl. rewrite H in Hl. specialize (Hl eq_refl).
      destruct E6 as [E6 | [l E6]]; congruence. }
  unfold update_employee, bind, raise, ret. case_bool_decide; [done|].
  destruct (update_one_cases (by_employee_id employee_id) (dict_exclude_unset emp) st)
    as [[Henc _] | [(_ & Hno & _) | (_ & i & d & _ & Hi & _
                                     & [(_ & _ & ->) | [Hnew _]])]].
  - rewrite all_encodable_dict_exclude_unset in Henc by exact Hz. discriminate.
  - specialize (Hno d0 Hd0). rewrite has_employee_id_matches in Hno by exact Hid0.
    discriminate.
  - reflexivity.
  - assert (Hvd : validates employee_schema (fields d) = true)
      by (apply Hv; by eapply list_elem_of_lookup_2).
    pose proof (Hinvalid _ Hvd) as Hbadd.
    destruct Hnew as [Hsame | Hvalid].
    + apply (f_equal fields) in Hsame. cbn in Hsame. congruence.
    + cbn in Hvalid. congruence.
Qed.

(** An update is idempotent: the same request once more gives the same
    answer and leaves the store as the first one left it. *)
Theorem update_employee_idempotent
    (employee_id : string) (emp : schemas.EmployeeUpdate) (st : database) :
  update_employee employee_id emp (update_employee employee_id emp st).2
  = ((update_employee employee_id emp st).1, (update_employee employee_id emp st).2).
Proof.
  destruct (update_employee employee_id emp st) as [[msg|e] st'] eqn:Hup; cbn [fst snd].
  - pose proof Hup as (-> & Henc & i & d & Hfm & Hi & Hm & ->)%update_employee_Ok.
    set (d' := apply_set (dict_exclude_unset emp) d).
    unfold update_employee, bind, raise, ret in *.
    case_bool_decide; [discriminate|].
    unfold update_one. rewrite Henc. cbn [negb set_employees employees_collection].
    assert (Hm' : matches (by_employee_id employee_id) d' = true).
    { change (field_matches (fields d' !! "employee_id") employee_id = true).
      unfold d'. rewrite apply_set_employee_id. exact Hm. }
    rewrite (first_match_insert _ _ _ d' Hfm Hm').
    rewrite list_lookup_insert_eq by (by eapply lookup_lt_Some).
    unfold d'. rewrite apply_set_twice, bool_decide_eq_true_2 by reflexivity.
    reflexivity.
  - pose proof (update_employee_failure_unchanged employee_id emp st e) as Hsame.
    rewrite Hup in Hsame. cbn in Hsame. specialize (Hsame eq_refl). subst st'.
    exact Hup.
Qed.
End updating.

Section updating_examples.
Import db collection invariant apicall sample.

Lemma update_employee_then_get_witness :
  store_ok three_employees
  /\ update_employee "E2" (only_salary 5000) three_employees
     = (Ok "Employee updated",
        set_employees
          [stored 0 ann; stored 1 (employee "E2" "Bob" "Eng" 5000 "2023-07-15" []);
           stored 2 cy] three_employees)
  /\ exists o,
       get_employee "E2"
         (set_employees
            [stored 0 ann; stored 1 (employee "E2" "Bob" "Eng" 5000 "2023-07-15" []);
             stored 2 cy] three_employees)
       = (Ok o,
          set_employees
            [stored 0 ann; stored 1 (employee "E2" "Bob" "Eng" 5000 "2023-07-15" []);
             stored 2 cy] three_employees)
       /\ o !! "employee_id" = Some (VStr "E2")
       /\ forall k v, dict_exclude_unset (only_salary 5000) !! k = Some v ->
                      o !! k = Some v.
Proof.
  assert (Hok : store_ok three_employees) by store_ok_by_computation.
  split; [exact Hok|]. split; [reflexivity|].
  exact (update_employee_then_get "E2" "Employee updated" (only_salary 5000)
           three_employees _ Hok eq_refl).
Defined.

Lemma update_employee_refused_by_store_witness :
  store_ok three_employees
  /\ (exists d, d ∈ employees_collection three_employees /\ has_employee_id "E2" d)
  /\ refused_field empty_date
  /\ (forall z, schemas.u_salary empty_date = Some (Some z) -> fits_int64 z = true)
  /\ update_employee "E2" empty_date three_employees = (Raise WriteError, three_employees).
Proof.
  assert (Hok : store_ok three_employees) by store_ok_by_computation.
  assert (Hd : exists d, d ∈ employees_collection three_employees
                         /\ has_employee_id "E2" d).
  { exists (stored 1 bob). split; [right; left | reflexivity]. }
  assert (Hbad : refused_field empty_date).
  { do 5 right. left. exists EmptyString. split; reflexivity. }
  assert (Hz : forall z, schemas.u_salary empty_date = Some (Some z) ->
                         fits_int64 z = true) by discriminate.
  split; [exact Hok|]. split; [exact Hd|]. split; [exact Hbad|]. split; [exact Hz|].
  exact (update_employee_refused_by_store "E2" empty_date three_employees Hok Hd Hbad Hz).
Defined.
End updating_examples.

(** ** The edges of the list, and what the queries leave alone *)

Section listing.
Import db collection invariant apicall sample.

Local Abbreviation valid d := (validates employee_schema (fields d) = true).

Lemma list_employees_query department l :
  Forall (fun d => valid d) l ->
  department <> Some EmptyString ->
  List.filter
    (matches (if truthy department
              then q_field "department" (default EmptyString department)
              else q_all)) l
  = filter (in_department department) l.
Proof.
  intros Hvalid Hdep. destruct department as [dep|]; cbn; [|apply filter_all].
  destruct (String.eqb_spec dep EmptyString) as [-> | _]; [done|].
  cbn. by apply filter_department_valid.
Qed.

Lemma apply_limit_valid limit l :
  Forall (fun d => valid d) l -> Forall (fun d => valid d) (apply_limit limit l).
Proof.
  intros H. unfold apply_limit.
  destruct (limit =? 0); [exact H|]. destruct (0 <? limit); by apply Forall_take.
Qed.

Lemma apply_limit_length limit l :
  (0 < limit -> Z.of_nat (length (apply_limit limit l)) <= limit)
  /\ (limit < 0 -> Z.of_nat (length (apply_limit limit l)) <= - limit).
Proof.
  unfold apply_limit. split; intros H.
  - rewrite (proj2 (Z.eqb_neq _ _)) by lia. rewrite (proj2 (Z.ltb_lt _ _)) by lia.
    rewrite length_take. lia.
  - rewrite (proj2 (Z.eqb_neq _ _)) by lia. rewrite (proj2 (Z.ltb_ge _ _)) by lia.
    rewrite length_take. lia.
Qed.

(** With size 0 the list is not paged: on a store that satisfies the
    invariant, for a department filter that is absent or a non-empty
    string, [list_employees] returns every record of the department
    (every record without a filter), latest [joining_date] first,
    whatever the page number is; every item returned carries the
    ObjectId and the fields of its record. *)
Theorem list_employees_size_zero_unpaged
    (department : option string) (page : Z) (st : database) :
  store_ok st ->
  department <> Some EmptyString ->
  exists sorted out,
    sorted ≡ₚ filter (in_department department) (employees_collection st)
    /\ StronglySorted joined_no_earlier sorted
    /\ list_employees department page 0 st = (Ok out, st)
    /\ Forall2 shows sorted out.
Proof.
  intros (Hvalid & _ & _) Hdep.
  destruct (sort_desc_spec (in_department department) _ Hvalid)
    as (Hperm & Hsorted & Hv).
  set (sorted := sort_desc "joining_date"
                   (filter (in_department department) (employees_collection st))) in *.
  destruct (employee_helper_all_valid _ Hv) as (out & Hout & Hall).
  exists sorted, out. split; [exact Hperm|]. split; [exact Hsorted|].
  split; [|by apply Forall2_shows].
  unfold list_employees, find_sort_skip_limit, bind, raise, lift.
  rewrite Z.mul_0_r.
  change (0 <? 0) with false.
  change (fits_int64 0 && fits_int64 (Z.abs 0)) with true.
  cbn [negb]. cbn beta. rewrite (list_employees_query _ _ Hvalid Hdep).
  unfold apply_limit. change (0 =? 0) with true.
  change (Z.to_nat 0) with O. rewrite drop_0.
  fold sorted. by rewrite Hout.
Qed.

(** The three outcomes of [list_employees] on a store that satisfies
    the invariant.  A negative (page-1)*size is refused with the
    ValueError "skip must be >= 0"; a skip or a size that needs more
    than eight bytes cannot be sent and raises OverflowError; every
    other call returns a list, of at most [size] items for a positive
    size and of at most [-size] items for a negative one.  The store
    stays as it is. *)
Theorem list_employees_outcomes
    (department : option string) (page size : Z) (st : database) :
  store_ok st ->
  ((page - 1) * size < 0
   /\ list_employees department page size st
      = (Raise (ValueError "skip must be >= 0"), st))
  \/ (0 <= (page - 1) * size
      /\ (2 ^ 63 <= (page - 1) * size \/ 2 ^ 63 <= Z.abs size)
      /\ list_employees department page size st = (Raise OverflowError, st))
  \/ (0 <= (page - 1) * size < 2 ^ 63
      /\ Z.abs size < 2 ^ 63
      /\ exists out,
           list_employees department page size st = (Ok out, st)
           /\ (0 < size -> Z.of_nat (length out) <= size)
           /\ (size < 0 -> Z.of_nat (length out) <= - size)).
Proof.
  intros (Hvalid & _ & _).
  unfold list_employees, find_sort_skip_limit, bind, raise, lift.
  destruct (Z.ltb_spec ((page - 1) * size) 0) as [Hneg | Hpos];
    [left; by split|right].
  destruct (fits_int64 ((page - 1) * size) && fits_int64 (Z.abs size)) eqn:Hf;
    cbn [negb].
  - right. apply andb_true_iff in Hf as [H1%fits_int64_iff H2%fits_int64_iff].
    split; [lia|]. split; [lia|]. cbn beta.
    match goal with
    | |- context [employee_helper_all ?l] => set (page_docs := l)
    end.
    assert (Hpv : Forall (fun d => valid d) page_docs).
    { apply apply_limit_valid, Forall_drop.
      rewrite sort_desc_perm. apply Forall_forall.
      intros d [Hd _]%list_elem_of_In%filter_In. rewrite Forall_forall in Hvalid.
      by apply Hvalid, list_elem_of_In. }
    destruct (employee_helper_all_valid _ Hpv) as (out & Hout & Hall).
    exists out. rewrite Hout. split; [reflexivity|].
    rewrite <- (Forall2_length _ _ _ Hall). apply apply_limit_length.
  - left. split; [exact Hpos|]. split; [|reflexivity].
    apply andb_false_iff in Hf as [Hf | Hf].
    + left. unfold fits_int64 in Hf.
      apply andb_false_iff in Hf as [?%Z.leb_gt | ?%Z.ltb_ge]; lia.
    + right. unfold fits_int64 in Hf.
      apply andb_false_iff in Hf as [?%Z.leb_gt | ?%Z.ltb_ge]; lia.
Qed.

(** The reading handlers never change the database, whether they
    return or raise. *)
Theorem queries_leave_database
    (department : option string) (page size : Z) (skill employee_id : string)
    (st : database) :
  (list_employees department page size st).2 = st
  /\ (search_by_skill skill st).2 = st
  /\ (avg_salary_by_department st).2 = st
  /\ (get_employee employee_id st).2 = st.
Proof.
  split; [|split; [|split]].
  - unfold list_employees, find_sort_skip_limit, bind, raise, lift.
    destruct (_ <? 0); [reflexivity|]. by destruct (negb _).
  - reflexivity.
  - reflexivity.
  - unfold get_employee, bind, find_one, raise, lift. by destruct (head _).
Qed.
End listing.

Section listing_examples.
Import db collection invariant apicall sample.

Lemma list_employees_size_zero_unpaged_witness :
  store_ok three_employees
  /\ Some "Eng" <> Some EmptyString
  /\ exists sorted out,
       sorted ≡ₚ filter (in_department (Some "Eng")) (employees_collection three_employees)
       /\ StronglySorted joined_no_earlier sorted
       /\ list_employees (Some "Eng") 7 0 three_employees = (Ok out, three_employees)
       /\ Forall2 shows sorted out.
Proof.
  assert (Hok : store_ok three_employees) by store_ok_by_computation.
  split; [exact Hok|]. split; [discriminate|].
  apply (list_employees_size_zero_unpaged (Some "Eng") 7 three_employees Hok).
  discriminate.
Defined.

Lemma list_employees_outcomes_witness :
  store_ok three_employees
  /\ (((0 - 1) * 50 < 0
       /\ list_employees None 0 50 three_employees
          = (Raise (ValueError "skip must be >= 0"), three_employees))
      \/ (0 <= (0 - 1) * 50
          /\ (2 ^ 63 <= (0 - 1) * 50 \/ 2 ^ 63 <= Z.abs 50)
          /\ list_employees None 0 50 three_employees
             = (Raise OverflowError, three_employees))
      \/ (0 <= (0 - 1) * 50 < 2 ^ 63
          /\ Z.abs 50 < 2 ^ 63
          /\ exists out,
               list_employees None 0 50 three_employees = (Ok out, three_employees)
               /\ (0 < 50 -> Z.of_nat (length out) <= 50)
               /\ (50 < 0 -> Z.of_nat (length out) <= - 50))).
Proof.
  assert (Hok : store_ok three_employees) by store_ok_by_computation.
  split; [exact Hok|]. exact (list_employees_outcomes None 0 50 three_employees Hok).
Defined.
End listing_examples.

(** ** Login *)

Section login_facts.
Import db collection invariant apicall sample.

Variable SECRET_KEY : string.
Variable sign : string -> string * Z -> string.
Variable ACCESS_TOKEN_EXPIRE_MINUTES : Z.
Variable verify_password : string -> string -> bool.

Local Abbreviation login :=
  (login_for_access_token SECRET_KEY sign ACCESS_TOKEN_EXPIRE_MINUTES verify_password).
Local Abbreviation bad_login :=
  (HTTPException 401 "Incorrect username or password").

(** [login_for_access_token] never changes the database.  Its only
    failure is the answer 401 "Incorrect username or password", the
    same for an unknown user name and for a wrong password.  When it
    returns, the token type is "bearer" and a stored user has the name
    and a password hash that the password verifies against; and it
    fails when no stored user has the name. *)
Theorem login_for_access_token_outcomes
    (login_username login_password : string) (now : Z) (st : database) :
  (login login_username login_password now st).2 = st
  /\ (forall e,
        (login login_username login_password now st).1 = Raise e -> e = bad_login)
  /\ (forall token token_type,
        (login login_username login_password now st).1 = Ok (token, token_type) ->
        token_type = "bearer"
        /\ exists user,
             user ∈ users_collection st
             /\ username user = login_username
             /\ verify_password login_password (hashed_password user) = true)
  /\ ((forall user, user ∈ users_collection st -> username user <> login_username) ->
      (login login_username login_password now st).1 = Raise bad_login).
Proof.
  unfold login_for_access_token, bind, auth.findByUsername, raise, ret.
  destruct (head (List.filter (fun d => String.eqb (username d) login_username)
                    (users_collection st))) as [u|] eqn:Hh.
  - assert (Hu : u ∈ users_collection st /\ username u = login_username).
    { destruct (List.filter _ _) as [|x l] eqn:Hf; [discriminate|].
      injection Hh as ->.
      assert (Hin : In u (List.filter (fun d => String.eqb (username d) login_username)
                            (users_collection st))) by (rewrite Hf; by left).
      apply filter_In in Hin as [Hin Heq]. split; [by apply list_elem_of_In|].
      by apply String.eqb_eq. }
    destruct (verify_password login_password (hashed_password u)) eqn:Hpw; cbn.
    + split; [reflexivity|]. split; [discriminate|]. split.
      * intros token token_type [= _ <-]. split; [reflexivity|].
        exists u. destruct Hu. done.
      * intros Hnone. destruct Hu as [Hin Heq]. by destruct (Hnone u Hin).
    + split; [reflexivity|]. split; [by intros e [= <-]|]. split; [discriminate|].
      reflexivity.
  - cbn. split; [reflexivity|]. split; [by intros e [= <-]|]. split; [discriminate|].
    reflexivity.
Qed.
End login_facts.

(** ** The edges of the salary report *)

Section report_edges.
Import db collection invariant apicall sample.

Local Abbreviation report_conditions :=
  [ ("salary", [c_exists true; c_type bt_int]); ("department", [c_exists true]) ].

Lemma stage_match_unreported d l :
  unreported d ->
  stage_match report_conditions (d :: l) = stage_match report_conditions l.
Proof.
  intros Hd. rewrite stage_match_report_cons.
  destruct (fields d !! "salary") as [[|z|s|sk]|] eqn:Es; try reflexivity.
  destruct (fields d !! "department") as [g|] eqn:Eg; try reflexivity.
  destruct (fits_int32 z) eqn:Hz; [|reflexivity].
  specialize (Hd g). unfold aggregated_salary in Hd. rewrite Es, Eg, Hz in Hd.
  rewrite bool_decide_eq_true_2 in Hd by reflexivity. discriminate.
Qed.

Lemma report_row_inj g a g' a' : report_row g a = report_row g' a' -> g = g' /\ a = a'.
Proof.
  intros H.
  pose proof (f_equal (fun m => m !! "department") H) as H1.
  pose proof (f_equal (fun m => m !! "avg_salary") H) as H2.
  cbn beta in H1, H2. unfold report_row in H1, H2.
  rewrite !lookup_insert_eq in H1.
  rewrite lookup_insert_ne, lookup_insert_eq in H2 by done.
  rewrite lookup_insert_ne, lookup_insert_eq in H2 by done.
  split; congruence.
Qed.

(** A record that has no salary, a salary that is not a 32-bit int, or
    no department takes no part in the report: with such a record put
    anywhere into the collection the report is the same. *)
Theorem avg_salary_ignores_unreported
    (d : document) (l1 l2 : list document) (st : database) :
  unreported d ->
  employees_collection st = l1 ++ l2 ->
  (avg_salary_by_department (set_employees (l1 ++ d :: l2) st)).1
  = (avg_salary_by_department st).1.
Proof.
  intros Hd Hl. unfold avg_salary_by_department, aggregate, bind, lift.
  cbn [set_employees employees_collection]. rewrite Hl.
  assert (Hp : pipeline (l1 ++ d :: l2) = pipeline (l1 ++ l2)).
  { unfold pipeline. f_equal. f_equal.
    unfold stage_match. rewrite !List.filter_app. f_equal.
    exact (stage_match_unreported d l2 Hd). }
  rewrite Hp. reflexivity.
Qed.

(** For a department of fewer than 2^21 reported records, the average
    of its row is the mean of their salaries rounded to the nearest
    integer, and a mean that lies halfway between two integers is
    rounded to the even one of them. *)
Theorem avg_salary_tie_to_even
    (st : database) (rows : list (gmap string value)) (g : value) (a : Z) :
  avg_salary_by_department st = (Ok rows, st) ->
  report_row g a ∈ rows ->
  Z.of_nat (length (salaries_of g (employees_collection st))) < 2 ^ 21 ->
  a = rounded_mean (salaries_of g (employees_collection st))
  /\ (2 * (foldr Z.add 0 (salaries_of g (employees_collection st))
           mod Z.of_nat (length (salaries_of g (employees_collection st))))
      = Z.of_nat (length (salaries_of g (employees_collection st))) ->
      Z.even a = true).
Proof.
  unfold avg_salary_by_department, aggregate, bind, lift.
  rewrite pipeline_rows, results_of_rows. intros [= <-].
  intros (g' & [-> ->]%report_row_inj & Hg)%list_elem_of_fmap Hsmall.
  apply elem_of_remove_dups, group_keys in Hg.
  rewrite reported_mean_small; [|exact Hg|exact Hsmall|apply salaries_of_int32].
  split; [reflexivity|]. intros Htie.
  apply round_half_even_tie; [|exact Htie].
  destruct (salaries_of g' (employees_collection st)); [done | cbn; lia].
Qed.
End report_edges.

Section report_examples.
Import db collection invariant apicall sample.

Lemma avg_salary_ignores_unreported_witness :
  unreported no_department
  /\ employees_collection three_employees = [stored 0 ann] ++ [stored 1 bob; stored 2 cy]
  /\ (avg_salary_by_department
        (set_employees ([stored 0 ann] ++ no_department :: [stored 1 bob; stored 2 cy])
           three_employees)).1
     = (avg_salary_by_department three_employees).1.
Proof.
  assert (Hd : unreported no_department) by (intros g; reflexivity).
  split; [exact Hd|]. split; [reflexivity|].
  exact (avg_salary_ignores_unreported no_department [stored 0 ann]
           [stored 1 bob; stored 2 cy] three_employees Hd eq_refl).
Defined.

Lemma avg_salary_tie_to_even_witness :
  avg_salary_by_department
    (set_employees [stored 0 ann; stored 1 (employee "E2" "Bob" "Eng" 201 "2023-07-15" [])]
       three_employees)
  = (Ok [report_row (VStr "Eng") 150],
     set_employees [stored 0 ann; stored 1 (employee "E2" "Bob" "Eng" 201 "2023-07-15" [])]
       three_employees)
  /\ report_row (VStr "Eng") 150 ∈ [report_row (VStr "Eng") 150]
  /\ Z.of_nat (length [100; 201]) < 2 ^ 21
  /\ 150 = rounded_mean [100; 201]
  /\ (2 * (foldr Z.add 0 [100; 201] mod Z.of_nat (length [100; 201]))
      = Z.of_nat (length [100; 201]) ->
      Z.even 150 = true).
Proof.
  split; [reflexivity|]. split; [left|]. split; [reflexivity|].
  exact (avg_salary_tie_to_even
           (set_employees
              [stored 0 ann; stored 1 (employee "E2" "Bob" "Eng" 201 "2023-07-15" [])]
              three_employees)
           [report_row (VStr "Eng") 150] (VStr "Eng") 150 eq_refl
           (list_elem_of_here _ _) eq_refl).
Defined.
End report_examples.
